(** * Procman: order lifecycle, totals engine and audit log

    A shallow embedding of the order core of [Backup/app.py] and of the
    order-number generator of [Backup/db.py], with the properties of the
    specification stated against it.

    Conventions of the embedding

    - A request handler [f] that runs inside [with get_conn() as conn] is a
      function [db -> response * db]: the returned database is the one the
      transaction commits.  A Python exception that leaves the handler is
      answered with status 500 and commits nothing.
    - Python scalars are [value]s: [None], [int] (a JSON boolean is the
      [int] 0 or 1), [float] (the kernel's binary64 numbers, which is what
      Python and SQLite REAL use) and [str].  JSON arrays and objects as
      field values are outside the model: sqlite3 cannot bind them.
    - [float()] of a [str] and [str()] of a [float] are Python builtins whose
      code is not part of the repository, and so are the two conversions of
      SQLite between text and numbers; they are the fields of [builtins],
      over which the whole development is parametric.
    - What SQLite does to a value it stores is modelled where the handlers
      read it back or compare with it: a NaN is bound as NULL
      ([sqlite_bind]); the columns of [pedidos] have their type affinity
      ([sqlite_store], in the INSERT of the creation and the UPDATE of the
      header patch); the package lookup compares with the TEXT affinity of
      [embalagem_code].  The columns of [pedido_itens] hold what is bound
      and those of [ordens_producao] what the request gives, without the
      affinity of their columns.  Foreign keys, unique indexes and the
      64-bit range of INTEGER are not modelled.
    - [str.upper] and [str.strip] are modelled on ASCII.
    - Login, roles and the [user_id] column of the audit log belong to the
      session layer and are left out. *)

From Stdlib Require Import ZArith Ascii String Floats SpecFloat DecimalString DecimalN.
From stdpp Require Import gmap strings list fin_maps relations.

Local Open Scope char_scope.
Local Open Scope string_scope.
Local Open Scope Z_scope.

(** ** Python values *)

Inductive value :=
| VNone
| VInt (n : Z)
| VFloat (f : float)
| VStr (s : string).

(** The functions of the runtime taken as parameters.  Of Python: [float(s)]
    for a [str] ([None] when it raises [ValueError]) and [str(f)] for a
    [float].  Of SQLite: the INTEGER or REAL that NUMERIC affinity makes of
    a text ([None] when the text is not a number, and stays text), and the
    text that TEXT affinity makes of a REAL. *)
Record builtins := Builtins {
  py_float_of_str : string -> option float;
  py_float_repr : float -> string;
  sqlite_numeric_of_text : string -> option value;
  sqlite_text_of_float : float -> string }.

Definition is_none (v : value) : bool :=
  match v with VNone => true | _ => false end.

(** Truth value of a scalar: [None], [0], [0.0], [-0.0] and [''] are false. *)
Definition truthy (v : value) : bool :=
  match v with
  | VNone => false
  | VInt n => negb (n =? 0)
  | VFloat f => negb (f =? 0)%float
  | VStr s => negb (String.eqb s "")
  end.

(** [v or d] *)
Definition py_or (v d : value) : value := if truthy v then v else d.

(** [float(n)] for an [int]: correctly rounded. *)
Definition float_of_Z (n : Z) : float :=
  SF2Prim (binary_normalize prec emax n 0 false).

(** Exact comparison of an [int] with a [float], as Python's [==] does it. *)
Definition Z_eq_float (n : Z) (f : float) : bool :=
  match Prim2SF f with
  | S754_zero _ => n =? 0
  | S754_finite s m e =>
      let z := if s then Z.neg m else Z.pos m in
      if 0 <=? e then n =? z * 2 ^ e else n * 2 ^ (- e) =? z
  | _ => false
  end.

(** [a == b] and [a != b] on scalars. *)
Definition py_eq (a b : value) : bool :=
  match a, b with
  | VNone, VNone => true
  | VInt n, VInt m => n =? m
  | VFloat f, VFloat g => (f =? g)%float
  | VInt n, VFloat f => Z_eq_float n f
  | VFloat f, VInt n => Z_eq_float n f
  | VStr s, VStr t => String.eqb s t
  | _, _ => false
  end.

Definition py_ne (a b : value) : bool := negb (py_eq a b).

(** [x > k] for an [int] constant [k]; [None] when Python raises [TypeError]. *)
Definition py_gt_int (v : value) (k : Z) : option bool :=
  match v with
  | VInt n => Some (k <? n)
  | VFloat f => Some (float_of_Z k <? f)%float
  | _ => None
  end.

(** Decimal digits of a natural number, and [str(n)] for an [int]. *)
Definition digits (n : N) : string := NilZero.string_of_uint (N.to_uint n).

Definition str_of_Z (n : Z) : string :=
  if n <? 0 then "-" ++ digits (Z.abs_N n) else digits (Z.abs_N n).

Fixpoint zeros (k : nat) : string :=
  match k with O => "" | S k' => String ("0" : ascii) (zeros k') end.

(** [s.zfill(w)] on a string of digits. *)
Definition zfill (w : nat) (s : string) : string :=
  zeros (w - String.length s) ++ s.

(** The format [{n:06d}]: sign first, then zeros up to six characters. *)
Definition fmt_06d (n : Z) : string :=
  if n <? 0 then "-" ++ zfill 5 (digits (Z.abs_N n))
  else zfill 6 (digits (Z.abs_N n)).

Definition upper_ascii (c : ascii) : ascii :=
  let n := nat_of_ascii c in
  if (Nat.leb 97 n && Nat.leb n 122)%bool then ascii_of_nat (n - 32) else c.

Fixpoint upper (s : string) : string :=
  match s with
  | EmptyString => EmptyString
  | String c s' => String (upper_ascii c) (upper s')
  end.

Definition is_space (c : ascii) : bool :=
  let n := nat_of_ascii c in
  ((Nat.leb 9 n && Nat.leb n 13) || (Nat.leb 28 n && Nat.leb n 32))%bool.

Fixpoint lstrip (s : string) : string :=
  match s with
  | String c s' => if is_space c then lstrip s' else s
  | EmptyString => EmptyString
  end.

Fixpoint rstrip (s : string) : string :=
  match s with
  | EmptyString => EmptyString
  | String c s' =>
      match rstrip s' with
      | EmptyString => if is_space c then EmptyString else String c EmptyString
      | r => String c r
      end
  end.

Definition strip (s : string) : string := rstrip (lstrip s).

(** [v.upper()] and [v.strip()]: only a [str] has the method. *)
Definition py_upper (v : value) : option string :=
  match v with VStr s => Some (upper s) | _ => None end.

Definition py_strip (v : value) : option string :=
  match v with VStr s => Some (strip s) | _ => None end.

Section Builtins.

Variable B : builtins.

(** [float(v)]; [None] when it raises ([TypeError], [ValueError], or
    [OverflowError] for an [int] beyond the range of a double). *)
Definition py_float (v : value) : option float :=
  match v with
  | VNone => None
  | VInt n => let f := float_of_Z n in if is_infinity f then None else Some f
  | VFloat f => Some f
  | VStr s => py_float_of_str B s
  end.

(** [str(v)] *)
Definition py_str (v : value) : string :=
  match v with
  | VNone => "None"
  | VInt n => str_of_Z n
  | VFloat f => py_float_repr B f
  | VStr s => s
  end.

End Builtins.

(** ** What SQLite stores *)

(** The module [sqlite3] binds a [float] that is NaN as NULL. *)
Definition sqlite_bind (v : value) : value :=
  match v with
  | VFloat f => if PrimFloat.is_nan f then VNone else v
  | _ => v
  end.

(** The type affinities of the columns that the model stores through. *)
Inductive affinity := AffText | AffInteger | AffReal.

(** The integer that a REAL is, when it is one strictly inside the 64-bit
    range: the values that INTEGER affinity stores as INTEGER. *)
Definition int_of_float (f : float) : option Z :=
  match Prim2SF f with
  | S754_zero _ => Some 0
  | S754_finite s m e =>
      let sign := if s then -1 else 1 in
      let n :=
        if 0 <=? e then Some (Z.pos m * 2 ^ e)
        else if Z.pos m mod 2 ^ (- e) =? 0 then Some (Z.pos m / 2 ^ (- e))
        else None in
      match n with
      | Some n => if n <? 2 ^ 63 then Some (sign * n) else None
      | None => None
      end
  | _ => None
  end.

Section Sqlite.

Variable B : builtins.

(** A value as a column of the given affinity holds it: TEXT turns numbers
    into text; INTEGER turns a text that is a number into that number and a
    REAL that is an integer into the integer; REAL does the same and then
    turns integers into floats. *)
Definition sqlite_affinity (a : affinity) (v : value) : value :=
  match a, v with
  | _, VNone => VNone
  | AffText, VInt n => VStr (str_of_Z n)
  | AffText, VFloat f => VStr (sqlite_text_of_float B f)
  | AffText, VStr _ => v
  | AffInteger, VInt _ => v
  | AffInteger, VFloat f =>
      match int_of_float f with Some n => VInt n | None => v end
  | AffInteger, VStr s =>
      match sqlite_numeric_of_text B s with Some n => n | None => v end
  | AffReal, VInt n => VFloat (float_of_Z n)
  | AffReal, VFloat _ => v
  | AffReal, VStr s =>
      match sqlite_numeric_of_text B s with
      | Some (VInt n) => VFloat (float_of_Z n)
      | Some n => n
      | None => v
      end
  end.

(** A bound parameter as the column stores it. *)
Definition sqlite_store (a : affinity) (v : value) : value :=
  sqlite_affinity a (sqlite_bind v).

End Sqlite.

(** ** Tables, audit entries and responses *)

(** A request body ([request.json]): the pairs of a JSON object, in order. *)
Definition dict : Type := list (string * value).

Fixpoint dict_lookup (k : string) (data : dict) : option value :=
  match data with
  | [] => None
  | (k', v) :: rest => if String.eqb k k' then Some v else dict_lookup k rest
  end.

(** [data.get(k)] and [k in data] *)
Definition dict_get (k : string) (data : dict) : value :=
  default VNone (dict_lookup k data).

Definition dict_has (k : string) (data : dict) : bool :=
  match dict_lookup k data with Some _ => true | None => false end.

(** [k in (a, b, ...)] for string constants. *)
Definition str_in (k : string) (ks : list string) : bool :=
  existsb (String.eqb k) ks.

(** What [json.dumps] receives for the [detalhe_json] column and what
    [jsonify] receives as the extra fields of an error. *)
#[local] Unset Elimination Schemes.
Inductive json :=
| JVal (v : value)
| JBool (b : bool)
| JList (l : list json)
| JObj (o : list (string * json)).
#[local] Set Elimination Schemes.

(** A row of a table read with column names: [row[k]] is [col k row]; a
    column that was never written is NULL. *)
Definition col (k : string) (r : gmap string value) : value :=
  default VNone (r !! k).

(** [pedidos]: [status] and [numero_pedido] are written by the code only;
    the other columns are in [ped_cols]. *)
Record pedido := Pedido {
  status : option string;
  numero_pedido : string;
  ped_cols : gmap string value }.

(** [pedido_itens] *)
Record item := Item {
  item_id : Z;
  item_pedido_id : Z;
  item_cols : gmap string value }.

(** [ordens_producao] *)
Record ordem := Ordem {
  op_id : Z;
  op_pedido_id : Z;
  op_cols : gmap string value }.

(** [pedido_logs] *)
Record log := Log {
  log_pedido_id : Z;
  acao : string;
  detalhe : list (string * json) }.

(** The database.  The [_seq] fields are the AUTOINCREMENT counters: the
    next row of a table gets the counter plus one.  [pedido_itens],
    [pedido_logs] and [ordens_producao] are in rowid order. *)
Record db := DB {
  numeradores : gmap string Z;
  embalagem_master : list (gmap string value);
  pedidos : gmap Z pedido;
  pedidos_seq : Z;
  pedido_itens : list item;
  pedido_itens_seq : Z;
  pedido_logs : list log;
  ordens_producao : list ordem;
  ordens_producao_seq : Z }.

Definition set_numeradores (m : gmap string Z) (d : db) : db :=
  DB m (embalagem_master d) (pedidos d) (pedidos_seq d) (pedido_itens d)
     (pedido_itens_seq d) (pedido_logs d) (ordens_producao d)
     (ordens_producao_seq d).

Definition set_pedidos (m : gmap Z pedido) (d : db) : db :=
  DB (numeradores d) (embalagem_master d) m (pedidos_seq d) (pedido_itens d)
     (pedido_itens_seq d) (pedido_logs d) (ordens_producao d)
     (ordens_producao_seq d).

Definition set_pedidos_seq (n : Z) (d : db) : db :=
  DB (numeradores d) (embalagem_master d) (pedidos d) n (pedido_itens d)
     (pedido_itens_seq d) (pedido_logs d) (ordens_producao d)
     (ordens_producao_seq d).

Definition set_pedido_itens (l : list item) (d : db) : db :=
  DB (numeradores d) (embalagem_master d) (pedidos d) (pedidos_seq d) l
     (pedido_itens_seq d) (pedido_logs d) (ordens_producao d)
     (ordens_producao_seq d).

Definition set_pedido_itens_seq (n : Z) (d : db) : db :=
  DB (numeradores d) (embalagem_master d) (pedidos d) (pedidos_seq d)
     (pedido_itens d) n (pedido_logs d) (ordens_producao d)
     (ordens_producao_seq d).

Definition set_pedido_logs (l : list log) (d : db) : db :=
  DB (numeradores d) (embalagem_master d) (pedidos d) (pedidos_seq d)
     (pedido_itens d) (pedido_itens_seq d) l (ordens_producao d)
     (ordens_producao_seq d).

Definition set_ordens_producao (l : list ordem) (n : Z) (d : db) : db :=
  DB (numeradores d) (embalagem_master d) (pedidos d) (pedidos_seq d)
     (pedido_itens d) (pedido_itens_seq d) (pedido_logs d) l n.

(** [UPDATE pedidos SET k=? WHERE id=?] for a column of [ped_cols], and
    [UPDATE pedidos SET status=? WHERE id=?]. *)
Definition set_col (k : string) (v : value) (p : pedido) : pedido :=
  Pedido (status p) (numero_pedido p) (<[k := v]> (ped_cols p)).

Definition set_status (s : string) (p : pedido) : pedido :=
  Pedido (Some s) (numero_pedido p) (ped_cols p).

(** [INSERT INTO pedido_logs(pedido_id,user_id,acao,detalhe_json)] *)
Definition insert_log (pid : Z) (a : string) (det : list (string * json))
    (d : db) : db :=
  set_pedido_logs (pedido_logs d ++ [Log pid a det]) d.

(** The body of a response and its HTTP status. *)
Inductive body :=
| BError (msg : string) (extra : list (string * json))
| BPedido (id : Z) (p : pedido)
| BItem (it : item)
| BOrdem (o : ordem)
| BEmpty.

Definition response : Type := body * Z.

(** [bad_request(msg, extra)]: status 400, [{"error": msg, **extra}]. *)
Definition bad_request (msg : string) (extra : list (string * json)) : response :=
  (BError msg extra, 400).

(** [jsonify({"error": msg}), 404] *)
Definition not_found (msg : string) : response := (BError msg [], 404).

(** An exception that leaves the handler. *)
Definition server_error : response := (BError "Internal Server Error" [], 500).

Definition succeeded (r : response) : bool :=
  (200 <=? snd r) && (snd r <? 300).

(** ** Order numbers ([db.py]) *)

(** [gerar_codigo_pedido(conn)]: INSERT OR IGNORE of the row [('PED', 0)],
    read [ultimo], write [ultimo + 1], format. *)
Definition gerar_codigo_pedido (d : db) : string * db :=
  let nums :=
    match numeradores d !! "PED" with
    | Some _ => numeradores d
    | None => <["PED" := 0]> (numeradores d)
    end in
  let ultimo := default 0 (nums !! "PED") in
  let prox := ultimo + 1 in
  ("PED-" ++ fmt_06d prox, set_numeradores (<["PED" := prox]> nums) d).

(** ** Totals engine *)

(** [SELECT ... FROM pedido_itens WHERE pedido_id=?] *)
Definition itens_do_pedido (d : db) (pid : Z) : list item :=
  filter (λ it, item_pedido_id it = pid) (pedido_itens d).

Section Totals.

Variable B : builtins.

(** The loop of [_recalc_pedido_totais] over the items: an item whose
    [preco_unit] or [qtd] does not convert is skipped ([except: pass]). *)
Definition soma_itens (itens : list item) : float :=
  foldl (λ total it,
           match py_float B (py_or (col "preco_unit" (item_cols it)) (VInt 0)) with
           | Some pu =>
               match py_float B (py_or (col "qtd" (item_cols it)) (VInt 0)) with
               | Some qtd => (total + pu * qtd)%float
               | None => total
               end
           | None => total
           end) 0%float itens.

(** [new_total] of [_recalc_pedido_totais]. *)
Definition new_total (ped : pedido) (itens : list item) : value :=
  match itens with
  | _ :: _ => VFloat (soma_itens itens)
  | [] =>
      let preco_base := col "preco_base" (ped_cols ped) in
      let quantidade_planejada := col "quantidade_planejada" (ped_cols ped) in
      if is_none preco_base || is_none quantidade_planejada then VNone
      else
        match py_float B preco_base with
        | Some pb =>
            match py_float B quantidade_planejada with
            | Some qp => VFloat (pb * qp)%float
            | None => preco_base
            end
        | None => preco_base
        end
  end.

(** [_recalc_pedido_totais(conn, pedido_id)]: the new total, and the
    database after [UPDATE pedidos SET preco_total=? WHERE id=?], in which
    a total that is NaN is bound as NULL.  The total is a [float] or, in
    the fallback, what the REAL column [preco_base] holds: values that the
    REAL affinity of [preco_total] leaves as they are. *)
Definition _recalc_pedido_totais (d : db) (pid : Z) : value * db :=
  match pedidos d !! pid with
  | None => (VNone, d)
  | Some ped =>
      let nt := new_total ped (itens_do_pedido d pid) in
      (nt, set_pedidos (<[pid := set_col "preco_total" (sqlite_bind nt) ped]> (pedidos d)) d)
  end.

End Totals.

(** ** Request handlers ([app.py]) *)

(** The affinity of the columns of [pedidos] that the handlers write
    ([db.py], CREATE TABLE and the additive migration). *)
Definition pedidos_affinity (k : string) : affinity :=
  if str_in k ["cliente_id"; "representante_id"] then AffInteger
  else if str_in k ["preco_total"; "margem_toler_percent"; "comissao_percent";
                    "quantidade_planejada"; "preco_base"] then AffReal
  else AffText.

Section Handlers.

Variable B : builtins.

(** A column of [pedidos] with the value that the table holds for a bound
    parameter. *)
Definition pedidos_store (kv : string * value) : string * value :=
  (kv.1, sqlite_store B (pedidos_affinity kv.1) kv.2).

(** The block that follows every item mutation (lines 775-784, 809-818 and
    894-903 of [app.py], the same text three times): read the stored total,
    recompute, and log [RECALC_TOTAL] when the new total is not [None] and
    differs from the one read. *)
Definition recalc_total_logged (pid : Z) (d : db) : db :=
  let old_total :=
    match pedidos d !! pid with
    | Some ped => col "preco_total" (ped_cols ped)
    | None => VNone
    end in
  let '(nt, d1) := _recalc_pedido_totais B d pid in
  if negb (is_none nt) && py_ne nt old_total
  then insert_log pid "RECALC_TOTAL" [("de", JVal old_total); ("para", JVal nt)] d1
  else d1.

(** [api_pedidos_create]; [hoje] is [date.today().isoformat()]. *)
Definition api_pedidos_create (hoje : string) (data : dict) (d : db)
    : response * db :=
  let cliente_id := dict_get "cliente_id" data in
  if negb (truthy cliente_id) then (bad_request "cliente_id obrigatório" [], d)
  else
    let data_prevista := dict_get "data_prevista" data in
    match py_strip (py_or (dict_get "regime_venda" data) (VStr "")) with
    | None => (server_error, d)
    | Some regime_venda =>
        let '(numero, d1) := gerar_codigo_pedido d in
        let quantidade_planejada := dict_get "quantidade_planejada" data in
        let preco_base := dict_get "preco_base" data in
        let preco_total := dict_get "preco_total" data in
        let preco_total :=
          if is_none preco_total && negb (is_none preco_base)
             && truthy quantidade_planejada
          then
            match py_float B preco_base with
            | Some pb =>
                match py_float B quantidade_planejada with
                | Some qp => VFloat (pb * qp)%float
                | None => preco_base
                end
            | None => preco_base
            end
          else preco_total in
        let row :=
          Pedido (Some "RASCUNHO") numero
            (list_to_map
              (map pedidos_store
               [("cliente_id", cliente_id);
                ("data_emissao", VStr hoje);
                ("data_prevista", data_prevista);
                ("quantidade_tipo", py_or (dict_get "quantidade_tipo" data) (VStr "UN"));
                ("preco_total", preco_total);
                ("margem_toler_percent",
                  default (VInt 0) (dict_lookup "margem_toler_percent" data));
                ("ncm", dict_get "ncm" data);
                ("representante_id", dict_get "representante_id" data);
                ("regime_venda", VStr regime_venda);
                ("comissao_percent", dict_get "comissao_percent" data);
                ("condicoes_comerciais", dict_get "condicoes_comerciais" data);
                ("representante_nome", dict_get "representante_nome" data);
                ("quantidade_planejada", quantidade_planejada);
                ("embalagem_code", dict_get "embalagem_code" data);
                ("preco_base", preco_base)])) in
        let pid := pedidos_seq d1 + 1 in
        let d2 := set_pedidos_seq pid (set_pedidos (<[pid := row]> (pedidos d1)) d1) in
        let d3 := insert_log pid "CREATED" [("numero", JVal (VStr numero))] d2 in
        ((BPedido pid row, 201), d3)
    end.

Definition allowed_fields : list string :=
  ["cliente_id"; "data_prevista"; "regime_venda"; "comissao_percent";
   "representante_nome"; "quantidade_planejada"; "condicoes_comerciais";
   "embalagem_code"; "preco_base"; "preco_total"; "quantidade_tipo"; "ncm";
   "margem_toler_percent"].

Definition trigger_recalc_keys : list string :=
  ["preco_base"; "quantidade_planejada"; "quantidade_tipo"].

(** The test of the diff loop of [api_pedidos_update]. *)
Definition field_changed (ov nv : value) : bool :=
  (is_none ov && negb (is_none nv)) || (negb (is_none ov) && is_none nv)
  || negb (String.eqb (py_str B ov) (py_str B nv)).

(** [changed]: the keys of [clean] whose column differs between [row_old]
    and [row_new], with both values. *)
Definition changed_fields (clean : dict) (row_old row_new : pedido)
    : list (string * (value * value)) :=
  omap (λ kv : string * value,
          let ov := col kv.1 (ped_cols row_old) in
          let nv := col kv.1 (ped_cols row_new) in
          if field_changed ov nv then Some (kv.1, (ov, nv)) else None) clean.

Definition json_fields (changed : list (string * (value * value))) : json :=
  JObj (map (λ c : string * (value * value),
               (c.1, JObj [("old", JVal c.2.1); ("new", JVal c.2.2)])) changed).

(** [clean = {k: v for k, v in data.items() if k in allowed_fields}] *)
Definition clean_fields (data : dict) : dict :=
  List.filter (λ kv : string * value, str_in kv.1 allowed_fields) data.

(** The derived adjustment of [api_pedidos_update]: without items, a new
    [preco_base] is copied to [preco_total] unless the request gives one. *)
Definition derive_total (itens_count : nat) (clean : dict) : dict :=
  if dict_has "preco_base" clean && negb (dict_has "preco_total" clean)
     && Nat.eqb itens_count 0
  then (clean ++ [("preco_total", dict_get "preco_base" clean)])%list
  else clean.

(** [UPDATE pedidos SET k1=?, k2=?, ... WHERE id=?] on the row, as the
    SELECT that follows reads it: each value as its column stores it. *)
Definition patch_row (row_old : pedido) (clean : dict) : pedido :=
  foldl (λ p (kv : string * value),
           set_col kv.1 (sqlite_store B (pedidos_affinity kv.1) kv.2) p) row_old clean.

(** [api_pedidos_update]: the header patch. *)
Definition api_pedidos_update (pid : Z) (data : dict) (d : db) : response * db :=
  let clean := clean_fields data in
  match clean with
  | [] => (bad_request "Nenhum campo permitido para atualização" [], d)
  | _ :: _ =>
      match pedidos d !! pid with
      | None => (not_found "pedido não encontrado", d)
      | Some row_old =>
          if negb (bool_decide (status row_old = Some "RASCUNHO"))
          then (bad_request
                  ("Pedido não pode mais ser editado (status atual = "
                   ++ default "None" (status row_old) ++ ")") [], d)
          else
            let itens_count := length (itens_do_pedido d pid) in
            let clean := derive_total itens_count clean in
            let row_new := patch_row row_old clean in
            let d1 := set_pedidos (<[pid := row_new]> (pedidos d)) d in
            let changed := changed_fields clean row_old row_new in
            let d2 :=
              match changed with
              | [] => d1
              | _ :: _ => insert_log pid "UPDATED" [("fields", json_fields changed)] d1
              end in
            if Nat.eqb itens_count 0
               && existsb (λ c : string * (value * value), str_in c.1 trigger_recalc_keys) changed
            then
              let old_total := col "preco_total" (ped_cols row_old) in
              let '(nt, d3) := _recalc_pedido_totais B d2 pid in
              if negb (is_none nt) && py_ne nt old_total
              then
                let d4 :=
                  insert_log pid "RECALC_TOTAL"
                    [("de", JVal old_total); ("para", JVal nt);
                     ("motivo", JVal (VStr "patch campos base sem itens"))] d3 in
                ((BPedido pid (default row_new (pedidos d4 !! pid)), 200), d4)
              else ((BPedido pid row_new, 200), d3)
            else ((BPedido pid row_new, 200), d2)
      end
  end.

(** SQL [a = b] on bound values: never true on NULL. *)
Definition sql_eq (a b : value) : bool :=
  negb (is_none a) && negb (is_none b) && py_eq a b.

(** [IFNULL(v, '')] *)
Definition ifnull (v : value) : value :=
  if is_none v then VStr "" else v.

(** The package specification of [(embalagem_code, rev)]:
    [WHERE embalagem_code=? AND IFNULL(rev,'')=IFNULL(?, '')].  The first
    comparison is with a column, whose TEXT affinity is applied to the
    parameter; the second is between expressions, which have none. *)
Definition find_embalagem (d : db) (code rev : value) : option (gmap string value) :=
  List.find (λ emb, sql_eq (col "embalagem_code" emb) (sqlite_store B AffText code)
                    && sql_eq (ifnull (col "rev" emb)) (ifnull (sqlite_bind rev)))
            (embalagem_master d).

(** [1 if (t or 0) > -9999 and t is not None else 0]; [None] when the
    comparison raises. *)
Definition snapshot_tratamento (t : value) : option value :=
  match py_gt_int (py_or t (VInt 0)) (-9999) with
  | None => None
  | Some gt => Some (if gt && negb (is_none t) then VInt 1 else VInt 0)
  end.

(** [api_pedido_itens_add] *)
Definition api_pedido_itens_add (pid : Z) (data : dict) (d : db) : response * db :=
  match pedidos d !! pid with
  | None => (not_found "pedido não encontrado", d)
  | Some ped =>
      if negb (String.eqb (upper (default "" (status ped))) "RASCUNHO")
      then (bad_request "Pedido não está em RASCUNHO (itens bloqueados)" [], d)
      else
        match find_embalagem d (dict_get "embalagem_code" data) (dict_get "rev" data) with
        | None => (bad_request "Embalagem não encontrada para snapshot" [], d)
        | Some emb =>
            match snapshot_tratamento (col "transparencia" emb) with
            | None => (server_error, d)
            | Some tratamento =>
                let descricao := py_or (dict_get "descricao" data) (col "embalagem_code" emb) in
                let payload : gmap string value :=
                  list_to_map
                   (map (λ kv : string * value, (kv.1, sqlite_bind kv.2))
                    [("embalagem_code", col "embalagem_code" emb);
                     ("rev", col "rev" emb);
                     ("descricao", descricao);
                     ("qtd", dict_get "qtd" data);
                     ("qtd_tipo", py_or (dict_get "qtd_tipo" data) (VStr "UN"));
                     ("preco_unit", dict_get "preco_unit" data);
                     ("preco_kg", dict_get "preco_kg" data);
                     ("peso_unit_kg", dict_get "peso_unit_kg" data);
                     ("margem_toler_percent", dict_get "margem_toler_percent" data);
                     ("snapshot_material", col "material" emb);
                     ("snapshot_espessura_um", col "espessura_um" emb);
                     ("snapshot_largura_mm", col "largura_mm" emb);
                     ("snapshot_altura_mm", col "altura_mm" emb);
                     ("snapshot_sanfona_mm", col "sanfona_mm" emb);
                     ("snapshot_aba_mm", col "aba_mm" emb);
                     ("snapshot_fita_tipo", col "fita_tipo" emb);
                     ("snapshot_tratamento", tratamento);
                     ("snapshot_tratamento_dinas", VNone);
                     ("snapshot_impresso", col "impresso" emb);
                     ("anel_extrusao", dict_get "anel_extrusao" data);
                     ("status_impressao",
                       py_or (dict_get "status_impressao" data) (VStr "rascunho"));
                     ("extrusado", VInt 0);
                     ("qtde_extrusada_kg", VNone)]) in
                let iid := pedido_itens_seq d + 1 in
                let row := Item iid pid payload in
                let d1 := set_pedido_itens_seq iid
                            (set_pedido_itens (pedido_itens d ++ [row]) d) in
                let d2 := insert_log pid "ITEM_ADDED"
                            [("item_id", JVal (VInt iid));
                             ("embalagem_code", JVal (col "embalagem_code" emb))] d1 in
                let d3 := recalc_total_logged pid d2 in
                ((BItem row, 201), d3)
            end
        end
  end.

(** [SELECT ... FROM pedido_itens WHERE id=? AND pedido_id=?] and
    [SELECT * FROM pedido_itens WHERE id=?], first row. *)
Definition find_item_of (d : db) (iid pid : Z) : option item :=
  List.find (λ it, (item_id it =? iid) && (item_pedido_id it =? pid)) (pedido_itens d).

Definition find_item (d : db) (iid : Z) : option item :=
  List.find (λ it, item_id it =? iid) (pedido_itens d).

(** [api_pedido_item_delete] *)
Definition api_pedido_item_delete (pid iid : Z) (d : db) : response * db :=
  match pedidos d !! pid with
  | None => (not_found "pedido não encontrado", d)
  | Some ped =>
      if negb (String.eqb (upper (default "" (status ped))) "RASCUNHO")
      then (bad_request "Itens só podem ser removidos em RASCUNHO" [], d)
      else
        match find_item_of d iid pid with
        | None => (not_found "item não encontrado", d)
        | Some _ =>
            let d1 := set_pedido_itens
                        (List.filter (λ it, negb (item_id it =? iid)) (pedido_itens d)) d in
            let d2 := insert_log pid "ITEM_DELETED" [("item_id", JVal (VInt iid))] d1 in
            let d3 := recalc_total_logged pid d2 in
            ((BEmpty, 204), d3)
        end
  end.

Definition base_allowed : list string := ["status_impressao"; "anel_extrusao"].

Definition draft_extra : list string :=
  ["descricao"; "qtd"; "qtd_tipo"; "preco_unit"; "preco_kg"; "peso_unit_kg";
   "margem_toler_percent"].

(** [allowed] of [api_pedido_item_update], by the status of the order. *)
Definition allowed_for (pstatus : string) : list string :=
  if String.eqb pstatus "RASCUNHO" then (base_allowed ++ draft_extra)%list else base_allowed.

(** The filter loop of [api_pedido_item_update]: [(updates, blocked)]. *)
Fixpoint filtrar (allowed : list string) (data : dict) : dict * list string :=
  match data with
  | [] => ([], [])
  | (k, v) :: rest =>
      let '(updates, blocked) := filtrar allowed rest in
      if String.prefix "snapshot_" k then (updates, k :: blocked)
      else if str_in k allowed then ((k, v) :: updates, blocked)
      else if str_in k ["pedido_id"; "id"] then (updates, blocked)
      else (updates, k :: blocked)
  end.

(** [UPDATE pedido_itens SET k1=?, k2=?, ... WHERE id=?] on one row; a
    NaN is bound as NULL. *)
Definition apply_updates (updates : dict) (it : item) : item :=
  Item (item_id it) (item_pedido_id it)
       (foldl (λ c (kv : string * value), <[kv.1 := sqlite_bind kv.2]> c)
              (item_cols it) updates).

(** [diffs]: the updated keys whose value differs from the stored one. *)
Definition item_diffs (updates : dict) (it : item) : list (string * json) :=
  omap (λ kv : string * value,
          let old_val := col kv.1 (item_cols it) in
          if py_ne old_val kv.2
          then Some (kv.1, JObj [("de", JVal old_val); ("para", JVal kv.2)])
          else None) updates.

(** [api_pedido_item_update] *)
Definition api_pedido_item_update (pid iid : Z) (data : dict) (d : db)
    : response * db :=
  match pedidos d !! pid with
  | None => (not_found "pedido não encontrado", d)
  | Some ped =>
      let pstatus := upper (default "" (status ped)) in
      if str_in pstatus ["CONCLUIDO"; "CANCELADO"]
      then (bad_request "Pedido não permite alterações em itens nesse status" [], d)
      else
        match find_item_of d iid pid with
        | None => (not_found "item não encontrado", d)
        | Some it =>
            let '(updates, blocked) := filtrar (allowed_for pstatus) data in
            match updates with
            | [] => (bad_request "Nenhum campo permitido para atualização"
                       [("bloqueados", JList (map (λ k, JVal (VStr k)) blocked))], d)
            | _ :: _ =>
                let d1 := set_pedido_itens
                            (map (λ x, if item_id x =? iid then apply_updates updates x else x)
                                 (pedido_itens d)) d in
                let diffs := item_diffs updates it in
                let d2 :=
                  match diffs with
                  | [] => d1
                  | _ :: _ => insert_log pid "ITEM_UPDATED"
                                [("item_id", JVal (VInt iid)); ("changes", JObj diffs)] d1
                  end in
                let d3 := recalc_total_logged pid d2 in
                match find_item d3 iid with
                | Some row => ((BItem row, 200), d3)
                | None => (server_error, d)
                end
            end
        end
  end.

Definition status_permitidos : list string :=
  ["RASCUNHO"; "APROVADO"; "EM_EXECUCAO"; "CONCLUIDO"; "CANCELADO"].

(** [transicoes_validas.get(atual, set())] *)
Definition transicoes_validas (atual : string) : list string :=
  if String.eqb atual "RASCUNHO" then ["APROVADO"; "CANCELADO"]
  else if String.eqb atual "APROVADO" then ["EM_EXECUCAO"; "CANCELADO"]
  else if String.eqb atual "EM_EXECUCAO" then ["CONCLUIDO"; "CANCELADO"]
  else [].

(** [api_pedido_change_status] *)
Definition api_pedido_change_status (pid : Z) (data : dict) (d : db)
    : response * db :=
  match py_upper (py_or (dict_get "status" data) (VStr "")) with
  | None => (server_error, d)
  | Some novo =>
      if negb (str_in novo status_permitidos)
      then (bad_request "Status inválido" [], d)
      else
        match pedidos d !! pid with
        | None => (not_found "pedido não encontrado", d)
        | Some ped =>
            let atual := upper (default "" (status ped)) in
            if negb (str_in novo (transicoes_validas atual))
            then (bad_request "Transição de status não permitida"
                    [("atual", JVal (VStr atual)); ("novo", JVal (VStr novo))], d)
            else
              let d1 := set_pedidos (<[pid := set_status novo ped]> (pedidos d)) d in
              let d2 := insert_log pid "STATUS_CHANGED"
                          [("de", JVal (VStr atual)); ("para", JVal (VStr novo))] d1 in
              let d3 := (_recalc_pedido_totais B d2 pid).2 in
              ((BPedido pid (default ped (pedidos d3 !! pid)), 200), d3)
        end
  end.

(** [SELECT COUNT(1) FROM ordens_producao WHERE pedido_id=?] *)
Definition total_ops (d : db) (pid : Z) : nat :=
  length (List.filter (λ o, op_pedido_id o =? pid) (ordens_producao d)).

(** [api_op_create] *)
Definition api_op_create (pid : Z) (data : dict) (d : db) : response * db :=
  match pedidos d !! pid with
  | None => (not_found "pedido não encontrado", d)
  | Some ped =>
      let status_atual := upper (default "" (status ped)) in
      if negb (str_in status_atual ["APROVADO"; "EM_EXECUCAO"])
      then (bad_request "Pedido precisa estar APROVADO para gerar ordem" [], d)
      else
        match py_strip (py_or (dict_get "numero" data) (VStr "")) with
        | None => (server_error, d)
        | Some numero =>
            let payload : gmap string value :=
              list_to_map
                [("numero", py_or (VStr numero) VNone);
                 ("largura_mm", dict_get "largura_mm" data);
                 ("altura_mm", dict_get "altura_mm" data);
                 ("sanfona_mm", dict_get "sanfona_mm" data);
                 ("aba_mm", dict_get "aba_mm" data);
                 ("fita_tipo", dict_get "fita_tipo" data);
                 ("resistencia_mecanica", dict_get "resistencia_mecanica" data);
                 ("temp_solda_c", dict_get "temp_solda_c" data);
                 ("velocidade_corte_cpm", dict_get "velocidade_corte_cpm" data);
                 ("peso_min_bobina_kg", dict_get "peso_min_bobina_kg" data);
                 ("margem_erro_un_percent", dict_get "margem_erro_un_percent" data);
                 ("status", VStr "planejada")] in
            let oid := ordens_producao_seq d + 1 in
            let row := Ordem oid pid payload in
            let d1 := set_ordens_producao (ordens_producao d ++ [row]) oid d in
            let d2 := insert_log pid "OP_CREATED"
                        [("ordem_producao_id", JVal (VInt oid))] d1 in
            let d3 :=
              if String.eqb status_atual "APROVADO" && Nat.eqb (total_ops d2 pid) 1
              then
                insert_log pid "STATUS_CHANGED"
                  [("de", JVal (VStr "APROVADO")); ("para", JVal (VStr "EM_EXECUCAO"));
                   ("auto", JBool true)]
                  (set_pedidos (<[pid := set_status "EM_EXECUCAO" ped]> (pedidos d2)) d2)
              else d2 in
            ((BOrdem row, 201), d3)
        end
  end.

(** ** Sequences of requests *)

Inductive request :=
| PedidosCreate (hoje : string) (data : dict)
| PedidosUpdate (pid : Z) (data : dict)
| ItensAdd (pid : Z) (data : dict)
| ItemDelete (pid iid : Z)
| ItemUpdate (pid iid : Z) (data : dict)
| ChangeStatus (pid : Z) (data : dict)
| OpCreate (pid : Z) (data : dict).

Definition handle (r : request) (d : db) : response * db :=
  match r with
  | PedidosCreate hoje data => api_pedidos_create hoje data d
  | PedidosUpdate pid data => api_pedidos_update pid data d
  | ItensAdd pid data => api_pedido_itens_add pid data d
  | ItemDelete pid iid => api_pedido_item_delete pid iid d
  | ItemUpdate pid iid data => api_pedido_item_update pid iid data d
  | ChangeStatus pid data => api_pedido_change_status pid data d
  | OpCreate pid data => api_op_create pid data d
  end.

(** The requests of [rs] served one after the other: the responses, in
    order, and the final database. *)
Fixpoint run (rs : list request) (d : db) : list response * db :=
  match rs with
  | [] => ([], d)
  | r :: rest =>
      let '(resp, d1) := handle r d in
      let '(resps, d2) := run rest d1 in
      (resp :: resps, d2)
  end.

End Handlers.

(** * Vocabulary of the specification and example states *)

(** ** Reading the database and the responses *)

(** The stored [preco_total] and [status] of an order, and the action tags
    of the audit log in the order of writing. *)
Definition stored_total (d : db) (pid : Z) : option value :=
  (λ p, col "preco_total" (ped_cols p)) <$> pedidos d !! pid.

Definition stored_status (d : db) (pid : Z) : option string :=
  pedidos d !! pid ≫= status.

Definition acoes (d : db) : list string := map acao (pedido_logs d).

(** The value of the counter [PED]; a missing row counts as zero, which is
    what [gerar_codigo_pedido] inserts. *)
Definition ultimo (d : db) : Z := default 0 (numeradores d !! "PED").

(** The order number that a response announces: only a creation (201 with
    an order as body) does. *)
Definition numero_criado (r : response) : option string :=
  match r.1 with
  | BPedido _ p => if r.2 =? 201 then Some (numero_pedido p) else None
  | _ => None
  end.

Definition numeros_criados (rs : list response) : list string :=
  omap numero_criado rs.

(** Whether an error response names the status [s]: in its message or in
    one of its extra fields. *)
Definition mentions (s msg : string) : bool :=
  match String.index 0 s msg with Some _ => true | None => false end.

Definition names_status (r : response) (s : string) : bool :=
  match r.1 with
  | BError msg extra =>
      mentions s msg
      || existsb (λ kv : string * json,
                    match kv.2 with
                    | JVal (VStr t) => String.eqb t s
                    | _ => false
                    end) extra
  | _ => false
  end.

(** The blocked list that a response carries, if it carries one. *)
Definition reported_blocked (b : body) : option json :=
  match b with
  | BError _ extra => snd <$> List.find (λ kv : string * json, String.eqb kv.1 "bloqueados") extra
  | _ => None
  end.

(** ** The lifecycle of §4.1 *)

Inductive estado := RASCUNHO | APROVADO | EM_EXECUCAO | CONCLUIDO | CANCELADO.

Definition nome (s : estado) : string :=
  match s with
  | RASCUNHO => "RASCUNHO"
  | APROVADO => "APROVADO"
  | EM_EXECUCAO => "EM_EXECUCAO"
  | CONCLUIDO => "CONCLUIDO"
  | CANCELADO => "CANCELADO"
  end.

(** The table of allowed transitions, from the words of §4.1. *)
Definition transition_allowed (cur req : estado) : bool :=
  match cur, req with
  | RASCUNHO, APROVADO | RASCUNHO, CANCELADO => true
  | APROVADO, EM_EXECUCAO | APROVADO, CANCELADO => true
  | EM_EXECUCAO, CONCLUIDO | EM_EXECUCAO, CANCELADO => true
  | _, _ => false
  end.

(** ** Items (§4.3) *)

(** Rows keep their identity and every column selected by [P]. *)
Definition same_on (P : string -> Prop) (it it' : item) : Prop :=
  item_id it' = item_id it /\ item_pedido_id it' = item_pedido_id it
  /\ forall k, P k -> item_cols it' !! k = item_cols it !! k.

(** The permitted and the blocked fields of a request, as the
    specification words them: a field is permitted when it is allowed for
    the status and carries no snapshot prefix; the row identifiers are
    neither permitted nor reported. *)
Definition permitted (allowed : list string) (k : string) : bool :=
  negb (String.prefix "snapshot_" k) && str_in k allowed.

Definition permitted_subset (allowed : list string) (data : dict) : dict :=
  List.filter (λ kv : string * value, permitted allowed kv.1) data.

Definition blocked_subset (allowed : list string) (data : dict) : list string :=
  map fst (List.filter (λ kv : string * value,
                          negb (permitted allowed kv.1)
                          && negb (str_in kv.1 ["pedido_id"; "id"])) data).

(** ** Totals (§4.2) and audit entries (§4.4, §4.5) *)

(** The requests that always end with a recomputation of the total of
    order [pid]: the three item mutations, and with them the status change. *)
Definition is_item_mutation (r : request) (pid : Z) : bool :=
  match r with
  | ItensAdd p _ | ItemDelete p _ | ItemUpdate p _ _ => p =? pid
  | _ => false
  end.

Definition recalculates (r : request) (pid : Z) : bool :=
  match r with
  | ItensAdd p _ | ItemDelete p _ | ItemUpdate p _ _ | ChangeStatus p _ => p =? pid
  | _ => false
  end.

(** The total that the rule of §4.2 gives for the order as it is stored. *)
Definition rule_total (B : builtins) (d : db) (pid : Z) : option value :=
  (λ ped, new_total B ped (itens_do_pedido d pid)) <$> pedidos d !! pid.

(** The sum of §4.2 in the words of the specification.  A price or a
    quantity is read as a number, NULL as zero (and a zero of either sign
    as zero); the product of an item is its unit price times its quantity;
    the sum is taken over the items in the order of the table, from 0.0. *)
Definition valor (v : value) : float :=
  match v with
  | VInt n => float_of_Z n
  | VFloat f => if PrimFloat.is_zero f then 0%float else f
  | _ => 0%float
  end.

Definition produto (it : item) : float :=
  (valor (col "preco_unit" (item_cols it)) * valor (col "qtd" (item_cols it)))%float.

Fixpoint soma_de (acc : float) (xs : list float) : float :=
  match xs with
  | [] => acc
  | x :: rest => soma_de (acc + x)%float rest
  end.

Definition soma_dos_itens (itens : list item) : float :=
  soma_de 0%float (map produto itens).

(** The values that a numeric column holds as a number or as NULL: an
    integer within the range of a double, a float that is not NaN (SQLite
    holds none).  An item is numeric when its unit price and its quantity
    are. *)
Definition numero (v : value) : bool :=
  match v with
  | VNone => true
  | VInt n => negb (PrimFloat.is_infinity (float_of_Z n))
  | VFloat f => negb (PrimFloat.is_nan f)
  | VStr _ => false
  end.

Definition itens_numericos (itens : list item) : Prop :=
  Forall (λ it, numero (col "preco_unit" (item_cols it)) = true
                /\ numero (col "qtd" (item_cols it)) = true) itens.

(** A total as the column [preco_total] holds it: NULL for NaN. *)
Definition total_guardado (f : float) : value :=
  if PrimFloat.is_nan f then VNone else VFloat f.





(** ** Order numbers read back *)

(** ASCII decimal digits. *)
Definition is_digit (c : ascii) : bool :=
  let n := nat_of_ascii c in (Nat.leb 48 n && Nat.leb n 57)%bool.

Fixpoint all_digits (s : string) : bool :=
  match s with
  | EmptyString => true
  | String c s' => is_digit c && all_digits s'
  end.

(** [int(s)] on an optional minus sign and ASCII digits, and the integer
    of an order number [PED-...]. *)
Definition int_of_digits (s : string) : option Z :=
  match s with
  | String "-" s' => (λ u, - Z.of_N (N.of_uint u)) <$> NilEmpty.uint_of_string s'
  | _ => (λ u, Z.of_N (N.of_uint u)) <$> NilEmpty.uint_of_string s
  end.

Definition numero_int (s : string) : option Z :=
  match s with
  | String "P" (String "E" (String "D" (String "-" rest))) => int_of_digits rest
  | _ => None
  end.

(** A decimal number with [k] more leading zeros. *)
Fixpoint lead0 (k : nat) (u : Decimal.uint) : Decimal.uint :=
  match k with O => u | S k' => Decimal.D0 (lead0 k' u) end.

(** The numbers [u+1, ..., u+n] formatted. *)
Definition numeros_de (u : Z) (n : nat) : list string :=
  map (λ i, "PED-" ++ fmt_06d (u + Z.of_nat i)) (seq 1 n).

(** What the specification calls an integer zero-padded to six digits,
    said of strings and without the formatter of the code: decimal digits
    only, which read as [n], six characters at least, and more than six
    only when the first is not a zero. *)
Definition starts_with_zero (s : string) : bool :=
  match s with String c _ => Ascii.eqb c "0" | EmptyString => false end.

Definition zero_padded6 (n : Z) (s : string) : bool :=
  all_digits s
  && match int_of_digits s with Some m => m =? n | None => false end
  && (6 <=? String.length s)%nat
  && ((String.length s =? 6)%nat || negb (starts_with_zero s)).

(** The form [PED-NNNNNN] of the number [n]. *)
Definition ped_nnnnnn (n : Z) (s : string) : bool :=
  match s with
  | String "P" (String "E" (String "D" (String "-" rest))) => zero_padded6 n rest
  | _ => false
  end.

(** The creations of a run that succeeded: the responses to the requests
    [POST /api/pedidos] answered with a 2xx status. *)
Definition is_create (r : request) : bool :=
  match r with PedidosCreate _ _ => true | _ => false end.

Fixpoint criacoes (rs : list request) (resps : list response) : list response :=
  match rs, resps with
  | r :: rs', resp :: resps' =>
      if is_create r && succeeded resp then resp :: criacoes rs' resps'
      else criacoes rs' resps'
  | _, _ => []
  end.

(** ** Example states *)

(** A stand-in for the parameters, for evaluating runs whose data holds no
    numeric string and stores no float as text: [float(s)] raises on every
    [s] (as Python does on ["abc"], the only string the runs below
    convert) and no text is a number for SQLite (as ["abc"] is none);
    [str(f)] is the digits of the mantissa and exponent of [f], which tells
    two floats apart exactly when Python's [repr] does, and stands for the
    text of SQLite as well. *)
Definition float_digits (f : float) : string :=
  match Prim2SF f with
  | S754_zero s => if s then "-0.0" else "0.0"
  | S754_infinity s => if s then "-inf" else "inf"
  | S754_nan => "nan"
  | S754_finite s m e =>
      (if s then "-" else "") ++ digits (Npos m) ++ "p" ++ str_of_Z e
  end.

Definition B0 : builtins :=
  Builtins (λ _, None) float_digits (λ _, None) float_digits.

(** An empty database with the one package specification of the tests, and
    two item requests on it. *)
Definition db0 : db :=
  DB ∅ [list_to_map [("embalagem_code", VStr "EMB13"); ("rev", VStr "R00");
                     ("material", VStr "PE"); ("sanfona_mm", VInt 0);
                     ("aba_mm", VInt 0); ("fita_tipo", VStr "nenhuma");
                     ("impresso", VInt 0)]]
     ∅ 0 [] 0 [] [] 0.

Definition item_5x2 : dict :=
  [("embalagem_code", VStr "EMB13"); ("rev", VStr "R00");
   ("qtd", VInt 5); ("preco_unit", VFloat 2)].

Definition item_3x4 : dict :=
  [("embalagem_code", VStr "EMB13"); ("rev", VStr "R00");
   ("qtd", VInt 3); ("preco_unit", VFloat 4)].

(** An order created by the first request of a run, still a draft, and its
    row. *)
Definition d_rascunho : db :=
  (run B0 [PedidosCreate "2025-09-01" [("cliente_id", VInt 1)]] db0).2.

Definition ped_rascunho : pedido :=
  Pedido (Some "RASCUNHO") "PED-000001"
    (list_to_map
       [("cliente_id", VInt 1); ("data_emissao", VStr "2025-09-01");
        ("data_prevista", VNone); ("quantidade_tipo", VStr "UN");
        ("preco_total", VNone); ("margem_toler_percent", VFloat 0);
        ("ncm", VNone); ("representante_id", VNone); ("regime_venda", VStr "");
        ("comissao_percent", VNone); ("condicoes_comerciais", VNone);
        ("representante_nome", VNone); ("quantidade_planejada", VNone);
        ("embalagem_code", VNone); ("preco_base", VNone)]).

(** The draft with one item of 5 units at 2.0; the same order approved;
    and the same order concluded after its first production order. *)
Definition d_um_item : db :=
  (run B0 [PedidosCreate "2025-09-01" [("cliente_id", VInt 1)];
           ItensAdd 1 item_5x2] db0).2.

Definition d_aprovado : db :=
  (run B0 [PedidosCreate "2025-09-01" [("cliente_id", VInt 1)];
           ItensAdd 1 item_5x2;
           ChangeStatus 1 [("status", VStr "APROVADO")]] db0).2.

Definition d_concluido : db :=
  (run B0 [OpCreate 1 [("largura_mm", VInt 100)];
           ChangeStatus 1 [("status", VStr "CONCLUIDO")]] d_aprovado).2.

Definition ped_aprovado : pedido :=
  Pedido (Some "APROVADO") "PED-000001"
         (<["preco_total" := VFloat 10]> (ped_cols ped_rascunho)).

Definition ped_concluido : pedido :=
  Pedido (Some "CONCLUIDO") "PED-000001"
         (<["preco_total" := VFloat 10]> (ped_cols ped_rascunho)).


Definition d_planejado : db :=
  (run B0 [PedidosCreate "2025-09-01"
             [("cliente_id", VInt 1); ("quantidade_planejada", VInt 3)]] db0).2.

Definition ped_planejado : pedido :=
  Pedido (Some "RASCUNHO") "PED-000001"
         (<["quantidade_planejada" := VFloat 3]> (ped_cols ped_rascunho)).

(** An order created with a total of its own, a base price and a planned
    quantity that is not a number. *)
Definition d_manual : db :=
  (run B0 [PedidosCreate "2025-09-01"
             [("cliente_id", VInt 1); ("preco_total", VFloat 50);
              ("preco_base", VFloat 2); ("quantidade_planejada", VStr "abc")]] db0).2.

(** An order created with a total of its own, base price 2.5 and 4 planned
    units, and its row. *)
Definition d_fallback : db :=
  (run B0 [PedidosCreate "2025-09-01"
             [("cliente_id", VInt 1); ("preco_total", VFloat 50);
              ("preco_base", VFloat 2.5); ("quantidade_planejada", VInt 4)]] db0).2.

Definition ped_fallback : pedido :=
  Pedido (Some "RASCUNHO") "PED-000001"
         (<["preco_base" := VFloat 2.5]>
            (<["quantidade_planejada" := VFloat 4]>
               (<["preco_total" := VFloat 50]> (ped_cols ped_rascunho)))).

(** Case analysis on the next test of the code in the goal. *)
Ltac case_goal :=
  match goal with
  | |- context [match ?x with _ => _ end] => destruct x eqn:?
  end.

(** * More of [app.py]

    The functions below are taken as they are written, with the same
    conventions as above.  Strings are read as ASCII: the digit class of
    the patterns and the one-character wildcard of LIKE are those of
    ASCII text. *)

(** ** The audit entries of an order *)

(** [api_pedido_logs]: the entries of an order, oldest first; [None] is
    the answer 404. *)
Definition api_pedido_logs (pid : Z) (d : db) : option (list log) :=
  match pedidos d !! pid with
  | None => None
  | Some _ => Some (List.filter (λ e, log_pedido_id e =? pid) (pedido_logs d))
  end.

(** ** Metrics of an order *)

Definition lower_ascii (c : ascii) : ascii :=
  let n := nat_of_ascii c in
  if (Nat.leb 65 n && Nat.leb n 90)%bool then ascii_of_nat (n + 32) else c.

Fixpoint lower (s : string) : string :=
  match s with
  | EmptyString => EmptyString
  | String c s' => String (lower_ascii c) (lower s')
  end.

Definition py_lower (v : value) : option string :=
  match v with VStr s => Some (lower s) | _ => None end.

(** The body of the answer of [api_pedido_metrics]. *)
Record metrics := Metrics {
  m_pedido_id : Z;
  valor_total_calc : float;
  valor_total_registrado : value;
  total_itens : nat;
  total_qtd_un : float;
  total_qtd_kg : float;
  peso_estimado_total_kg : float;
  unidades_estimada_de_kg : float;
  percentual_itens_impressos : float }.

Inductive metrics_response :=
| MetricsNotFound
| MetricsError
| MetricsOk (m : metrics).

(** The running sums of the loop of [api_pedido_metrics]. *)
Record metrics_acc := Acc {
  acc_valor : float;
  acc_un : float;
  acc_kg : float;
  acc_est : float;
  acc_concl : Z }.

Section Metrics.

Variable B : builtins.

(** One pass of the loop; [None] when a conversion or a string method
    raises. *)
Definition metrics_item (a : metrics_acc) (it : item) : option metrics_acc :=
  match py_float B (py_or (col "qtd" (item_cols it)) (VInt 0)) with
  | None => None
  | Some qtd =>
      match py_float B (py_or (col "preco_unit" (item_cols it)) (VInt 0)) with
      | None => None
      | Some preco_unit =>
          match py_float B (py_or (col "peso_unit_kg" (item_cols it)) (VInt 0)) with
          | None => None
          | Some peso_unit =>
              let valor := (acc_valor a + qtd * preco_unit)%float in
              match py_upper (py_or (col "qtd_tipo" (item_cols it)) (VStr "UN")) with
              | None => None
              | Some tipo =>
                  let '(un, kg, est) :=
                    if String.eqb tipo "UN"
                    then ((acc_un a + qtd)%float,
                          if (0 <? peso_unit)%float
                          then (acc_kg a + qtd * peso_unit)%float else acc_kg a,
                          acc_est a)
                    else (acc_un a,
                          (acc_kg a + qtd)%float,
                          if (0 <? peso_unit)%float
                          then (acc_est a + qtd / peso_unit)%float else acc_est a) in
                  match py_lower (py_or (col "status_impressao" (item_cols it)) (VStr "")) with
                  | None => None
                  | Some st =>
                      Some (Acc valor un kg est
                              (if String.eqb st "concluida"
                               then acc_concl a + 1 else acc_concl a))
                  end
              end
          end
      end
  end.

Fixpoint metrics_loop (a : metrics_acc) (itens : list item) : option metrics_acc :=
  match itens with
  | [] => Some a
  | it :: rest =>
      match metrics_item a it with
      | None => None
      | Some a' => metrics_loop a' rest
      end
  end.

(** [api_pedido_metrics]; the quotient of the two counts is the quotient
    of their floats, which is Python's [int / int] for counts below 2^53. *)
Definition api_pedido_metrics (pid : Z) (d : db) : metrics_response :=
  match pedidos d !! pid with
  | None => MetricsNotFound
  | Some ped =>
      let itens := itens_do_pedido d pid in
      match metrics_loop (Acc 0 0 0 0 0) itens with
      | None => MetricsError
      | Some a =>
          let percentual :=
            match itens with
            | [] => 0%float
            | _ :: _ =>
                (float_of_Z (acc_concl a) / float_of_Z (Z.of_nat (length itens)) * 100)%float
            end in
          MetricsOk (Metrics pid (acc_valor a) (col "preco_total" (ped_cols ped))
                       (length itens) (acc_un a) (acc_kg a) (acc_kg a) (acc_est a)
                       percentual)
      end
  end.

End Metrics.

(** ** Sequential codes of clients and partners ([app.py]) *)

(** [codigo_interno LIKE 'C_____']: six characters, the first a [C] in
    either case (LIKE ignores the case of ASCII letters); NULL never
    matches. *)
Definition like_code (letra : ascii) (code : option string) : bool :=
  match code with
  | Some (String a rest) => Ascii.eqb (upper_ascii a) letra && Nat.eqb (String.length rest) 5
  | _ => false
  end.

(** [re.compile(r"^C(\d{5})$").match(s)] followed by [int(m.group(1))]; the
    newline that [$] lets through cannot end a stripped string. *)
Definition code_regex (letra : ascii) (s : string) : option Z :=
  match s with
  | String a rest =>
      if Ascii.eqb a letra && Nat.eqb (String.length rest) 5 && all_digits rest
      then int_of_digits rest else None
  | EmptyString => None
  end.

(** The format [{n:05d}]. *)
Definition fmt_05d (n : Z) : string :=
  if n <? 0 then "-" ++ zfill 4 (digits (Z.abs_N n))
  else zfill 5 (digits (Z.abs_N n)).

(** One pass of the loop over the selected rows. *)
Definition max_step (letra : ascii) (m : Z) (code : option string) : Z :=
  match code with
  | None | Some EmptyString => m
  | Some code =>
      match code_regex letra (strip code) with
      | Some n => if m <? n then n else m
      | None => m
      end
  end.

Definition max_seq (letra : ascii) (codes : list (option string)) : Z :=
  foldl (max_step letra) (-1) (List.filter (like_code letra) codes).

Definition next_code (letra : ascii) (codes : list (option string)) : string :=
  let nxt := max_seq letra codes + 1 in
  if 99999 <? nxt then String letra "99999" else String letra (fmt_05d nxt).

(** [generate_next_client_code] and [generate_next_partner_code] on the
    column [codigo_interno] of their table. *)
Definition generate_next_client_code (codes : list (option string)) : string :=
  next_code "C" codes.

Definition generate_next_partner_code (codes : list (option string)) : string :=
  next_code "P" codes.

(** ** NCM codes ([app.py]) *)

(** [re.sub(r"\D+", "", s)] *)
Fixpoint keep_digits (s : string) : string :=
  match s with
  | EmptyString => EmptyString
  | String c s' => if is_digit c then String c (keep_digits s') else keep_digits s'
  end.

(** [normalize_ncm(raw)] *)
Definition normalize_ncm (raw : option string) : option string :=
  match raw with
  | None | Some EmptyString => None
  | Some r =>
      let ds := keep_digits r in
      if negb (Nat.eqb (String.length ds) 8) then None else Some ds
  end.

(** [_NCM_CODE_RE.match(s)] for [^\d{8}$]: eight digits and the end of the
    string, before which [$] lets one newline through. *)
Fixpoint match_digits (k : nat) (s : string) : option string :=
  match k with
  | O => Some s
  | S k' =>
      match s with
      | String c s' => if is_digit c then match_digits k' s' else None
      | EmptyString => None
      end
  end.

Definition ncm_code_re (s : string) : bool :=
  match match_digits 8 s with
  | Some rest => String.eqb rest "" || String.eqb rest (String (ascii_of_nat 10) "")
  | None => false
  end.

(** [validate_ncm_or_none(conn, ncm)]; [tabela] is the column [codigo] of
    the table [ncm], or [None] when the database has no such table. *)
Definition validate_ncm_or_none (tabela : option (list string)) (ncm : option string)
    : bool * string :=
  match ncm with
  | None => (true, "")
  | Some c =>
      if negb (ncm_code_re c) then (false, "NCM deve ter 8 dígitos.")
      else
        match tabela with
        | Some codigos =>
            if negb (existsb (String.eqb c) codigos) then (false, "NCM inexistente")
            else (true, "")
        | None => (true, "")
        end
  end.

(** * Vocabulary of the further properties *)

(** ** Orders *)

(** The order that a request addresses; a creation addresses the row it is
    about to insert. *)
Definition alvo (r : request) (d : db) : Z :=
  match r with
  | PedidosCreate _ _ => pedidos_seq d + 1
  | PedidosUpdate pid _ | ItensAdd pid _ | ItemDelete pid _ | ItemUpdate pid _ _
  | ChangeStatus pid _ | OpCreate pid _ => pid
  end.

(** Whether a request addresses the existing order [q]; a creation
    addresses none. *)
Definition dirigido (r : request) (q : Z) : bool :=
  match r with
  | PedidosCreate _ _ => false
  | PedidosUpdate pid _ | ItensAdd pid _ | ItemDelete pid _ | ItemUpdate pid _ _
  | ChangeStatus pid _ | OpCreate pid _ => pid =? q
  end.

(** How the row of an order may differ after a request: the order number
    stays, the status stays or moves along [transicoes_validas], and only
    the columns of the allow-list of the header patch may change. *)
Definition status_step (s s' : option string) : Prop :=
  exists novo,
    s' = Some novo
    /\ str_in novo (transicoes_validas (upper (default "" s))) = true.

Definition evolves (ped ped' : pedido) : Prop :=
  numero_pedido ped' = numero_pedido ped
  /\ (status ped' = status ped \/ status_step (status ped) (status ped'))
  /\ forall k, str_in k allowed_fields = false ->
               ped_cols ped' !! k = ped_cols ped !! k.

(** A status out of which no transition leads. *)
Definition terminal (s : option string) : Prop :=
  transicoes_validas (upper (default "" s)) = [].

(** ** Items *)

(** Unique item ids, none above the counter: what the primary key and
    AUTOINCREMENT give. *)
Definition itens_ok (d : db) : Prop :=
  NoDup (map item_id (pedido_itens d))
  /\ Forall (λ it, item_id it <= pedido_itens_seq d) (pedido_itens d).

(** The columns of an item that no request can change once the order has
    left RASCUNHO: all but [status_impressao] and [anel_extrusao]. *)
Definition frozen_col (k : string) : Prop := str_in k base_allowed = false.

(** ** Audit entries *)

(** The tags that the seven handlers write. *)
Definition acoes_conhecidas : list string :=
  ["CREATED"; "UPDATED"; "ITEM_ADDED"; "ITEM_UPDATED"; "ITEM_DELETED";
   "RECALC_TOTAL"; "STATUS_CHANGED"; "OP_CREATED"].

(** The tag of the first entry of an order. *)
Definition primeira_acao (d : db) (q : Z) : option string :=
  acao <$> List.find (λ l, log_pedido_id l =? q) (pedido_logs d).

(** [l'] is [l] with entries appended that all refer to order [pid] and
    carry a known tag. *)
Definition grows (pid : Z) (l l' : list log) : Prop :=
  exists extra,
    l' = (l ++ extra)%list
    /\ Forall (λ e, log_pedido_id e = pid /\ str_in (acao e) acoes_conhecidas = true) extra.

(** What the audit log and the table of orders have to do with each other:
    every order was given its id by the counter and has CREATED as its
    first entry, and every entry refers to a stored order. *)
Definition logs_ok (d : db) : Prop :=
  (forall q ped, pedidos d !! q = Some ped ->
                 q <= pedidos_seq d /\ primeira_acao d q = Some "CREATED")
  /\ Forall (λ e, is_Some (pedidos d !! log_pedido_id e)) (pedido_logs d).

(** ** Responses *)

(** The row that a response carries is the row that the database holds. *)
Definition shows_stored (resp : response) (d' : db) : Prop :=
  match resp.1 with
  | BPedido id p => pedidos d' !! id = Some p
  | BItem it => In it (pedido_itens d')
  | BOrdem o => In o (ordens_producao d')
  | BEmpty | BError _ _ => True
  end.

(** ** More example states *)

(** The approved order with its item beside a second order, a draft with
    an item of its own; and the metrics of the first order of [d_um_item]. *)
Definition d_dois : db :=
  (run B0 [PedidosCreate "2025-09-02" [("cliente_id", VInt 2)];
           ItensAdd 2 item_3x4] d_aprovado).2.

Definition m_um_item : metrics :=
  Metrics 1 10 (VFloat 10) 1 5 0 0 0 0.

(** * Properties *)

(** ** The Python helpers on examples *)

Example fmt_06d_7 : fmt_06d 7 = "000007". Proof. reflexivity. Qed.
Example fmt_06d_big : fmt_06d 1234567 = "1234567". Proof. reflexivity. Qed.
Example fmt_06d_neg : fmt_06d (-5) = "-00005". Proof. reflexivity. Qed.
Example upper_ex : upper "Aprovado_x1" = "APROVADO_X1". Proof. reflexivity. Qed.
Example strip_ex : strip "  a b  " = "a b". Proof. reflexivity. Qed.
Example float_of_Z_5 : float_of_Z 5 = 5%float. Proof. reflexivity. Qed.
Example py_eq_int_float : py_eq (VInt 10) (VFloat 10) = true. Proof. reflexivity. Qed.
Example py_eq_half : py_eq (VInt 0) (VFloat 0.5) = false. Proof. reflexivity. Qed.

(** ** Worked runs *)

(** Scenarios A and B of the specification ([test_recalculo_total_delete]). *)
Example scenario_A :
  let d := (run B0 [PedidosCreate "2025-09-01" [("cliente_id", VInt 1)];
                    ItensAdd 1 item_5x2; ItensAdd 1 item_3x4] db0).2 in
  stored_total d 1 = Some (VFloat 22)
  /\ acoes d = ["CREATED"; "ITEM_ADDED"; "RECALC_TOTAL"; "ITEM_ADDED"; "RECALC_TOTAL"].
Proof. vm_compute. split; reflexivity. Qed.

Example scenario_B :
  let d := (run B0 [PedidosCreate "2025-09-01" [("cliente_id", VInt 1)];
                    ItensAdd 1 item_5x2; ItensAdd 1 item_3x4;
                    ItemDelete 1 1] db0).2 in
  stored_total d 1 = Some (VFloat 12)
  /\ acoes d = ["CREATED"; "ITEM_ADDED"; "RECALC_TOTAL"; "ITEM_ADDED"; "RECALC_TOTAL";
                "ITEM_DELETED"; "RECALC_TOTAL"].
Proof. vm_compute. split; reflexivity. Qed.

(** Scenario C ([test_auto_execucao_primeira_ordem]). *)
Example scenario_C :
  let d := (run B0 [PedidosCreate "2025-09-01" [("cliente_id", VInt 1)];
                    ChangeStatus 1 [("status", VStr "APROVADO")];
                    OpCreate 1 [("largura_mm", VInt 100)]] db0).2 in
  stored_status d 1 = Some "EM_EXECUCAO"
  /\ acoes d = ["CREATED"; "STATUS_CHANGED"; "OP_CREATED"; "STATUS_CHANGED"].
Proof. vm_compute. split; reflexivity. Qed.

(** ** The table of transitions *)

(** The table of the source is the table of the specification. *)
Lemma transicoes_validas_table (cur req : estado) :
  str_in (nome req) (transicoes_validas (nome cur)) = transition_allowed cur req.
Proof. destruct cur, req; reflexivity. Qed.

Lemma py_or_str (s : string) : py_upper (py_or (VStr s) (VStr "")) = Some (upper s).
Proof. destruct s; reflexivity. Qed.

Lemma upper_nome (s : estado) : upper (nome s) = nome s.
Proof. destruct s; reflexivity. Qed.

Lemma nome_permitido (s : estado) : str_in (nome s) status_permitidos = true.
Proof. destruct s; reflexivity. Qed.

Example d_rascunho_lookup : pedidos d_rascunho !! 1 = Some ped_rascunho.
Proof. vm_compute. reflexivity. Qed.

(** ** Status transitions *)

(** C2: for every pair (current, requested) of statuses outside the table
    of §4.1, [change_status] on an existing order answers with the conflict
    error that carries both the current and the requested status, and the
    database, hence the stored status, is left as it was. *)
Theorem change_status_conflict (B : builtins) (d : db) (pid : Z) (ped : pedido)
    (cur req : estado) (raw : string) (data : dict) :
  pedidos d !! pid = Some ped ->
  status ped = Some (nome cur) ->
  dict_get "status" data = VStr raw ->
  upper raw = nome req ->
  transition_allowed cur req = false ->
  api_pedido_change_status B pid data d
  = (bad_request "Transição de status não permitida"
       [("atual", JVal (VStr (nome cur))); ("novo", JVal (VStr (nome req)))], d)
  /\ stored_status (api_pedido_change_status B pid data d).2 pid = Some (nome cur).
Proof.
  intros Hped Hst Hget Hup Hno.
  assert (Hres : api_pedido_change_status B pid data d
                 = (bad_request "Transição de status não permitida"
                      [("atual", JVal (VStr (nome cur)));
                       ("novo", JVal (VStr (nome req)))], d)).
  { unfold api_pedido_change_status.
    rewrite Hget, py_or_str, Hup, nome_permitido, Hped, Hst. simpl default.
    rewrite upper_nome, transicoes_validas_table, Hno. reflexivity. }
  split; [exact Hres|].
  rewrite Hres. unfold stored_status. simpl. rewrite Hped. simpl. exact Hst.
Qed.

(** Scenario D: from RASCUNHO straight to CONCLUIDO. *)
Lemma change_status_conflict_witness :
  api_pedido_change_status B0 1 [("status", VStr "concluido")] d_rascunho
  = (bad_request "Transição de status não permitida"
       [("atual", JVal (VStr "RASCUNHO")); ("novo", JVal (VStr "CONCLUIDO"))],
     d_rascunho)
  /\ stored_status
       (api_pedido_change_status B0 1 [("status", VStr "concluido")] d_rascunho).2 1
     = Some "RASCUNHO".
Proof.
  apply (change_status_conflict B0 d_rascunho 1 ped_rascunho RASCUNHO CONCLUIDO
           "concluido" [("status", VStr "concluido")]).
  - vm_compute. reflexivity.
  - reflexivity.
  - reflexivity.
  - reflexivity.
  - reflexivity.
Defined.

(** ** What recomputation and logging leave alone *)

Section Frames.

Variable B : builtins.

Lemma col_set_col (k : string) (v : value) (p : pedido) :
  col k (ped_cols (set_col k v p)) = v.
Proof. unfold col, set_col. cbn. rewrite lookup_insert_eq. reflexivity. Qed.

Lemma recalc_pedido_itens (d : db) (pid : Z) :
  pedido_itens (_recalc_pedido_totais B d pid).2 = pedido_itens d.
Proof. unfold _recalc_pedido_totais. destruct (pedidos d !! pid); reflexivity. Qed.

Lemma recalc_pedido_logs (d : db) (pid : Z) :
  pedido_logs (_recalc_pedido_totais B d pid).2 = pedido_logs d.
Proof. unfold _recalc_pedido_totais. destruct (pedidos d !! pid); reflexivity. Qed.

Lemma recalc_numeradores (d : db) (pid : Z) :
  numeradores (_recalc_pedido_totais B d pid).2 = numeradores d.
Proof. unfold _recalc_pedido_totais. destruct (pedidos d !! pid); reflexivity. Qed.

Lemma recalc_value (d : db) (pid : Z) (ped : pedido) :
  pedidos d !! pid = Some ped ->
  (_recalc_pedido_totais B d pid).1 = new_total B ped (itens_do_pedido d pid).
Proof. intros H. unfold _recalc_pedido_totais. rewrite H. reflexivity. Qed.

Lemma recalc_lookup (d : db) (pid : Z) (ped : pedido) :
  pedidos d !! pid = Some ped ->
  pedidos (_recalc_pedido_totais B d pid).2 !! pid
  = Some (set_col "preco_total" (sqlite_bind (new_total B ped (itens_do_pedido d pid))) ped).
Proof.
  intros H. unfold _recalc_pedido_totais. rewrite H. simpl.
  apply lookup_insert_eq.
Qed.

(** The rule reads the two base columns only: writing the total does not
    change what it computes. *)
Lemma new_total_set_total (ped : pedido) (v : value) (itens : list item) :
  new_total B (set_col "preco_total" v ped) itens = new_total B ped itens.
Proof.
  unfold new_total. destruct itens; [|reflexivity].
  unfold set_col, col. simpl.
  rewrite !lookup_insert_ne by discriminate. reflexivity.
Qed.


Lemma itens_do_pedido_ext (d d' : db) (pid : Z) :
  pedido_itens d' = pedido_itens d -> itens_do_pedido d' pid = itens_do_pedido d pid.
Proof. unfold itens_do_pedido. intros ->. reflexivity. Qed.

Lemma recalc_total_logged_itens (pid : Z) (d : db) :
  pedido_itens (recalc_total_logged B pid d) = pedido_itens d.
Proof.
  unfold recalc_total_logged.
  pose proof (recalc_pedido_itens d pid) as H.
  destruct (_recalc_pedido_totais B d pid) as [nt d1]. simpl in H.
  destruct (negb (is_none nt) && py_ne nt _); simpl; exact H.
Qed.

Lemma recalc_total_logged_numeradores (pid : Z) (d : db) :
  numeradores (recalc_total_logged B pid d) = numeradores d.
Proof.
  unfold recalc_total_logged.
  pose proof (recalc_numeradores d pid) as H.
  destruct (_recalc_pedido_totais B d pid) as [nt d1]. simpl in H.
  destruct (negb (is_none nt) && py_ne nt _); simpl; exact H.
Qed.

Lemma recalc_total_logged_lookup (pid : Z) (d : db) (ped : pedido) :
  pedidos d !! pid = Some ped ->
  pedidos (recalc_total_logged B pid d) !! pid
  = Some (set_col "preco_total" (sqlite_bind (new_total B ped (itens_do_pedido d pid))) ped).
Proof.
  intros Hp. unfold recalc_total_logged.
  pose proof (recalc_lookup d pid ped Hp) as H.
  destruct (_recalc_pedido_totais B d pid) as [nt d1]. simpl in H.
  destruct (negb (is_none nt) && py_ne nt _); simpl; exact H.
Qed.


(** The keys that the filter loop lets through are allowed and carry no
    snapshot prefix. *)
Lemma filtrar_updates (allowed : list string) (data : dict) :
  Forall (λ kv : string * value,
            String.prefix "snapshot_" kv.1 = false /\ str_in kv.1 allowed = true)
         (filtrar allowed data).1.
Proof.
  induction data as [|[k v] rest IH]; simpl; [constructor|].
  destruct (filtrar allowed rest) as [updates blocked]. simpl in IH.
  destruct (String.prefix "snapshot_" k) eqn:Hp; simpl; [exact IH|].
  destruct (str_in k allowed) eqn:Ha; simpl.
  - constructor; [split; assumption | exact IH].
  - match goal with |- context [if ?c then _ else _] => destruct c end; exact IH.
Qed.

Lemma apply_updates_other (updates : dict) (it : item) (k : string) :
  Forall (λ kv : string * value, kv.1 ≠ k) updates ->
  item_cols (apply_updates updates it) !! k = item_cols it !! k.
Proof.
  unfold apply_updates. simpl. generalize (item_cols it).
  induction updates as [|[k' v] rest IH]; intros c H; simpl; [reflexivity|].
  inversion H as [|? ? Hk Hrest]; subst. simpl in Hk.
  rewrite IH by exact Hrest. apply lookup_insert_ne. exact Hk.
Qed.

(** The item table after an update request: untouched, or the rows of the
    given id rewritten with the filtered fields. *)
Lemma item_update_itens (pid iid : Z) (data : dict) (d : db) :
  pedido_itens (api_pedido_item_update B pid iid data d).2 = pedido_itens d
  \/ exists ped,
       pedidos d !! pid = Some ped
       /\ pedido_itens (api_pedido_item_update B pid iid data d).2
          = map (λ x, if item_id x =? iid
                      then apply_updates
                             (filtrar (allowed_for (upper (default "" (status ped)))) data).1 x
                      else x) (pedido_itens d).
Proof.
  unfold api_pedido_item_update.
  destruct (pedidos d !! pid) as [ped|] eqn:Hp; [|left; reflexivity].
  destruct (str_in _ ["CONCLUIDO"; "CANCELADO"]); [left; reflexivity|].
  destruct (find_item_of d iid pid) as [it|]; [|left; reflexivity].
  destruct (filtrar _ data) as [updates blocked] eqn:Hf.
  destruct updates as [|u us]; [left; reflexivity|].
  cbv zeta.
  destruct (item_diffs (u :: us) it);
    (match goal with |- context [recalc_total_logged B pid ?dd] => set (d2 := dd) end;
     pose proof (recalc_total_logged_itens pid d2) as Hi;
     destruct (find_item (recalc_total_logged B pid d2) iid); [|left; reflexivity];
     right; exists ped; split; [reflexivity|]; cbn [snd fst]; rewrite Hi;
     subst d2; rewrite Hf; reflexivity).
Qed.

Lemma same_on_refl (P : string -> Prop) (l : list item) :
  Forall2 (same_on P) l l.
Proof. induction l; constructor; [repeat split|assumption]. Qed.

Lemma item_update_same_on (P : string -> Prop) (pid iid : Z) (data : dict) (d : db) :
  (forall ped, pedidos d !! pid = Some ped ->
     Forall (λ kv : string * value, ~ P kv.1)
            (filtrar (allowed_for (upper (default "" (status ped)))) data).1) ->
  Forall2 (same_on P) (pedido_itens d)
          (pedido_itens (api_pedido_item_update B pid iid data d).2).
Proof.
  intros HP.
  destruct (item_update_itens pid iid data d) as [-> | (ped & Hp & ->)];
    [apply same_on_refl|].
  specialize (HP ped Hp).
  induction (pedido_itens d) as [|x l IH]; simpl; constructor; [|exact IH].
  destruct (item_id x =? iid); [|repeat split].
  repeat split. intros k Hk. apply apply_updates_other.
  eapply Forall_impl; [exact HP|]. intros kv Hn Heq. apply Hn. rewrite Heq. exact Hk.
Qed.

End Frames.

(** ** Line items: snapshot and gating *)

Example d_aprovado_lookup : pedidos d_aprovado !! 1 = Some ped_aprovado.
Proof. vm_compute. reflexivity. Qed.

Example d_concluido_lookup : pedidos d_concluido !! 1 = Some ped_concluido.
Proof. vm_compute. reflexivity. Qed.

(** C6: an update request, whatever the status of the order, leaves every
    column whose name begins with [snapshot_] as it was, in every stored
    item: the item table after the request is the table before it, row by
    row, up to columns without the prefix. *)
Theorem snapshot_immutable (B : builtins) (pid iid : Z) (data : dict) (d : db) :
  Forall2 (same_on (λ k, String.prefix "snapshot_" k = true))
          (pedido_itens d)
          (pedido_itens (api_pedido_item_update B pid iid data d).2).
Proof.
  apply item_update_same_on. intros ped _.
  eapply Forall_impl; [apply filtrar_updates|].
  intros kv [Hp _] H. congruence.
Qed.

(** [test_snapshot_immutavel_apos_aprovado]: the snapshot field of the
    request is dropped, the print status is written. *)
Example snapshot_request_dropped :
  let r := api_pedido_item_update B0 1 1
             [("snapshot_material", VStr "OUTRO"); ("status_impressao", VStr "pendente")]
             d_aprovado in
  (λ it, (item_cols it !! "snapshot_material", item_cols it !! "status_impressao"))
    <$> find_item r.2 1
  = Some (Some (VStr "PE"), Some (VStr "pendente")).
Proof. vm_compute. reflexivity. Qed.

(** C10: delete and update look at the status of the order before they
    look for the item.  When the status forbids the operation, a request
    that names an item that does not exist gets the status error (400) and
    not "item não encontrado" (404). *)
Theorem item_status_checked_first (B : builtins) (d : db) (pid iid : Z)
    (ped : pedido) (data : dict) :
  pedidos d !! pid = Some ped ->
  find_item_of d iid pid = None ->
  (upper (default "" (status ped)) <> "RASCUNHO" ->
   api_pedido_item_delete B pid iid d
   = (bad_request "Itens só podem ser removidos em RASCUNHO" [], d))
  /\ (str_in (upper (default "" (status ped))) ["CONCLUIDO"; "CANCELADO"] = true ->
      api_pedido_item_update B pid iid data d
      = (bad_request "Pedido não permite alterações em itens nesse status" [], d)).
Proof.
  intros Hp _. split; intros Hst.
  - unfold api_pedido_item_delete. rewrite Hp.
    destruct (String.eqb_spec (upper (default "" (status ped))) "RASCUNHO");
      [contradiction | reflexivity].
  - unfold api_pedido_item_update. rewrite Hp. cbv zeta. rewrite Hst. reflexivity.
Qed.

Lemma item_status_checked_first_witness :
  api_pedido_item_delete B0 1 99 d_concluido
  = (bad_request "Itens só podem ser removidos em RASCUNHO" [], d_concluido)
  /\ api_pedido_item_update B0 1 99 [("qtd", VInt 7)] d_concluido
     = (bad_request "Pedido não permite alterações em itens nesse status" [], d_concluido).
Proof.
  destruct (item_status_checked_first B0 d_concluido 1 99 ped_concluido
              [("qtd", VInt 7)] d_concluido_lookup)
    as [Hdel Hupd]; [vm_compute; reflexivity|].
  split.
  - apply Hdel. discriminate.
  - apply Hupd. reflexivity.
Defined.

(** The header patch and the status change do name the status they refuse. *)
Example header_patch_names_status :
  names_status (api_pedidos_update B0 1 [("ncm", VStr "39232190")] d_concluido).1 "CONCLUIDO"
  = true.
Proof. vm_compute. reflexivity. Qed.

Lemma str_in_base_allowed (k : string) :
  str_in k base_allowed = true -> k = "status_impressao" \/ k = "anel_extrusao".
Proof.
  unfold str_in, base_allowed. simpl.
  destruct (String.eqb_spec k "status_impressao"); [auto|].
  destruct (String.eqb_spec k "anel_extrusao"); [auto|]. discriminate.
Qed.

(** C5, the claim as stated, fails on its last part: for an order in
    CONCLUIDO the update and the delete of an item are refused, but neither
    response names the current status. *)
Lemma item_conflict_does_not_name_status :
  stored_status d_concluido 1 = Some "CONCLUIDO"
  /\ (api_pedido_item_update B0 1 1 [("status_impressao", VStr "pendente")] d_concluido).1
     = bad_request "Pedido não permite alterações em itens nesse status" []
  /\ names_status
       (api_pedido_item_update B0 1 1 [("status_impressao", VStr "pendente")] d_concluido).1
       "CONCLUIDO" = false
  /\ (api_pedido_item_delete B0 1 1 d_concluido).1
     = bad_request "Itens só podem ser removidos em RASCUNHO" []
  /\ names_status (api_pedido_item_delete B0 1 1 d_concluido).1 "CONCLUIDO" = false.
Proof. repeat split; vm_compute; reflexivity. Qed.

(** C5, amended: creation and deletion of items are refused with the
    "itens bloqueados" / "só podem ser removidos em RASCUNHO" error unless
    the order is in RASCUNHO; in APROVADO and EM_EXECUCAO an update request
    changes no column of any item other than [status_impressao] and
    [anel_extrusao]; in CONCLUIDO and CANCELADO every update and delete
    request is refused with status 400 and a message that does not name
    the current status. *)
Theorem item_gating (B : builtins) (d : db) (pid iid : Z) (ped : pedido)
    (data : dict) :
  pedidos d !! pid = Some ped ->
  let st := upper (default "" (status ped)) in
  (st <> "RASCUNHO" ->
     api_pedido_itens_add B pid data d
     = (bad_request "Pedido não está em RASCUNHO (itens bloqueados)" [], d)
     /\ api_pedido_item_delete B pid iid d
        = (bad_request "Itens só podem ser removidos em RASCUNHO" [], d))
  /\ (st = "APROVADO" \/ st = "EM_EXECUCAO" ->
        Forall2 (same_on (λ k, k <> "status_impressao" /\ k <> "anel_extrusao"))
                (pedido_itens d)
                (pedido_itens (api_pedido_item_update B pid iid data d).2))
  /\ (st = "CONCLUIDO" \/ st = "CANCELADO" ->
        api_pedido_item_update B pid iid data d
        = (bad_request "Pedido não permite alterações em itens nesse status" [], d)
        /\ names_status (api_pedido_item_update B pid iid data d).1 st = false
        /\ names_status (api_pedido_item_delete B pid iid d).1 st = false).
Proof.
  intros Hp st. split; [|split].
  - intros Hst. unfold api_pedido_itens_add, api_pedido_item_delete. rewrite Hp.
    fold st. destruct (String.eqb_spec st "RASCUNHO"); [contradiction|].
    split; reflexivity.
  - intros Hst. apply item_update_same_on. intros ped' Hp'.
    rewrite Hp in Hp'. injection Hp' as <-. fold st.
    assert (Ha : allowed_for st = base_allowed) by (destruct Hst as [-> | ->]; reflexivity).
    rewrite Ha. eapply Forall_impl; [apply filtrar_updates|].
    intros kv [_ Hin] [H1 H2].
    destruct (str_in_base_allowed _ Hin); contradiction.
  - intros Hst.
    assert (Hupd : api_pedido_item_update B pid iid data d
                   = (bad_request "Pedido não permite alterações em itens nesse status" [], d)).
    { unfold api_pedido_item_update. rewrite Hp. cbv zeta. fold st.
      destruct Hst as [-> | ->]; reflexivity. }
    assert (Hdel : api_pedido_item_delete B pid iid d
                   = (bad_request "Itens só podem ser removidos em RASCUNHO" [], d)).
    { unfold api_pedido_item_delete. rewrite Hp. fold st.
      destruct Hst as [-> | ->]; reflexivity. }
    rewrite Hupd, Hdel. split; [reflexivity|].
    destruct Hst as [-> | ->]; split; reflexivity.
Qed.

Lemma item_gating_witness :
  api_pedido_itens_add B0 1 item_5x2 d_concluido
  = (bad_request "Pedido não está em RASCUNHO (itens bloqueados)" [], d_concluido)
  /\ api_pedido_item_delete B0 1 1 d_concluido
     = (bad_request "Itens só podem ser removidos em RASCUNHO" [], d_concluido)
  /\ api_pedido_item_update B0 1 1 [("status_impressao", VStr "pendente")] d_concluido
     = (bad_request "Pedido não permite alterações em itens nesse status" [], d_concluido).
Proof.
  split; [|split].
  - apply (item_gating B0 d_concluido 1 1 ped_concluido item_5x2 d_concluido_lookup).
    discriminate.
  - apply (item_gating B0 d_concluido 1 1 ped_concluido item_5x2 d_concluido_lookup).
    discriminate.
  - apply (item_gating B0 d_concluido 1 1 ped_concluido
             [("status_impressao", VStr "pendente")] d_concluido_lookup).
    left. reflexivity.
Defined.

(** ** Item update: what is applied and what is reported *)

Lemma snapshot_not_identifier (k : string) :
  String.prefix "snapshot_" k = true -> str_in k ["pedido_id"; "id"] = false.
Proof.
  intros H. unfold str_in. simpl.
  destruct (String.eqb_spec k "pedido_id") as [-> | _]; [discriminate|].
  destruct (String.eqb_spec k "id") as [-> | _]; [discriminate|]. reflexivity.
Qed.

Lemma filtrar_spec (allowed : list string) (data : dict) :
  filtrar allowed data = (permitted_subset allowed data, blocked_subset allowed data).
Proof.
  unfold permitted_subset, blocked_subset, permitted.
  induction data as [|[k v] rest IH]; [reflexivity|].
  cbn [filtrar List.filter fst snd]. rewrite IH.
  destruct (String.prefix "snapshot_" k) eqn:Hp.
  - rewrite (snapshot_not_identifier k Hp). reflexivity.
  - destruct (str_in k allowed); [reflexivity|].
    destruct (str_in k ["pedido_id"; "id"]); reflexivity.
Qed.

Lemma find_item_of_some (d : db) (iid pid : Z) (it : item) :
  find_item_of d iid pid = Some it -> exists x, find_item d iid = Some x.
Proof.
  unfold find_item_of, find_item.
  induction (pedido_itens d) as [|y l IH]; simpl; [discriminate|].
  destruct (item_id y =? iid); simpl; [eauto|]. exact IH.
Qed.

Lemma find_item_map (f : item -> item) (iid : Z) (l : list item) :
  (forall x, item_id (f x) = item_id x) ->
  List.find (λ it, item_id it =? iid) (map f l)
  = f <$> List.find (λ it, item_id it =? iid) l.
Proof.
  intros Hf. induction l as [|y l IH]; simpl; [reflexivity|].
  rewrite Hf. destruct (item_id y =? iid); [reflexivity | exact IH].
Qed.

(** C7, the claim as stated, fails: a request that names a snapshot field
    and a permitted field is answered with the updated row and status 200;
    the blocked field is not reported. *)
Lemma partial_update_does_not_report_blocked :
  let data := [("snapshot_material", VStr "OUTRO"); ("status_impressao", VStr "pendente")] in
  let r := (api_pedido_item_update B0 1 1 data d_aprovado).1 in
  (filtrar (allowed_for "APROVADO") data).2 = ["snapshot_material"]
  /\ r.2 = 200
  /\ match r.1 with
     | BItem row =>
         item_cols row !! "status_impressao" = Some (VStr "pendente")
         /\ item_cols row !! "snapshot_material" = Some (VStr "PE")
         /\ item_cols row !! "bloqueados" = None
     | _ => False
     end
  /\ reported_blocked r.1 = None.
Proof.
  cbv zeta. split; [reflexivity|]. split; [vm_compute; reflexivity|].
  split; [|vm_compute; reflexivity].
  vm_compute. repeat split; reflexivity.
Qed.

(** C7, amended: on an item of an order that is neither CONCLUIDO nor
    CANCELADO, a request that names at least one permitted field applies
    exactly the permitted fields to the row and returns the updated row
    with status 200, and does not report the blocked fields; only a request
    that names no permitted field gets the blocked fields back, with status
    400 and nothing written. *)
Theorem item_update_partial (B : builtins) (d : db) (pid iid : Z) (ped : pedido)
    (it : item) (data : dict) :
  pedidos d !! pid = Some ped ->
  str_in (upper (default "" (status ped))) ["CONCLUIDO"; "CANCELADO"] = false ->
  find_item_of d iid pid = Some it ->
  let allowed := allowed_for (upper (default "" (status ped))) in
  let r := api_pedido_item_update B pid iid data d in
  match permitted_subset allowed data with
  | [] =>
      r = (bad_request "Nenhum campo permitido para atualização"
             [("bloqueados",
               JList (map (λ k, JVal (VStr k)) (blocked_subset allowed data)))], d)
  | _ :: _ =>
      exists x,
        find_item d iid = Some x
        /\ r.1 = (BItem (apply_updates (permitted_subset allowed data) x), 200)
        /\ reported_blocked r.1.1 = None
        /\ pedido_itens r.2
           = map (λ y, if item_id y =? iid
                       then apply_updates (permitted_subset allowed data) y else y)
                 (pedido_itens d)
  end.
Proof.
  intros Hp Hst Hit allowed r. subst r.
  unfold api_pedido_item_update. rewrite Hp. cbv zeta. rewrite Hst, Hit.
  fold allowed. rewrite filtrar_spec.
  destruct (permitted_subset allowed data) as [|u us] eqn:Hperm; [reflexivity|].
  destruct (find_item_of_some d iid pid it Hit) as [x Hx]. exists x.
  split; [exact Hx|].
  match goal with |- context [recalc_total_logged B pid ?dd] => set (d2 := dd) end.
  assert (Hi : pedido_itens (recalc_total_logged B pid d2)
               = map (λ y, if item_id y =? iid then apply_updates (u :: us) y else y)
                     (pedido_itens d)).
  { rewrite recalc_total_logged_itens. subst d2.
    destruct (item_diffs (u :: us) it); reflexivity. }
  assert (Hf : find_item (recalc_total_logged B pid d2) iid
               = Some (apply_updates (u :: us) x)).
  { unfold find_item. rewrite Hi, find_item_map.
    - unfold find_item in Hx. rewrite Hx. simpl.
      apply List.find_some in Hx as [_ Hid]. rewrite Hid. reflexivity.
    - intros y. destruct (item_id y =? iid); reflexivity. }
  rewrite Hf. cbn [fst snd]. repeat split. exact Hi.
Qed.

Lemma item_update_partial_witness :
  exists x,
    find_item d_aprovado 1 = Some x
    /\ (api_pedido_item_update B0 1 1
          [("snapshot_material", VStr "OUTRO"); ("status_impressao", VStr "pendente")]
          d_aprovado).1
       = (BItem (apply_updates [("status_impressao", VStr "pendente")] x), 200).
Proof.
  destruct (find_item_of d_aprovado 1 1) as [it|] eqn:Hit; [|vm_compute in Hit; discriminate].
  pose proof (item_update_partial B0 d_aprovado 1 1 ped_aprovado it
                [("snapshot_material", VStr "OUTRO"); ("status_impressao", VStr "pendente")]
                d_aprovado_lookup eq_refl Hit) as H.
  destruct H as (x & Hx & Hr & _). exists x. split; [exact Hx | exact Hr].
Defined.

(** ** Production orders *)




(** ** Order numbers *)

(** *** Decimal numerals *)

Lemma string_length_append (s t : string) :
  String.length (s ++ t) = (String.length s + String.length t)%nat.
Proof. induction s as [|c s IH]; simpl; [reflexivity | rewrite IH; reflexivity]. Qed.

Lemma length_zeros (k : nat) : String.length (zeros k) = k.
Proof. induction k as [|k IH]; simpl; [reflexivity | rewrite IH; reflexivity]. Qed.

Lemma all_digits_append (s t : string) :
  all_digits (s ++ t) = all_digits s && all_digits t.
Proof.
  induction s as [|c s IH]; simpl; [reflexivity|]. rewrite IH, andb_assoc. reflexivity.
Qed.

Lemma all_digits_zeros (k : nat) : all_digits (zeros k) = true.
Proof. induction k as [|k IH]; cbn; [reflexivity | exact IH]. Qed.

Lemma string_of_uint_length (u : Decimal.uint) :
  String.length (NilEmpty.string_of_uint u) = Decimal.nb_digits u.
Proof. induction u; cbn; congruence. Qed.

Lemma string_of_uint_digits (u : Decimal.uint) :
  all_digits (NilEmpty.string_of_uint u) = true.
Proof. induction u; cbn; assumption || reflexivity. Qed.

Lemma of_uint_acc_ge (l : Decimal.uint) (acc : positive) :
  (Npos acc * 10 ^ N.of_nat (Decimal.nb_digits l) <= Npos (Pos.of_uint_acc l acc))%N.
Proof.
  revert acc. induction l; intros acc; cbn [Decimal.nb_digits Pos.of_uint_acc];
    [cbn; lia|..];
    rewrite Nat2N.inj_succ, N.pow_succ_r';
    (eapply N.le_trans; [|apply IHl]);
    generalize (10 ^ N.of_nat (Decimal.nb_digits l))%N; intros P; cbn [Pos.mul Pos.add]; nia.
Qed.

Lemma nb_digits_bound (u : Decimal.uint) (k : nat) :
  Decimal.unorm u = u ->
  (N.of_uint u < 10 ^ N.of_nat k)%N ->
  (1 <= k)%nat ->
  (Decimal.nb_digits u <= k)%nat.
Proof.
  intros Hu Hlt Hk.
  assert (Hpos : forall l acc,
            (Npos (Pos.of_uint_acc l acc) < 10 ^ N.of_nat k)%N ->
            (S (Decimal.nb_digits l) <= k)%nat).
  { intros l acc H. pose proof (of_uint_acc_ge l acc) as Hge.
    assert (H10 : (10 ^ N.of_nat (Decimal.nb_digits l) < 10 ^ N.of_nat k)%N) by nia.
    apply N.pow_lt_mono_r_iff in H10; lia. }
  destruct u; cbn [Decimal.nb_digits]; try (apply (Hpos _ _ Hlt)); [lia|].
  unfold Decimal.unorm in Hu. cbn [Decimal.nzhead] in Hu.
  destruct (Decimal.nzhead u) eqn:E; try discriminate Hu;
    try (exfalso; exact (DecimalFacts.nzhead_nonzero _ _ E)).
  injection Hu as <-. cbn. exact Hk.
Qed.

Lemma digits_length (n : N) (k : nat) :
  (n < 10 ^ N.of_nat k)%N -> (1 <= k)%nat -> (String.length (digits n) <= k)%nat.
Proof.
  intros Hn Hk. unfold digits.
  assert (Hu : Decimal.unorm (N.to_uint n) = N.to_uint n).
  { rewrite <- (DecimalN.Unsigned.of_to n) at 2. symmetry. apply DecimalN.Unsigned.to_of. }
  pose proof (nb_digits_bound (N.to_uint n) k Hu) as Hb.
  rewrite DecimalN.Unsigned.of_to in Hb. specialize (Hb Hn Hk).
  destruct (N.to_uint n) eqn:E; cbn [NilZero.string_of_uint];
    try (rewrite string_of_uint_length; exact Hb).
  cbn. exact Hk.
Qed.

Lemma digits_all_digits (n : N) : all_digits (digits n) = true.
Proof.
  unfold digits. destruct (N.to_uint n); cbn [NilZero.string_of_uint];
    try apply string_of_uint_digits. reflexivity.
Qed.

Lemma uint_of_zeros (k : nat) (s : string) (u : Decimal.uint) :
  NilEmpty.uint_of_string s = Some u ->
  NilEmpty.uint_of_string (zeros k ++ s) = Some (lead0 k u).
Proof.
  intros H. induction k as [|k IH]; simpl; [exact H|].
  rewrite IH. reflexivity.
Qed.

Lemma of_uint_lead0 (k : nat) (u : Decimal.uint) : N.of_uint (lead0 k u) = N.of_uint u.
Proof. induction k as [|k IH]; simpl; [reflexivity | exact IH]. Qed.

Lemma uint_of_digits (n : N) :
  exists u, NilEmpty.uint_of_string (digits n) = Some u /\ N.of_uint u = n.
Proof.
  unfold digits. pose proof (DecimalN.Unsigned.of_to n) as Hn.
  destruct (N.to_uint n) as [|d|d|d|d|d|d|d|d|d|d] eqn:E;
    (eexists; split; [apply (NilEmpty.usu (_ _)) || reflexivity | exact Hn]).
Qed.

Lemma uint_of_zfill (w : nat) (n : N) :
  exists u, NilEmpty.uint_of_string (zfill w (digits n)) = Some u /\ N.of_uint u = n.
Proof.
  destruct (uint_of_digits n) as (u & Hu & Hn).
  exists (lead0 (w - String.length (digits n)) u). split.
  - unfold zfill. apply uint_of_zeros. exact Hu.
  - rewrite of_uint_lead0. exact Hn.
Qed.

Lemma int_of_digits_unsigned (s : string) (u : Decimal.uint) :
  NilEmpty.uint_of_string s = Some u ->
  int_of_digits s = Some (Z.of_N (N.of_uint u)).
Proof.
  intros H. destruct s as [|c s']; [simpl in *; injection H as <-; reflexivity|].
  assert (Hc : c <> "-"%char).
  { intros ->. simpl in H. destruct (NilEmpty.uint_of_string s'); discriminate. }
  unfold int_of_digits.
  destruct c as [[|] [|] [|] [|] [|] [|] [|] [|]];
    try (rewrite H; reflexivity).
  contradiction Hc. reflexivity.
Qed.

(** The format can be read back: distinct integers give distinct numbers. *)
Lemma numero_int_fmt (n : Z) : numero_int ("PED-" ++ fmt_06d n) = Some n.
Proof.
  change (int_of_digits (fmt_06d n) = Some n). unfold fmt_06d.
  destruct (Z.ltb_spec n 0) as [Hneg | Hpos].
  - destruct (uint_of_zfill 5 (Z.abs_N n)) as (u & Hu & Hn).
    change (int_of_digits (String "-" (zfill 5 (digits (Z.abs_N n)))) = Some n).
    unfold int_of_digits. rewrite Hu. simpl. rewrite Hn. f_equal. lia.
  - destruct (uint_of_zfill 6 (Z.abs_N n)) as (u & Hu & Hn).
    rewrite (int_of_digits_unsigned _ _ Hu), Hn. f_equal. lia.
Qed.

Lemma gerar_codigo_pedido_spec (d : db) :
  (gerar_codigo_pedido d).1 = "PED-" ++ fmt_06d (ultimo d + 1)
  /\ ultimo (gerar_codigo_pedido d).2 = ultimo d + 1.
Proof.
  unfold gerar_codigo_pedido, ultimo. cbv zeta. cbn [fst snd].
  destruct (numeradores d !! "PED") as [u|] eqn:E; cbn [default].
  - rewrite E. cbn [default numeradores set_numeradores].
    rewrite lookup_insert_eq. split; reflexivity.
  - cbn [numeradores set_numeradores]. rewrite !lookup_insert_eq. split; reflexivity.
Qed.

Section Numbering.

Variable B : builtins.

Lemma recalc_numeradores_eq (d d' : db) (pid : Z) (nt : value) :
  _recalc_pedido_totais B d pid = (nt, d') -> numeradores d' = numeradores d.
Proof. intros H. pose proof (recalc_numeradores B d pid) as E. rewrite H in E. exact E. Qed.

(** A request other than a creation announces no number and leaves the
    table of counters as it is. *)
Lemma handle_other_counter (r : request) (d : db) :
  (forall hoje data, r <> PedidosCreate hoje data) ->
  numero_criado (handle B r d).1 = None
  /\ numeradores (handle B r d).2 = numeradores d.
Proof.
  intros Hr.
  destruct r as [hoje data|pid data|pid data|pid iid|pid iid data|pid data|pid data];
    cbn [handle].
  - destruct (Hr hoje data eq_refl).
  - unfold api_pedidos_update. repeat case_goal; (split; [reflexivity|]);
      cbn [snd]; try reflexivity;
      repeat match goal with
             | H : _recalc_pedido_totais B _ _ = (_, _) |- _ =>
                 apply recalc_numeradores_eq in H
             end;
      cbn [numeradores insert_log set_pedido_logs];
      try match goal with H : numeradores _ = _ |- _ => rewrite H end;
      repeat case_goal; try reflexivity.
  - unfold api_pedido_itens_add. repeat case_goal; (split; [reflexivity|]);
      cbn [snd]; try reflexivity; rewrite recalc_total_logged_numeradores; reflexivity.
  - unfold api_pedido_item_delete. repeat case_goal; (split; [reflexivity|]);
      cbn [snd]; try reflexivity; rewrite recalc_total_logged_numeradores; reflexivity.
  - unfold api_pedido_item_update. repeat case_goal; (split; [reflexivity|]);
      cbn [snd]; try reflexivity;
      rewrite recalc_total_logged_numeradores; repeat case_goal; reflexivity.
  - unfold api_pedido_change_status. repeat case_goal; (split; [reflexivity|]);
      cbn [snd]; try reflexivity; rewrite recalc_numeradores; reflexivity.
  - unfold api_op_create. repeat case_goal; (split; [reflexivity|]);
      cbn [snd]; reflexivity.
Qed.

(** What one request does to the counter: a creation that succeeds takes
    the next number; every other request, and a creation that fails,
    leaves the counter alone and announces no number. *)
Lemma handle_counter (r : request) (d : db) :
  match numero_criado (handle B r d).1 with
  | Some s => s = "PED-" ++ fmt_06d (ultimo d + 1)
              /\ ultimo (handle B r d).2 = ultimo d + 1
  | None => ultimo (handle B r d).2 = ultimo d
  end.
Proof.
  destruct r as [hoje data|pid data|pid data|pid iid|pid iid data|pid data|pid data];
    try (match goal with
         | |- context [handle B ?r d] =>
             destruct (handle_other_counter r d) as [-> Hn]; [discriminate|];
             unfold ultimo; rewrite Hn; reflexivity
         end).
  cbn [handle]. unfold api_pedidos_create.
  destruct (truthy (dict_get "cliente_id" data)); cbn [negb]; [|reflexivity].
  destruct (py_strip _) as [regime|]; [|reflexivity].
  destruct (gerar_codigo_pedido_spec d) as [Hn Hu].
  destruct (gerar_codigo_pedido d) as [numero d1]. cbn [fst snd] in Hn, Hu.
  cbv zeta. unfold numero_criado. cbn [fst snd numero_pedido Z.eqb Pos.eqb].
  split; [exact Hn|]. exact Hu.
Qed.

End Numbering.

Lemma numeros_de_S (u : Z) (n : nat) :
  numeros_de u (S n) = ("PED-" ++ fmt_06d (u + 1)) :: numeros_de (u + 1) n.
Proof.
  unfold numeros_de. cbn [seq map]. f_equal.
  rewrite <- seq_shift, map_map. apply map_ext. intros i.
  do 2 f_equal. lia.
Qed.

Lemma run_numbers (B : builtins) (rs : list request) (d : db) :
  numeros_criados (run B rs d).1
  = numeros_de (ultimo d) (length (numeros_criados (run B rs d).1))
  /\ ultimo (run B rs d).2
     = ultimo d + Z.of_nat (length (numeros_criados (run B rs d).1)).
Proof.
  revert d. induction rs as [|r rest IH]; intros d.
  - cbn. split; [reflexivity | lia].
  - cbn [run]. pose proof (handle_counter B r d) as Hc.
    destruct (handle B r d) as [resp d1]. cbn [fst snd] in Hc.
    specialize (IH d1). destruct (run B rest d1) as [resps d2].
    cbn [fst snd] in IH |- *. destruct IH as [IHn IHu].
    unfold numeros_criados in *. cbn [omap list_omap].
    destruct (numero_criado resp) as [s|].
    + destruct Hc as [-> Hu]. cbn [length]. rewrite numeros_de_S. split.
      * f_equal. rewrite <- Hu. exact IHn.
      * rewrite IHu, Hu. lia.
    + rewrite <- Hc. split; [exact IHn | exact IHu].
Qed.

Lemma numero_int_numeros_de (u : Z) (n : nat) :
  map numero_int (numeros_de u n) = map (λ i, Some (u + Z.of_nat i)) (seq 1 n).
Proof.
  unfold numeros_de. rewrite map_map. apply map_ext. intros i. apply numero_int_fmt.
Qed.

(** The decimal numeral of a number has no leading zero, unless it is the
    one digit of zero. *)
Lemma digits_no_leading_zero (n : N) :
  (1 < String.length (digits n))%nat -> starts_with_zero (digits n) = false.
Proof.
  unfold digits.
  assert (Hu : Decimal.unorm (N.to_uint n) = N.to_uint n).
  { rewrite <- (DecimalN.Unsigned.of_to n) at 2. symmetry. apply DecimalN.Unsigned.to_of. }
  destruct (N.to_uint n) as [|u|u|u|u|u|u|u|u|u|u];
    cbn [NilZero.string_of_uint NilEmpty.string_of_uint starts_with_zero];
    intros Hl; try reflexivity; [cbn in Hl; lia|].
  exfalso. unfold Decimal.unorm in Hu. cbn [Decimal.nzhead] in Hu.
  destruct (Decimal.nzhead u) eqn:E; try discriminate Hu;
    try (exact (DecimalFacts.nzhead_nonzero _ _ E)).
  injection Hu as <-. cbn in Hl. lia.
Qed.

(** The format of the code gives what the specification asks of a number
    that is not negative: the integer zero-padded to six digits. *)
Lemma fmt_06d_zero_padded (n : Z) : 0 <= n -> zero_padded6 n (fmt_06d n) = true.
Proof.
  intros Hn. unfold zero_padded6.
  pose proof (numero_int_fmt n) as Hi.
  change (int_of_digits (fmt_06d n) = Some n) in Hi. rewrite Hi, Z.eqb_refl.
  unfold fmt_06d. destruct (Z.ltb_spec n 0) as [Hneg | _]; [lia|].
  unfold zfill.
  rewrite all_digits_append, all_digits_zeros, digits_all_digits.
  rewrite string_length_append, length_zeros. cbn [andb].
  replace (6 <=? 6 - String.length (digits (Z.abs_N n))
                 + String.length (digits (Z.abs_N n)))%nat
    with true by (symmetry; apply Nat.leb_le; lia).
  cbn [andb].
  destruct (le_lt_dec (String.length (digits (Z.abs_N n))) 6) as [Hle | Hgt].
  - replace (6 - String.length (digits (Z.abs_N n))
             + String.length (digits (Z.abs_N n)))%nat with 6%nat by lia.
    reflexivity.
  - replace (6 - String.length (digits (Z.abs_N n)))%nat with 0%nat by lia.
    change (zeros 0 ++ digits (Z.abs_N n)) with (digits (Z.abs_N n)).
    assert (H1 : (1 < String.length (digits (Z.abs_N n)))%nat) by lia.
    rewrite (digits_no_leading_zero _ H1). apply orb_true_r.
Qed.

Lemma numeros_de_form (u : Z) (n : nat) :
  0 <= u ->
  Forall2 (λ s i, ped_nnnnnn (u + Z.of_nat i) s = true) (numeros_de u n) (seq 1 n).
Proof.
  intros Hu. unfold numeros_de.
  induction (seq 1 n) as [|i l IH]; cbn [map]; constructor; [|exact IH].
  change (zero_padded6 (u + Z.of_nat i) (fmt_06d (u + Z.of_nat i)) = true).
  apply fmt_06d_zero_padded. lia.
Qed.

(** A response announces a number exactly when it answers a creation that
    succeeded. *)
Lemma handle_creation (B : builtins) (r : request) (d : db) :
  is_create r && succeeded (handle B r d).1
  = match numero_criado (handle B r d).1 with Some _ => true | None => false end.
Proof.
  destruct r as [hoje data|pid data|pid data|pid iid|pid iid data|pid data|pid data];
    try (match goal with
         | |- context [handle B ?r d] =>
             destruct (handle_other_counter B r d) as [-> _]; [discriminate|];
             reflexivity
         end).
  cbn [handle is_create andb]. unfold api_pedidos_create.
  destruct (truthy (dict_get "cliente_id" data)); cbn [negb]; [|reflexivity].
  destruct (py_strip _) as [regime|]; [|reflexivity].
  destruct (gerar_codigo_pedido d) as [numero d1]. reflexivity.
Qed.

Lemma run_criacoes (B : builtins) (rs : list request) (d : db) :
  map numero_criado (criacoes rs (run B rs d).1)
  = map Some (numeros_criados (run B rs d).1).
Proof.
  revert d. induction rs as [|r rest IH]; intros d; [reflexivity|].
  cbn [run]. pose proof (handle_creation B r d) as Hc.
  destruct (handle B r d) as [resp d1]. cbn [fst] in Hc.
  specialize (IH d1). destruct (run B rest d1) as [resps d2]. cbn [fst] in IH |- *.
  cbn [criacoes]. rewrite Hc. unfold numeros_criados in *. cbn [omap list_omap].
  destruct (numero_criado resp) as [s|] eqn:E; [|exact IH].
  cbn [map]. rewrite E, IH. reflexivity.
Qed.

(** C9: in any run of requests, every creation that succeeds announces an
    order number, and the numbers announced are those of the creations, one
    each, in order.  They are [PED-] followed by the integers
    [u+1, u+2, ..., u+N], where [u] is the value of the counter [PED]
    before the run: strictly increasing by one, no gap, no duplicate.  When
    the counter is not negative, and it starts at zero, each number has the
    form [PED-NNNNNN]: after the prefix, decimal digits only, which read as
    the integer, six at least, and more than six only without a leading
    zero.  Each number is taken from the counter inside the creating
    request, and after the run the counter is [u+N]. *)
Theorem order_numbers_sequential (B : builtins) (rs : list request) (d : db) :
  let resps := (run B rs d).1 in
  let nums := numeros_criados resps in
  map numero_criado (criacoes rs resps) = map Some nums
  /\ (0 <= ultimo d ->
      Forall2 (λ s i, ped_nnnnnn (ultimo d + Z.of_nat i) s = true)
        nums (seq 1 (length nums)))
  /\ nums = map (λ i, "PED-" ++ fmt_06d (ultimo d + Z.of_nat i)) (seq 1 (length nums))
  /\ map numero_int nums
     = map (λ i, Some (ultimo d + Z.of_nat i)) (seq 1 (length nums))
  /\ NoDup nums
  /\ ultimo (run B rs d).2 = ultimo d + Z.of_nat (length nums).
Proof.
  intros resps nums. destruct (run_numbers B rs d) as [Hn Hu].
  fold resps in Hn, Hu. fold nums in Hn, Hu.
  assert (Hi : map numero_int nums
               = map (λ i, Some (ultimo d + Z.of_nat i)) (seq 1 (length nums))).
  { rewrite Hn at 1. apply numero_int_numeros_de. }
  split; [apply run_criacoes|].
  split; [intros H0; rewrite Hn at 1; apply numeros_de_form; exact H0|].
  split; [exact Hn|]. split; [exact Hi|]. split; [|exact Hu].
  apply (NoDup_fmap_1 numero_int). change (NoDup (map numero_int nums)). rewrite Hi.
  assert (Hinj : Inj eq eq (λ i : nat, Some (ultimo d + Z.of_nat i))).
  { intros i j H. injection H as H. lia. }
  apply (NoDup_fmap_2 _). apply NoDup_seq.
Qed.

(** [test_criar_pedido_e_codigo_sequencial], with an item request between
    the two creations. *)
Example two_orders_numbers :
  numeros_criados
    (run B0 [PedidosCreate "2025-09-01" [("cliente_id", VInt 1)];
             ItensAdd 1 item_5x2;
             PedidosCreate "2025-09-01" [("cliente_id", VInt 1)];
             PedidosCreate "2025-09-02" [("razao", VStr "sem cliente")]] db0).1
  = ["PED-000001"; "PED-000002"].
Proof. vm_compute. reflexivity. Qed.

(** The same run: its two creations that succeed announce the numbers
    [PED-000001] and [PED-000002], of the form [PED-NNNNNN] for 1 and 2; the
    creation without a client is refused and announces none. *)
Lemma order_numbers_sequential_witness :
  let rs := [PedidosCreate "2025-09-01" [("cliente_id", VInt 1)];
             ItensAdd 1 item_5x2;
             PedidosCreate "2025-09-01" [("cliente_id", VInt 1)];
             PedidosCreate "2025-09-02" [("razao", VStr "sem cliente")]] in
  0 <= ultimo db0
  /\ map numero_criado (criacoes rs (run B0 rs db0).1)
     = [Some "PED-000001"; Some "PED-000002"]
  /\ Forall2 (λ s i, ped_nnnnnn (ultimo db0 + Z.of_nat i) s = true)
       ["PED-000001"; "PED-000002"] [1%nat; 2%nat]
  /\ ultimo (run B0 rs db0).2 = 2.
Proof.
  intros rs.
  assert (H0 : 0 <= ultimo db0) by (vm_compute; discriminate).
  destruct (order_numbers_sequential B0 rs db0) as (Hc & Hf & _ & _ & _ & Hu).
  specialize (Hf H0).
  assert (E : numeros_criados (run B0 rs db0).1 = ["PED-000001"; "PED-000002"])
    by (vm_compute; reflexivity).
  rewrite E in Hc, Hf, Hu.
  split; [exact H0|]. split; [exact Hc|]. split; [exact Hf|]. exact Hu.
Defined.

(** ** Totals engine: the fallback without items *)

(** C3, the claim as stated, fails: with no items and a planned quantity
    that does not convert, recomputation does not leave the stored total
    (here the 50.0 given at creation) untouched: it stores [preco_base]. *)
Lemma recalc_non_numeric_overwrites :
  itens_do_pedido d_manual 1 = []
  /\ stored_total d_manual 1 = Some (VFloat 50)
  /\ py_float B0 (VStr "abc") = None
  /\ (_recalc_pedido_totais B0 d_manual 1).1 = VFloat 2
  /\ stored_total (_recalc_pedido_totais B0 d_manual 1).2 1 = Some (VFloat 2).
Proof. vm_compute. repeat split; reflexivity. Qed.

(** The same through a request: approving the order rewrites its total. *)
Example approve_rewrites_manual_total :
  stored_total (api_pedido_change_status B0 1 [("status", VStr "APROVADO")] d_manual).2 1
  = Some (VFloat 2).
Proof. vm_compute. reflexivity. Qed.

(** C3, amended: for an order without items whose [preco_base] and
    [quantidade_planejada] are both present, recomputation returns their
    product when both convert to numbers, and stores it (as NULL when the
    product is NaN, which SQLite does not hold); when one of them does not
    convert it returns and stores the stored [preco_base] itself; in both
    cases it returns normally. *)
Theorem recalc_without_items (B : builtins) (d : db) (pid : Z) (ped : pedido) :
  pedidos d !! pid = Some ped ->
  itens_do_pedido d pid = [] ->
  col "preco_base" (ped_cols ped) <> VNone ->
  col "quantidade_planejada" (ped_cols ped) <> VNone ->
  let r := _recalc_pedido_totais B d pid in
  match py_float B (col "preco_base" (ped_cols ped)),
        py_float B (col "quantidade_planejada" (ped_cols ped)) with
  | Some pb, Some qp =>
      r.1 = VFloat (pb * qp)%float
      /\ stored_total r.2 pid
         = Some (if PrimFloat.is_nan (pb * qp) then VNone else VFloat (pb * qp)%float)
  | _, _ =>
      r.1 = col "preco_base" (ped_cols ped)
      /\ stored_total r.2 pid = Some (sqlite_bind (col "preco_base" (ped_cols ped)))
  end.
Proof.
  intros Hp Hi Hb Hq r. subst r.
  unfold stored_total. rewrite (recalc_value B d pid ped Hp), (recalc_lookup B d pid ped Hp).
  rewrite Hi. cbn [fmap option_fmap option_map]. rewrite col_set_col.
  unfold new_total.
  destruct (col "preco_base" (ped_cols ped)) eqn:Eb; [contradiction| | |];
    (destruct (col "quantidade_planejada" (ped_cols ped)) eqn:Eq; [contradiction| | |]);
    cbn [is_none orb]; repeat case_goal; cbn [sqlite_bind]; split;
      try reflexivity; repeat case_goal; congruence.
Qed.

Example d_fallback_lookup : pedidos d_fallback !! 1 = Some ped_fallback.
Proof. vm_compute. reflexivity. Qed.

Lemma recalc_without_items_witness :
  (_recalc_pedido_totais B0 d_fallback 1).1 = VFloat 10
  /\ stored_total (_recalc_pedido_totais B0 d_fallback 1).2 1 = Some (VFloat 10).
Proof.
  pose proof (recalc_without_items B0 d_fallback 1 ped_fallback d_fallback_lookup) as H.
  replace (col "preco_base" (ped_cols ped_fallback)) with (VFloat 2.5) in H
    by (vm_compute; reflexivity).
  replace (col "quantidade_planejada" (ped_cols ped_fallback)) with (VFloat 4) in H
    by (vm_compute; reflexivity).
  specialize (H ltac:(vm_compute; reflexivity) ltac:(discriminate) ltac:(discriminate)).
  exact H.
Defined.

(** A product that is NaN: infinity times zero is returned as NaN and
    stored as NULL. *)
Example recalc_nan_product :
  let ped := Pedido (Some "RASCUNHO") "PED-000001"
               (<["preco_base" := VFloat infinity]>
                  (<["quantidade_planejada" := VFloat 0]> (ped_cols ped_rascunho))) in
  let d := set_pedidos (<[1 := ped]> (pedidos d_rascunho)) d_rascunho in
  PrimFloat.is_nan (infinity * 0) = true
  /\ stored_total (_recalc_pedido_totais B0 d 1).2 1 = Some VNone.
Proof. cbv zeta. split; vm_compute; reflexivity. Qed.

(** What the code does when an input is missing: the stored total is
    overwritten with NULL and [None] is returned. *)
Lemma recalc_missing_input_writes_null (B : builtins) (d : db) (pid : Z) (ped : pedido) :
  pedidos d !! pid = Some ped ->
  itens_do_pedido d pid = [] ->
  col "preco_base" (ped_cols ped) = VNone
  \/ col "quantidade_planejada" (ped_cols ped) = VNone ->
  (_recalc_pedido_totais B d pid).1 = VNone
  /\ stored_total (_recalc_pedido_totais B d pid).2 pid = Some VNone.
Proof.
  intros Hp Hi Hm.
  unfold stored_total. rewrite (recalc_value B d pid ped Hp), (recalc_lookup B d pid ped Hp).
  rewrite Hi.
  assert (Hn : new_total B ped [] = VNone).
  { unfold new_total. destruct Hm as [-> | ->]; [reflexivity|].
    destruct (col "preco_base" (ped_cols ped)); reflexivity. }
  rewrite Hn. split; [reflexivity|].
  cbn. unfold col. rewrite lookup_insert_eq. reflexivity.
Qed.

(** An order created with a total of its own and nothing else loses it at
    the first status change, without an audit entry for the total. *)
Example approve_erases_manual_total :
  let d := (run B0 [PedidosCreate "2025-09-01"
                      [("cliente_id", VInt 1); ("preco_total", VFloat 50)]] db0).2 in
  let d' := (api_pedido_change_status B0 1 [("status", VStr "APROVADO")] d).2 in
  stored_total d 1 = Some (VFloat 50)
  /\ stored_total d' 1 = Some VNone
  /\ acoes d' = ["CREATED"; "STATUS_CHANGED"].
Proof. vm_compute. repeat split; reflexivity. Qed.

(** ** Recomputation after a mutation *)

Section Recomputation.

Variable B : builtins.

(** A successful item mutation is a change of the item table with its own
    audit entry, at most one and never [RECALC_TOTAL], followed by the
    logged recomputation. *)
Lemma item_mutation_shape (r : request) (d : db) (pid : Z) :
  is_item_mutation r pid = true ->
  succeeded (handle B r d).1 = true ->
  exists dm own,
    (handle B r d).2 = recalc_total_logged B pid dm
    /\ pedidos dm = pedidos d
    /\ pedido_logs dm = (pedido_logs d ++ own)%list
    /\ Forall (λ l, acao l <> "RECALC_TOTAL") own
    /\ is_Some (pedidos d !! pid).
Proof.
  intros Hr Hs.
  destruct r as [hoje data|p data|p data|p iid|p iid data|p data|p data];
    try discriminate; cbn [is_item_mutation] in Hr; apply Z.eqb_eq in Hr; subst p;
    cbn [handle] in *.
  - unfold api_pedido_itens_add in *.
    destruct (pedidos d !! pid) as [ped|] eqn:Hp; [|discriminate].
    destruct (negb _); [discriminate|].
    destruct (find_embalagem _ _ _ _) as [emb|]; [|discriminate].
    destruct (snapshot_tratamento _) as [t|]; [|discriminate].
    cbv zeta. cbn [snd]. eexists _, [_]. split; [reflexivity|].
    split; [reflexivity|]. split; [reflexivity|]. split; [|eauto].
    constructor; [discriminate | constructor].
  - unfold api_pedido_item_delete in *.
    destruct (pedidos d !! pid) as [ped|] eqn:Hp; [|discriminate].
    destruct (negb _); [discriminate|].
    destruct (find_item_of d iid pid); [|discriminate].
    cbv zeta. cbn [snd]. eexists _, [_]. split; [reflexivity|].
    split; [reflexivity|]. split; [reflexivity|]. split; [|eauto].
    constructor; [discriminate | constructor].
  - unfold api_pedido_item_update in *.
    destruct (pedidos d !! pid) as [ped|] eqn:Hp; [|discriminate].
    cbv zeta in *. destruct (str_in _ ["CONCLUIDO"; "CANCELADO"]); [discriminate|].
    destruct (find_item_of d iid pid) as [it|]; [|discriminate].
    destruct (filtrar _ data) as [updates blocked].
    destruct updates as [|u us]; [discriminate|].
    destruct (item_diffs (u :: us) it) as [|df dfs];
      (match goal with
       | |- context [recalc_total_logged B pid ?dd] => set (d2 := dd) in *
       end;
       destruct (find_item (recalc_total_logged B pid d2) iid); [|discriminate];
       cbn [snd]; subst d2).
    + eexists _, []. split; [reflexivity|]. split; [reflexivity|].
      split; [cbn; rewrite app_nil_r; reflexivity|]. split; [constructor | eauto].
    + eexists _, [_]. split; [reflexivity|]. split; [reflexivity|].
      split; [reflexivity|]. split; [|eauto].
      constructor; [discriminate | constructor].
Qed.

(** After a logged recomputation the stored total is the total of the rule. *)
Lemma recalc_total_logged_invariant (d : db) (pid : Z) (ped : pedido) :
  pedidos d !! pid = Some ped ->
  let d' := recalc_total_logged B pid d in
  pedidos d' !! pid
  = Some (set_col "preco_total" (sqlite_bind (new_total B ped (itens_do_pedido d' pid))) ped).
Proof.
  intros Hp d'. subst d'.
  rewrite (recalc_total_logged_lookup B pid d ped Hp).
  rewrite (itens_do_pedido_ext _ _ pid (recalc_total_logged_itens B pid d)).
  reflexivity.
Qed.

(** One step: after a successful request that recomputes, the stored total
    of the order is the total of the rule on the items and the header as
    they are now stored. *)
Lemma handle_total_invariant (r : request) (d : db) (pid : Z) :
  recalculates r pid = true ->
  succeeded (handle B r d).1 = true ->
  exists ped,
    pedidos (handle B r d).2 !! pid = Some ped
    /\ col "preco_total" (ped_cols ped)
       = sqlite_bind (new_total B ped (itens_do_pedido (handle B r d).2 pid)).
Proof.
  intros Hr Hs.
  destruct (is_item_mutation r pid) eqn:Hm.
  - destruct (item_mutation_shape r d pid Hm Hs) as (dm & own & -> & Hpd & _ & _ & [ped Hp]).
    rewrite <- Hpd in Hp.
    eexists. split; [apply (recalc_total_logged_invariant dm pid ped Hp)|].
    rewrite col_set_col, new_total_set_total. reflexivity.
  - destruct r as [hoje data|p data|p data|p iid|p iid data|p data|p data];
      cbn [recalculates is_item_mutation] in Hr, Hm; try congruence.
    apply Z.eqb_eq in Hr. subst p.
    cbn [handle] in *. unfold api_pedido_change_status in *.
    destruct (py_upper _) as [novo|]; [|discriminate].
    destruct (negb (str_in novo status_permitidos)); [discriminate|].
    destruct (pedidos d !! pid) as [ped|] eqn:Hp; [|discriminate].
    cbv zeta in *. destruct (negb (str_in novo _)); [discriminate|].
    cbn [snd].
    match goal with
    | |- context [_recalc_pedido_totais B ?dd pid] => set (d2 := dd) in *
    end.
    assert (Hp2 : pedidos d2 !! pid = Some (set_status novo ped)).
    { subst d2. cbn. apply lookup_insert_eq. }
    eexists. split; [apply (recalc_lookup B d2 pid _ Hp2)|].
    rewrite col_set_col, new_total_set_total.
    rewrite (itens_do_pedido_ext _ _ pid (recalc_pedido_itens B d2 pid)).
    reflexivity.
Qed.

End Recomputation.

(** ** The stored total after every mutating call *)

(** The sum over the items, one more item at a time: the product of the
    unit price and the quantity, [None] and zero read as zero, is added
    when both convert to numbers. *)
Lemma soma_itens_snoc (B : builtins) (l : list item) (it : item) :
  soma_itens B (l ++ [it])
  = match py_float B (py_or (col "preco_unit" (item_cols it)) (VInt 0)),
          py_float B (py_or (col "qtd" (item_cols it)) (VInt 0)) with
    | Some pu, Some qtd => (soma_itens B l + pu * qtd)%float
    | _, _ => soma_itens B l
    end.
Proof.
  unfold soma_itens. rewrite foldl_app. cbn [foldl].
  destruct (py_float B (py_or (col "preco_unit" (item_cols it)) (VInt 0)));
    [destruct (py_float B (py_or (col "qtd" (item_cols it)) (VInt 0)))|]; reflexivity.
Qed.

(** C1, the claim as stated, fails for the header patch and for the
    creation: a patch that carries [preco_total] on an order with an item
    stores the total of the request (999.0) where the rule gives the sum of
    the items (10.0), and an order created with [preco_total], [preco_base]
    and [quantidade_planejada] keeps the total of the request (5.0) where
    the rule gives the product (6.0). *)
Lemma manual_total_diverges :
  (let p := api_pedidos_update B0 1 [("preco_total", VFloat 999)] d_um_item in
   succeeded p.1 = true
   /\ stored_total p.2 1 = Some (VFloat 999)
   /\ rule_total B0 p.2 1 = Some (VFloat 10))
  /\ (let c := api_pedidos_create B0 "2025-09-01"
                 [("cliente_id", VInt 1); ("preco_total", VFloat 5);
                  ("preco_base", VFloat 2); ("quantidade_planejada", VFloat 3)] db0 in
      succeeded c.1 = true
      /\ stored_total c.2 1 = Some (VFloat 5)
      /\ rule_total B0 c.2 1 = Some (VFloat 6)).
Proof. vm_compute. repeat split; reflexivity. Qed.

(** The conversion of the code on a numeric value is the number of the
    specification. *)
Lemma py_float_valor (B : builtins) (v : value) :
  numero v = true -> py_float B (py_or v (VInt 0)) = Some (valor v).
Proof.
  destruct v as [|n|f|s]; cbn [numero]; intros H; [reflexivity| | |discriminate H].
  - unfold py_or. cbn [truthy]. destruct (Z.eqb_spec n 0) as [-> | Hn]; [reflexivity|].
    cbn [negb py_float valor]. apply negb_true_iff in H. rewrite H. reflexivity.
  - unfold py_or, valor, PrimFloat.is_zero, PrimFloat.zero. cbn [truthy].
    destruct (f =? 0)%float; reflexivity.
Qed.

(** The loop of the code computes the sum of the specification on numeric
    items. *)
Lemma soma_itens_spec (B : builtins) (itens : list item) :
  itens_numericos itens -> soma_itens B itens = soma_dos_itens itens.
Proof.
  unfold soma_itens, soma_dos_itens. generalize 0%float.
  induction itens as [|it rest IH]; intros acc H; [reflexivity|].
  inversion H as [|? ? [Hp Hq] Hrest]; subst. cbn [foldl map soma_de].
  rewrite (py_float_valor B _ Hp), (py_float_valor B _ Hq).
  exact (IH _ Hrest).
Qed.

(** C1, amended: in every run of requests, after each successful item add,
    item update, item delete or status change on an order, the stored
    [preco_total] of that order is the total of the rule of §4.2 on what is
    then stored (NULL standing for a total that is NaN): with one or more
    items, all numeric, the sum over the items of unit price times
    quantity; with no item, [preco_base] times [quantidade_planejada] when
    both convert to numbers.  (The header patch and the creation may store
    a total given by the request.) *)
Theorem total_invariant (B : builtins) (rs : list request) (r : request)
    (d : db) (pid : Z) :
  recalculates r pid = true ->
  let d1 := (run B rs d).2 in
  succeeded (handle B r d1).1 = true ->
  let d2 := (handle B r d1).2 in
  exists ped,
    pedidos d2 !! pid = Some ped
    /\ stored_total d2 pid = sqlite_bind <$> rule_total B d2 pid
    /\ (itens_do_pedido d2 pid <> [] ->
        itens_numericos (itens_do_pedido d2 pid) ->
        col "preco_total" (ped_cols ped)
        = total_guardado (soma_dos_itens (itens_do_pedido d2 pid)))
    /\ (itens_do_pedido d2 pid = [] ->
        forall pb qp,
          py_float B (col "preco_base" (ped_cols ped)) = Some pb ->
          py_float B (col "quantidade_planejada" (ped_cols ped)) = Some qp ->
          col "preco_total" (ped_cols ped) = total_guardado (pb * qp)%float).
Proof.
  intros Hr d1 Hs d2.
  destruct (handle_total_invariant B r d1 pid Hr Hs) as (ped & Hp & Ht).
  fold d2 in Hp, Ht. exists ped. split; [exact Hp|]. split; [|split].
  - unfold stored_total, rule_total. rewrite Hp. cbn. rewrite Ht. reflexivity.
  - intros Hne Hnum. rewrite Ht. unfold new_total.
    destruct (itens_do_pedido d2 pid) as [|it rest] eqn:E; [contradiction|].
    rewrite (soma_itens_spec B _ Hnum). reflexivity.
  - intros He pb qp Hb Hq. rewrite Ht, He. unfold new_total. rewrite Hb, Hq.
    destruct (col "preco_base" (ped_cols ped)); [discriminate| | |];
      (destruct (col "quantidade_planejada" (ped_cols ped)); [discriminate| | |]);
      reflexivity.
Qed.

(** Scenario A: with the second item the total is 5 x 2.0 + 3 x 4.0. *)
Lemma total_invariant_witness :
  exists ped,
    pedidos (handle B0 (ItensAdd 1 item_3x4) d_um_item).2 !! 1 = Some ped
    /\ length (itens_do_pedido (handle B0 (ItensAdd 1 item_3x4) d_um_item).2 1) = 2%nat
    /\ col "preco_total" (ped_cols ped) = VFloat 22.
Proof.
  destruct (total_invariant B0 [PedidosCreate "2025-09-01" [("cliente_id", VInt 1)];
                                ItensAdd 1 item_5x2]
              (ItensAdd 1 item_3x4) db0 1)
    as (ped & Hp & _ & Hsum & _).
  - reflexivity.
  - vm_compute. reflexivity.
  - exists ped. split; [exact Hp|]. split; [vm_compute; reflexivity|].
    rewrite Hsum.
    + vm_compute. reflexivity.
    + intros H. apply (f_equal length) in H. vm_compute in H. discriminate H.
    + apply (bool_decide_unpack _). vm_compute. exact I.
Defined.

(** ** The audit entry of a recomputation *)


(** A status change recomputes and stores the total but writes no
    [RECALC_TOTAL] entry, also when the total changes. *)
Example status_change_recalc_unlogged :
  let d' := (api_pedido_change_status B0 1 [("status", VStr "APROVADO")] d_manual).2 in
  stored_total d_manual 1 = Some (VFloat 50)
  /\ stored_total d' 1 = Some (VFloat 2)
  /\ acoes d' = ["CREATED"; "STATUS_CHANGED"].
Proof. cbv zeta. repeat split; vm_compute; reflexivity. Qed.





(** A header patch that sends the planned quantity 3 as a JSON integer to a
    draft that holds 3.0: the row read back is the row as it was, no entry
    is written and nothing is recomputed. *)
Example header_patch_same_number :
  api_pedidos_update B0 1 [("quantidade_planejada", VInt 3)] d_planejado
  = ((BPedido 1 ped_planejado, 200), d_planejado).
Proof. vm_compute. reflexivity. Qed.

(** The header patch on a draft without items: a new base price with a
    planned quantity is logged with the reason; without a planned quantity
    the copy of the base price into the total does not survive the
    recomputation. *)
Example header_patch_with_quantity :
  let d := (run B0 [PedidosCreate "2025-09-01"
                      [("cliente_id", VInt 1); ("quantidade_planejada", VInt 3)];
                    PedidosUpdate 1 [("preco_base", VFloat 7)]] db0).2 in
  stored_total d 1 = Some (VFloat 21)
  /\ last (pedido_logs d)
     = Some (Log 1 "RECALC_TOTAL"
               [("de", JVal VNone); ("para", JVal (VFloat 21));
                ("motivo", JVal (VStr "patch campos base sem itens"))]).
Proof. cbv zeta. split; vm_compute; reflexivity. Qed.

Example header_patch_without_quantity :
  let d := (run B0 [PedidosCreate "2025-09-01" [("cliente_id", VInt 1)];
                    PedidosUpdate 1 [("preco_base", VFloat 7)]] db0).2 in
  stored_total d 1 = Some VNone /\ acoes d = ["CREATED"; "UPDATED"].
Proof. cbv zeta. split; vm_compute; reflexivity. Qed.

(** Scenario E ([test_add_item_bloqueado_apos_aprovado],
    [test_delete_item_bloqueado_apos_aprovado]) and
    [test_patch_restrito_pos_aprovado]. *)
Example scenario_E :
  (api_pedido_itens_add B0 1 item_3x4 d_aprovado).1
  = bad_request "Pedido não está em RASCUNHO (itens bloqueados)" []
  /\ (api_pedido_item_delete B0 1 1 d_aprovado).1
     = bad_request "Itens só podem ser removidos em RASCUNHO" []
  /\ (api_pedido_item_update B0 1 1 [("qtd", VInt 999)] d_aprovado).1
     = bad_request "Nenhum campo permitido para atualização"
         [("bloqueados", JList [JVal (VStr "qtd")])].
Proof. repeat split; vm_compute; reflexivity. Qed.

(** * Further properties of the handlers *)

(** ** Refusals write nothing *)

Section Effects.

Variable B : builtins.

(** A request that is not answered with a 2xx status leaves the database
    exactly as it was: every refusal of the handlers (400, 404) comes
    before the first write, and an exception commits nothing. *)
Lemma handle_refused (r : request) (d : db) :
  succeeded (handle B r d).1 = false -> (handle B r d).2 = d.
Proof.
  destruct r as [hoje data|pid data|pid data|pid iid|pid iid data|pid data|pid data];
    cbn [handle].
  - unfold api_pedidos_create. repeat case_goal; intros H;
      first [reflexivity | discriminate H].
  - unfold api_pedidos_update. repeat case_goal; intros H;
      first [reflexivity | discriminate H].
  - unfold api_pedido_itens_add. repeat case_goal; intros H;
      first [reflexivity | discriminate H].
  - unfold api_pedido_item_delete. repeat case_goal; intros H;
      first [reflexivity | discriminate H].
  - unfold api_pedido_item_update. repeat case_goal; intros H;
      first [reflexivity | discriminate H].
  - unfold api_pedido_change_status. repeat case_goal; intros H;
      first [reflexivity | discriminate H].
  - unfold api_op_create. repeat case_goal; intros H;
      first [reflexivity | discriminate H].
Qed.

Lemma recalc_logs_eq (d d' : db) (pid : Z) (nt : value) :
  _recalc_pedido_totais B d pid = (nt, d') -> pedido_logs d' = pedido_logs d.
Proof. intros H. pose proof (recalc_pedido_logs B d pid) as E. rewrite H in E. exact E. Qed.

End Effects.

(** ** How the row of an order evolves *)

Section Rows.

Variable B : builtins.

Lemma evolves_refl (ped : pedido) : evolves ped ped.
Proof. split; [reflexivity|]. split; [left; reflexivity | reflexivity]. Qed.

Lemma evolves_set_total (ped : pedido) (v : value) :
  evolves ped (set_col "preco_total" v ped).
Proof.
  split; [reflexivity|]. split; [left; reflexivity|].
  intros k Hk. cbn. apply lookup_insert_ne. intros <-. discriminate Hk.
Qed.

Lemma evolves_trans_cols (p1 p2 p3 : pedido) :
  evolves p1 p2 ->
  numero_pedido p3 = numero_pedido p2 -> status p3 = status p2 ->
  (forall k, str_in k allowed_fields = false -> ped_cols p3 !! k = ped_cols p2 !! k) ->
  evolves p1 p3.
Proof.
  intros (Hn & Hs & Hc) Hn3 Hs3 Hc3. split; [congruence|]. split.
  - rewrite Hs3. exact Hs.
  - intros k Hk. rewrite Hc3, Hc by exact Hk. reflexivity.
Qed.

Lemma recalc_pedidos (d : db) (pid : Z) :
  pedidos (_recalc_pedido_totais B d pid).2
  = match pedidos d !! pid with
    | Some ped =>
        <[pid := set_col "preco_total" (sqlite_bind (new_total B ped (itens_do_pedido d pid))) ped]>
          (pedidos d)
    | None => pedidos d
    end.
Proof. unfold _recalc_pedido_totais. destruct (pedidos d !! pid); reflexivity. Qed.

Lemma recalc_total_logged_pedidos (pid : Z) (d : db) :
  pedidos (recalc_total_logged B pid d) = pedidos (_recalc_pedido_totais B d pid).2.
Proof.
  unfold recalc_total_logged.
  destruct (_recalc_pedido_totais B d pid) as [nt d1]. cbn [snd].
  destruct (negb (is_none nt) && py_ne nt _); reflexivity.
Qed.

Lemma recalc_pedidos_seq (d : db) (pid : Z) :
  pedidos_seq (_recalc_pedido_totais B d pid).2 = pedidos_seq d.
Proof. unfold _recalc_pedido_totais. destruct (pedidos d !! pid); reflexivity. Qed.

Lemma recalc_total_logged_pedidos_seq (pid : Z) (d : db) :
  pedidos_seq (recalc_total_logged B pid d) = pedidos_seq d.
Proof.
  unfold recalc_total_logged. pose proof (recalc_pedidos_seq d pid) as H.
  destruct (_recalc_pedido_totais B d pid) as [nt d1]. cbn [snd] in H.
  destruct (negb (is_none nt) && py_ne nt _); exact H.
Qed.

(** What a recomputation does to the table of orders, row by row. *)
Lemma recalc_row (d : db) (pid q : Z) (ped : pedido) :
  pedidos d !! q = Some ped ->
  exists ped', pedidos (_recalc_pedido_totais B d pid).2 !! q = Some ped'
               /\ (q <> pid -> ped' = ped)
               /\ (ped' = ped \/ exists v, ped' = set_col "preco_total" v ped).
Proof.
  intros Hq. rewrite recalc_pedidos.
  destruct (Z.eq_dec q pid) as [-> | Hne].
  - rewrite Hq, lookup_insert_eq. eexists. split; [reflexivity|].
    split; [intros H; contradiction H; reflexivity | right; eauto].
  - destruct (pedidos d !! pid); [rewrite lookup_insert_ne by congruence|];
      exists ped; (split; [exact Hq|]); split; auto.
Qed.

Lemma patch_row_status (p : pedido) (clean : dict) :
  status (patch_row B p clean) = status p
  /\ numero_pedido (patch_row B p clean) = numero_pedido p.
Proof.
  unfold patch_row. revert p. induction clean as [|[k v] rest IH]; intros p; cbn [foldl].
  - split; reflexivity.
  - exact (IH _).
Qed.

Lemma patch_row_cols (p : pedido) (clean : dict) (k : string) :
  Forall (λ kv : string * value, kv.1 <> k) clean ->
  ped_cols (patch_row B p clean) !! k = ped_cols p !! k.
Proof.
  unfold patch_row. revert p. induction clean as [|[k' v] rest IH]; intros p H; cbn [foldl].
  - reflexivity.
  - inversion H as [|? ? Hk Hrest]; subst.
    etransitivity; [exact (IH _ Hrest)|].
    cbn. apply lookup_insert_ne. exact Hk.
Qed.

Lemma clean_fields_allowed (data : dict) :
  Forall (λ kv : string * value, str_in kv.1 allowed_fields = true) (clean_fields data).
Proof.
  unfold clean_fields. induction data as [|[k v] rest IH]; cbn [List.filter]; [constructor|].
  destruct (str_in (k, v).1 allowed_fields) eqn:E; [constructor; assumption | assumption].
Qed.

Lemma derive_total_allowed (n : nat) (clean : dict) :
  Forall (λ kv : string * value, str_in kv.1 allowed_fields = true) clean ->
  Forall (λ kv : string * value, str_in kv.1 allowed_fields = true) (derive_total n clean).
Proof.
  intros H. unfold derive_total. destruct (_ && _ && _); [|exact H].
  apply Forall_app. split; [exact H|]. constructor; [reflexivity | constructor].
Qed.

Lemma evolves_patch_row (ped : pedido) (clean : dict) :
  Forall (λ kv : string * value, str_in kv.1 allowed_fields = true) clean ->
  evolves ped (patch_row B ped clean).
Proof.
  intros H. destruct (patch_row_status ped clean) as [Hs Hn].
  split; [exact Hn|]. split; [left; exact Hs|].
  intros k Hk. apply patch_row_cols.
  eapply Forall_impl; [exact H|]. intros kv Hin Heq. subst k. cbn beta in Hin. congruence.
Qed.

Lemma evolves_status_change (ped : pedido) (novo : string) (v : value) :
  str_in novo (transicoes_validas (upper (default "" (status ped)))) = true ->
  evolves ped (set_col "preco_total" v (set_status novo ped)).
Proof.
  intros H. split; [reflexivity|]. split; [right; exists novo; split; [reflexivity | exact H]|].
  intros k Hk. cbn. apply lookup_insert_ne. intros <-. discriminate Hk.
Qed.

(** The table of orders after one request: unchanged, or the row of the
    addressed order replaced by a row it evolves to, or (creation) a row
    inserted under the next id. *)
Lemma handle_pedidos (r : request) (d : db) :
  pedidos (handle B r d).2 = pedidos d
  \/ (exists ped ped',
        pedidos d !! alvo r d = Some ped
        /\ evolves ped ped'
        /\ pedidos (handle B r d).2 = <[alvo r d := ped']> (pedidos d))
  \/ (exists hoje data row,
        r = PedidosCreate hoje data
        /\ pedidos (handle B r d).2 = <[pedidos_seq d + 1 := row]> (pedidos d)).
Proof.
  destruct (succeeded (handle B r d).1) eqn:Hs;
    [|left; rewrite (handle_refused B r d Hs); reflexivity].
  destruct (is_item_mutation r (alvo r d)) eqn:Hm.
  { destruct (item_mutation_shape B r d _ Hm Hs) as (dm & own & Hd & Hpd & _ & _ & [ped Hp]).
    right. left. exists ped. rewrite Hd, recalc_total_logged_pedidos, recalc_pedidos, Hpd, Hp.
    eexists. split; [reflexivity|]. split; [apply evolves_set_total | reflexivity]. }
  destruct r as [hoje data|pid data|pid data|pid iid|pid iid data|pid data|pid data];
    cbn [is_item_mutation alvo] in Hm; try (rewrite Z.eqb_refl in Hm; discriminate Hm);
    cbn [handle alvo] in *.
  - right. right. exists hoje, data. unfold api_pedidos_create in *.
    destruct (negb (truthy _)); [discriminate Hs|].
    destruct (py_strip _); [|discriminate Hs].
    unfold gerar_codigo_pedido. cbv zeta. cbn [snd pedidos insert_log set_pedido_logs
      set_pedidos_seq set_pedidos set_numeradores pedidos_seq].
    eexists. split; reflexivity.
  - right. left. unfold api_pedidos_update in *.
    destruct (clean_fields data) as [|c cs] eqn:Ec; [discriminate Hs|].
    destruct (pedidos d !! pid) as [ped|] eqn:Hp; [|discriminate Hs].
    destruct (negb (bool_decide _)); [discriminate Hs|]. cbv zeta in *.
    exists ped.
    set (clean := derive_total (length (itens_do_pedido d pid)) (c :: cs)) in *.
    assert (Hal : Forall (λ kv : string * value, str_in kv.1 allowed_fields = true) clean).
    { apply derive_total_allowed. rewrite <- Ec. apply clean_fields_allowed. }
    pose proof (evolves_patch_row ped clean Hal) as Hev.
    set (row_new := patch_row B ped clean) in *.
    match goal with
    | |- context [if ?c then _ else _] => destruct c
    end.
    + match goal with
      | |- context [_recalc_pedido_totais B ?dd pid] => set (d2 := dd) in *
      end.
      assert (Hp2 : pedidos d2 !! pid = Some row_new).
      { subst d2. destruct (changed_fields B clean ped row_new); cbn; apply lookup_insert_eq. }
      assert (Hd2 : pedidos d2 = <[pid := row_new]> (pedidos d)).
      { subst d2. destruct (changed_fields B clean ped row_new); reflexivity. }
      pose proof (recalc_pedidos d2 pid) as Hr. rewrite Hp2, Hd2, insert_insert_eq in Hr.
      destruct (_recalc_pedido_totais B d2 pid) as [nt d3]. cbn [snd] in Hr.
      eexists. split; [reflexivity|]. split.
      2:{ destruct (negb (is_none nt) && py_ne nt _); cbn [snd]; exact Hr. }
      eapply evolves_trans_cols; [exact Hev | reflexivity | reflexivity |].
      intros k Hk. cbn. apply lookup_insert_ne. intros <-. discriminate Hk.
    + exists row_new. split; [reflexivity|]. split; [exact Hev|].
      cbn [snd]. destruct (changed_fields B clean ped row_new); reflexivity.
  - right. left. unfold api_pedido_change_status in *.
    destruct (py_upper _) as [novo|]; [|discriminate Hs].
    destruct (negb (str_in novo status_permitidos)); [discriminate Hs|].
    destruct (pedidos d !! pid) as [ped|] eqn:Hp; [|discriminate Hs].
    cbv zeta in *.
    destruct (str_in novo (transicoes_validas _)) eqn:Ht; [|discriminate Hs].
    cbn [negb snd] in *. exists ped.
    match goal with
    | |- context [_recalc_pedido_totais B ?dd pid] => set (d2 := dd) in *
    end.
    pose proof (recalc_pedidos d2 pid) as Hr.
    assert (Hp2 : pedidos d2 !! pid = Some (set_status novo ped)).
    { subst d2. cbn. apply lookup_insert_eq. }
    rewrite Hp2 in Hr. subst d2.
    cbn [pedidos insert_log set_pedido_logs set_pedidos] in Hr.
    rewrite insert_insert_eq in Hr.
    eexists. split; [reflexivity|]. split; [|exact Hr].
    apply evolves_status_change. exact Ht.
  - unfold api_op_create in *.
    destruct (pedidos d !! pid) as [ped|] eqn:Hp; [|discriminate Hs].
    cbv zeta in *.
    destruct (negb (str_in _ ["APROVADO"; "EM_EXECUCAO"])); [discriminate Hs|].
    destruct (py_strip _); [|discriminate Hs]. cbn [snd].
    match goal with
    | |- context [if ?c then _ else _] => destruct c eqn:Hc
    end.
    + right. left. exists ped, (set_status "EM_EXECUCAO" ped).
      split; [reflexivity|]. split; [|reflexivity].
      apply andb_true_iff in Hc as [Hc _]. apply String.eqb_eq in Hc.
      split; [reflexivity|]. split; [|reflexivity].
      right. exists "EM_EXECUCAO". split; [reflexivity|]. rewrite Hc. reflexivity.
    + left. reflexivity.
Qed.

Lemma handle_pedidos_seq (r : request) (d : db) :
  pedidos_seq d <= pedidos_seq (handle B r d).2.
Proof.
  destruct r as [hoje data|pid data|pid data|pid iid|pid iid data|pid data|pid data];
    cbn [handle].
  - unfold api_pedidos_create, gerar_codigo_pedido.
    repeat case_goal; cbn; lia.
  - unfold api_pedidos_update. repeat case_goal; cbn [snd]; try lia;
      repeat match goal with
             | H : _recalc_pedido_totais B ?dd _ = (_, ?d3) |- _ =>
                 let E := fresh in
                 pose proof (recalc_pedidos_seq dd pid) as E; rewrite H in E;
                 cbn [snd] in E; clear H
             end;
      cbn [pedidos_seq insert_log set_pedido_logs set_pedidos] in *;
      try match goal with H : pedidos_seq _ = _ |- _ => rewrite H end;
      repeat case_goal; cbn; lia.
  - unfold api_pedido_itens_add. repeat case_goal; cbn [snd]; try lia.
    rewrite recalc_total_logged_pedidos_seq. cbn. lia.
  - unfold api_pedido_item_delete. repeat case_goal; cbn [snd]; try lia.
    rewrite recalc_total_logged_pedidos_seq. cbn. lia.
  - unfold api_pedido_item_update. repeat case_goal; cbn [snd]; try lia;
      rewrite recalc_total_logged_pedidos_seq; repeat case_goal; cbn; lia.
  - unfold api_pedido_change_status. repeat case_goal; cbn [snd]; try lia.
    rewrite recalc_pedidos_seq. cbn. lia.
  - unfold api_op_create. repeat case_goal; cbn; lia.
Qed.

(** One request and the row of an order that exists under an id already
    given out. *)
Lemma handle_row (r : request) (d : db) (q : Z) (ped : pedido) :
  pedidos d !! q = Some ped ->
  q <= pedidos_seq d ->
  exists ped',
    pedidos (handle B r d).2 !! q = Some ped'
    /\ evolves ped ped'
    /\ (q <> alvo r d -> ped' = ped).
Proof.
  intros Hq Hle.
  destruct (handle_pedidos r d) as [-> | [(p & p' & Hp & Hev & ->) | (hoje & data & row & -> & ->)]].
  - exists ped. split; [exact Hq|]. split; [apply evolves_refl | reflexivity].
  - destruct (Z.eq_dec q (alvo r d)) as [-> | Hne].
    + rewrite lookup_insert_eq. rewrite Hq in Hp. injection Hp as <-.
      exists p'. split; [reflexivity|]. split; [exact Hev | intros H; contradiction H; reflexivity].
    + rewrite lookup_insert_ne by congruence.
      exists ped. split; [exact Hq|]. split; [apply evolves_refl | reflexivity].
  - rewrite lookup_insert_ne by lia.
    exists ped. split; [exact Hq|]. split; [apply evolves_refl | reflexivity].
Qed.

End Rows.

(** ** Orders over a run of requests *)

Section History.

Variable B : builtins.

Lemma run_cons (r : request) (rs : list request) (d : db) :
  (run B (r :: rs) d).2 = (run B rs (handle B r d).2).2.
Proof.
  cbn [run]. destruct (handle B r d) as [resp d1]. cbn [snd].
  destruct (run B rs d1) as [resps d2]. reflexivity.
Qed.

Lemma run_cons_resp (r : request) (rs : list request) (d : db) :
  (run B (r :: rs) d).1 = (handle B r d).1 :: (run B rs (handle B r d).2).1.
Proof.
  cbn [run]. destruct (handle B r d) as [resp d1]. cbn [fst snd].
  destruct (run B rs d1) as [resps d2]. reflexivity.
Qed.

(** X1: a run in which every request is refused (no response with a 2xx
    status) leaves the database exactly as it was: each refusal of the
    seven handlers comes before the first write, and an exception commits
    nothing. *)
Theorem refused_requests_write_nothing (rs : list request) (d : db) :
  Forall (λ resp, succeeded resp = false) (run B rs d).1 ->
  (run B rs d).2 = d.
Proof.
  revert d. induction rs as [|r rest IH]; intros d H; [reflexivity|].
  rewrite run_cons_resp in H. rewrite run_cons.
  inversion H as [|? ? Hr Hrest]; subst.
  rewrite (handle_refused B r d Hr) in *. exact (IH d Hrest).
Qed.

(** A request changes the row of the order it addresses and no other. *)
Lemma handle_pedidos_other (r : request) (d : db) (q : Z) :
  q <> alvo r d -> pedidos (handle B r d).2 !! q = pedidos d !! q.
Proof.
  intros Hne.
  destruct (handle_pedidos B r d) as [-> | [(p & p' & _ & _ & ->) | (hoje & data & row & -> & ->)]].
  - reflexivity.
  - apply lookup_insert_ne. congruence.
  - apply lookup_insert_ne. cbn [alvo] in Hne. congruence.
Qed.

(** X4: whatever requests are served, an order stays in the table under its
    id with the number it was given; its status is one that the table of
    transitions reaches from the status it had; and no column outside the
    allow-list of the header patch ever changes. *)
Theorem order_history (rs : list request) (d : db) (q : Z) (ped : pedido) :
  pedidos d !! q = Some ped ->
  q <= pedidos_seq d ->
  exists ped',
    pedidos (run B rs d).2 !! q = Some ped'
    /\ numero_pedido ped' = numero_pedido ped
    /\ rtc status_step (status ped) (status ped')
    /\ forall k, str_in k allowed_fields = false ->
                 ped_cols ped' !! k = ped_cols ped !! k.
Proof.
  revert d ped. induction rs as [|r rest IH]; intros d ped Hq Hle.
  - exists ped. cbn. split; [exact Hq|]. split; [reflexivity|].
    split; [apply rtc_refl | reflexivity].
  - rewrite run_cons.
    destruct (handle_row B r d q ped Hq Hle) as (p1 & H1 & (Hn & Hs & Hc) & _).
    pose proof (handle_pedidos_seq B r d) as Hseq.
    destruct (IH _ p1 H1 ltac:(lia)) as (p2 & H2 & Hn2 & Hs2 & Hc2).
    exists p2. split; [exact H2|]. split; [congruence|]. split.
    + destruct Hs as [Hs | Hs]; [rewrite <- Hs; exact Hs2 | eapply rtc_l; eassumption].
    + intros k Hk. rewrite Hc2, Hc by exact Hk. reflexivity.
Qed.

Lemma terminal_rtc (s s' : option string) :
  terminal s -> rtc status_step s s' -> s' = s.
Proof.
  intros Ht H. destruct H as [|s1 s2 s3 (novo & _ & Hin) _]; [reflexivity|].
  unfold terminal in Ht. rewrite Ht in Hin. discriminate Hin.
Qed.

(** X5: a status out of which the table leads nowhere (CONCLUIDO, CANCELADO,
    and any value outside the vocabulary) is final: no sequence of
    requests changes it. *)
Theorem terminal_status_final (rs : list request) (d : db) (q : Z) (ped : pedido) :
  pedidos d !! q = Some ped ->
  q <= pedidos_seq d ->
  terminal (status ped) ->
  stored_status (run B rs d).2 q = status ped.
Proof.
  revert d ped. induction rs as [|r rest IH]; intros d ped Hq Hle Ht.
  - cbn. unfold stored_status. rewrite Hq. reflexivity.
  - rewrite run_cons.
    destruct (handle_row B r d q ped Hq Hle) as (p1 & H1 & (Hn & Hs & Hc) & _).
    pose proof (handle_pedidos_seq B r d) as Hseq.
    assert (E : status p1 = status ped).
    { destruct Hs as [Hs | Hs]; [exact Hs|].
      apply (terminal_rtc _ _ Ht). apply rtc_once. exact Hs. }
    rewrite <- E. apply IH; [exact H1 | lia | rewrite E; exact Ht].
Qed.

End History.

(** ** Items of other orders, and items after the draft *)

Section Items.

Variable B : builtins.

Lemma recalc_pedido_itens_seq (d : db) (pid : Z) :
  pedido_itens_seq (_recalc_pedido_totais B d pid).2 = pedido_itens_seq d.
Proof. unfold _recalc_pedido_totais. destruct (pedidos d !! pid); reflexivity. Qed.

Lemma recalc_total_logged_itens_seq (pid : Z) (d : db) :
  pedido_itens_seq (recalc_total_logged B pid d) = pedido_itens_seq d.
Proof.
  unfold recalc_total_logged. pose proof (recalc_pedido_itens_seq d pid) as H.
  destruct (_recalc_pedido_totais B d pid) as [nt d1]. cbn [snd] in H.
  destruct (negb (is_none nt) && py_ne nt _); exact H.
Qed.

(** The item table and its counter after one request. *)
Lemma handle_itens (r : request) (d : db) :
  (pedido_itens (handle B r d).2 = pedido_itens d
   /\ pedido_itens_seq (handle B r d).2 = pedido_itens_seq d)
  \/ (exists pid data cols,
        r = ItensAdd pid data
        /\ pedido_itens (handle B r d).2
           = (pedido_itens d ++ [Item (pedido_itens_seq d + 1) pid cols])%list
        /\ pedido_itens_seq (handle B r d).2 = pedido_itens_seq d + 1)
  \/ (exists pid iid it,
        r = ItemDelete pid iid
        /\ find_item_of d iid pid = Some it
        /\ pedido_itens (handle B r d).2
           = List.filter (λ it, negb (item_id it =? iid)) (pedido_itens d)
        /\ pedido_itens_seq (handle B r d).2 = pedido_itens_seq d)
  \/ (exists pid iid data ped it,
        r = ItemUpdate pid iid data
        /\ pedidos d !! pid = Some ped
        /\ find_item_of d iid pid = Some it
        /\ pedido_itens (handle B r d).2
           = map (λ x, if item_id x =? iid
                       then apply_updates
                              (filtrar (allowed_for (upper (default "" (status ped)))) data).1 x
                       else x) (pedido_itens d)
        /\ pedido_itens_seq (handle B r d).2 = pedido_itens_seq d).
Proof.
  destruct r as [hoje data|pid data|pid data|pid iid|pid iid data|pid data|pid data];
    cbn [handle].
  - left. unfold api_pedidos_create, gerar_codigo_pedido.
    repeat case_goal; split; reflexivity.
  - left. unfold api_pedidos_update.
    repeat case_goal; cbn [snd]; try (split; reflexivity);
      repeat match goal with
             | H : _recalc_pedido_totais B ?dd _ = (_, ?d3) |- _ =>
                 let E := fresh in let F := fresh in
                 pose proof (recalc_pedido_itens B dd pid) as E;
                 pose proof (recalc_pedido_itens_seq dd pid) as F;
                 rewrite H in E, F; cbn [snd] in E, F; clear H
             end;
      try match goal with
          | H : context [match changed_fields ?a ?b ?c ?e with _ => _ end] |- _ =>
              destruct (changed_fields a b c e)
          end;
      cbn [pedido_itens pedido_itens_seq insert_log set_pedido_logs set_pedidos] in *;
      repeat case_goal; cbn; split; congruence.
  - unfold api_pedido_itens_add.
    repeat case_goal; cbn [snd]; try (left; split; reflexivity).
    right. left. eexists pid, data, _. split; [reflexivity|].
    rewrite recalc_total_logged_itens, recalc_total_logged_itens_seq.
    split; reflexivity.
  - unfold api_pedido_item_delete.
    repeat case_goal; cbn [snd]; try (left; split; reflexivity).
    right. right. left. eexists pid, iid, _. split; [reflexivity|].
    split; [eassumption|].
    rewrite recalc_total_logged_itens, recalc_total_logged_itens_seq.
    split; reflexivity.
  - unfold api_pedido_item_update.
    destruct (pedidos d !! pid) as [ped|] eqn:Hp; [|left; split; reflexivity].
    cbv zeta.
    destruct (str_in _ ["CONCLUIDO"; "CANCELADO"]); [left; split; reflexivity|].
    destruct (find_item_of d iid pid) as [it|] eqn:Hit; [|left; split; reflexivity].
    destruct (filtrar _ data) as [updates blocked] eqn:Hf.
    destruct updates as [|u us]; [left; split; reflexivity|].
    destruct (item_diffs (u :: us) it);
      (match goal with |- context [recalc_total_logged B pid ?dd] => set (d2 := dd) end;
       pose proof (recalc_total_logged_itens B pid d2) as Hi;
       pose proof (recalc_total_logged_itens_seq pid d2) as Hs;
       destruct (find_item (recalc_total_logged B pid d2) iid);
       [|left; split; reflexivity];
       right; right; right; exists pid, iid, data, ped, it;
       split; [reflexivity|]; split; [exact Hp|]; split; [exact Hit|];
       cbn [snd fst]; rewrite Hi, Hs; subst d2; rewrite Hf; split; reflexivity).
  - left. unfold api_pedido_change_status.
    repeat case_goal; cbn [snd]; try (split; reflexivity).
    rewrite recalc_pedido_itens, recalc_pedido_itens_seq. split; reflexivity.
  - left. unfold api_op_create. repeat case_goal; split; reflexivity.
Qed.

Lemma NoDup_map_inj {A} (f : A -> Z) (l : list A) (x y : A) :
  NoDup (map f l) -> In x l -> In y l -> f x = f y -> x = y.
Proof.
  induction l as [|a l IH]; intros Hnd Hx Hy Hf; [destruct Hx|].
  cbn [map] in Hnd. apply NoDup_cons in Hnd as [Hna Hnd].
  destruct Hx as [<- | Hx], Hy as [<- | Hy].
  - reflexivity.
  - exfalso. apply Hna. rewrite Hf. apply list_elem_of_In, in_map. exact Hy.
  - exfalso. apply Hna. rewrite <- Hf. apply list_elem_of_In, in_map. exact Hx.
  - exact (IH Hnd Hx Hy Hf).
Qed.

(** With ids that are unique, the rows that a statement [WHERE id=?]
    touches belong to the order under which the item was found. *)
Lemma find_item_of_owner (d : db) (iid pid : Z) (it x : item) :
  NoDup (map item_id (pedido_itens d)) ->
  find_item_of d iid pid = Some it ->
  In x (pedido_itens d) -> item_id x = iid -> item_pedido_id x = pid.
Proof.
  intros Hnd Hf Hx Hid. unfold find_item_of in Hf.
  apply find_some in Hf as [Hin Hc]. apply andb_true_iff in Hc as [Hi Hp].
  apply Z.eqb_eq in Hi, Hp.
  rewrite (NoDup_map_inj item_id _ x it Hnd Hx Hin) by congruence. exact Hp.
Qed.

Lemma filter_owner_delete (l : list item) (iid q : Z) :
  (forall x, In x l -> item_id x = iid -> item_pedido_id x <> q) ->
  filter (λ it, item_pedido_id it = q) (List.filter (λ it, negb (item_id it =? iid)) l)
  = filter (λ it, item_pedido_id it = q) l.
Proof.
  induction l as [|a l IH]; intros H; [reflexivity|].
  cbn [List.filter].
  assert (IH' := IH (λ x Hx, H x (or_intror Hx))).
  destruct (item_id a =? iid) eqn:E; cbn [negb].
  - apply Z.eqb_eq in E. rewrite IH'.
    rewrite (filter_cons_False _ a) by exact (H a (or_introl eq_refl) E). reflexivity.
  - rewrite !filter_cons, IH'. reflexivity.
Qed.

Lemma filter_owner_update (l : list item) (iid q : Z) (f : item -> item) :
  (forall x, In x l -> item_id x = iid -> item_pedido_id x <> q) ->
  (forall x, item_pedido_id (f x) = item_pedido_id x) ->
  filter (λ it, item_pedido_id it = q) (map (λ x, if item_id x =? iid then f x else x) l)
  = filter (λ it, item_pedido_id it = q) l.
Proof.
  intros H Hf. induction l as [|a l IH]; [reflexivity|].
  cbn [map]. assert (IH' := IH (λ x Hx, H x (or_intror Hx))).
  destruct (item_id a =? iid) eqn:E.
  - apply Z.eqb_eq in E. pose proof (H a (or_introl eq_refl) E) as Hn.
    rewrite filter_cons_False by (rewrite Hf; exact Hn).
    rewrite (filter_cons_False _ a) by exact Hn. exact IH'.
  - rewrite !filter_cons, IH'. reflexivity.
Qed.

(** With unique item ids, a request leaves the items of every order but
    the one it addresses as they are. *)
Lemma handle_itens_other (r : request) (d : db) (q : Z) :
  NoDup (map item_id (pedido_itens d)) ->
  q <> alvo r d ->
  itens_do_pedido (handle B r d).2 q = itens_do_pedido d q.
Proof.
  intros Hnd Hne. unfold itens_do_pedido.
  destruct (handle_itens r d)
    as [[-> _] | [(pid & data & cols & -> & -> & _)
       | [(pid & iid & it & -> & Hf & -> & _)
       | (pid & iid & data & ped & it & -> & Hp & Hf & -> & _)]]].
  - reflexivity.
  - cbn [alvo] in Hne. rewrite filter_app, filter_cons_False, filter_nil, app_nil_r;
      [reflexivity | cbn; congruence].
  - cbn [alvo] in Hne. apply filter_owner_delete. intros x Hx Hid.
    rewrite (find_item_of_owner d iid pid it x Hnd Hf Hx Hid). congruence.
  - cbn [alvo] in Hne. apply filter_owner_update; [|reflexivity]. intros x Hx Hid.
    rewrite (find_item_of_owner d iid pid it x Hnd Hf Hx Hid). congruence.
Qed.

Lemma NoDup_map_filter (l : list item) (P : item -> bool) :
  NoDup (map item_id l) -> NoDup (map item_id (List.filter P l)).
Proof.
  induction l as [|a l IH]; intros H; [constructor|].
  cbn [map] in H. apply NoDup_cons in H as [Hn H]. cbn [List.filter].
  destruct (P a); [|exact (IH H)].
  cbn [map]. apply NoDup_cons. split; [|exact (IH H)].
  intros Hin. apply Hn. apply list_elem_of_In in Hin. apply list_elem_of_In.
  apply in_map_iff in Hin as (x & Hx & Hin). apply in_map_iff. exists x.
  split; [exact Hx|]. apply filter_In in Hin. tauto.
Qed.

(** Unique ids below the counter: what AUTOINCREMENT and the primary key
    give, kept by every request. *)
Lemma handle_itens_ok (r : request) (d : db) :
  itens_ok d -> itens_ok (handle B r d).2.
Proof.
  intros [Hnd Hle]. unfold itens_ok.
  destruct (handle_itens r d)
    as [[-> ->] | [(pid & data & cols & -> & -> & ->)
       | [(pid & iid & it & -> & Hf & -> & ->)
       | (pid & iid & data & ped & it & -> & Hp & Hf & -> & ->)]]].
  - split; assumption.
  - split.
    + rewrite map_app. cbn [map item_id]. apply NoDup_app. split; [exact Hnd|].
      split; [|apply NoDup_singleton].
      intros x Hx Hx'. apply list_elem_of_singleton in Hx'. subst x.
      apply list_elem_of_In, in_map_iff in Hx as (y & Hy & Hin).
      rewrite Forall_forall in Hle. apply list_elem_of_In, Hle in Hin. lia.
    + apply Forall_app. split.
      * eapply Forall_impl; [exact Hle|]. intros x Hx. cbn beta in *. lia.
      * constructor; [cbn; lia | constructor].
  - split; [apply NoDup_map_filter; exact Hnd|].
    apply Forall_forall. intros x Hx. apply list_elem_of_In, filter_In in Hx as [Hx _].
    rewrite Forall_forall in Hle. apply Hle, list_elem_of_In. exact Hx.
  - split.
    + rewrite map_map. erewrite map_ext; [exact Hnd|].
      intros a. cbn beta. destruct (item_id a =? iid); reflexivity.
    + apply Forall_forall. intros x Hx.
      apply list_elem_of_In, in_map_iff in Hx as (y & <- & Hy).
      rewrite Forall_forall in Hle. apply list_elem_of_In, Hle in Hy.
      destruct (item_id y =? iid); exact Hy.
Qed.

Lemma status_step_not_draft (s s' : option string) :
  status_step s s' -> upper (default "" s') <> "RASCUNHO".
Proof.
  intros (novo & -> & Hin). cbn [default]. unfold transicoes_validas in Hin.
  repeat match type of Hin with
         | context [if ?c then _ else _] => destruct c
         end;
    cbn [str_in existsb] in Hin;
    repeat match type of Hin with
           | (_ || _)%bool = true => apply orb_true_iff in Hin as [Hin | Hin]
           | (_ =? _)%string = true => apply String.eqb_eq in Hin; subst novo
           end;
    try discriminate.
Qed.

Lemma same_on_trans (P : string -> Prop) (a b c : item) :
  same_on P a b -> same_on P b c -> same_on P a c.
Proof.
  intros (H1 & H2 & H3) (K1 & K2 & K3). split; [congruence|]. split; [congruence|].
  intros k Hk. rewrite K3, H3 by exact Hk. reflexivity.
Qed.

Lemma filter_map_same_on (l : list item) (iid q : Z) (updates : dict) :
  Forall (λ kv : string * value, ~ frozen_col kv.1) updates ->
  Forall2 (same_on frozen_col)
    (filter (λ it, item_pedido_id it = q) l)
    (filter (λ it, item_pedido_id it = q)
       (map (λ x, if item_id x =? iid then apply_updates updates x else x) l)).
Proof.
  intros Hu. induction l as [|a l IH]; [constructor|].
  cbn [map]. rewrite !filter_cons.
  assert (E : item_pedido_id (if item_id a =? iid then apply_updates updates a else a)
              = item_pedido_id a) by (destruct (item_id a =? iid); reflexivity).
  rewrite E. destruct (decide (item_pedido_id a = q)); [|exact IH].
  constructor; [|exact IH].
  destruct (item_id a =? iid); [|repeat split].
  repeat split. intros k Hk. apply apply_updates_other.
  eapply Forall_impl; [exact Hu|]. intros kv Hn Heq. apply Hn. rewrite Heq. exact Hk.
Qed.

(** One request and the items of an order that is no longer a draft. *)
Lemma handle_itens_frozen (r : request) (d : db) (q : Z) (ped : pedido) :
  NoDup (map item_id (pedido_itens d)) ->
  pedidos d !! q = Some ped ->
  upper (default "" (status ped)) <> "RASCUNHO" ->
  Forall2 (same_on frozen_col) (itens_do_pedido d q) (itens_do_pedido (handle B r d).2 q).
Proof.
  intros Hnd Hq Hst.
  destruct (Z.eq_dec q (alvo r d)) as [Heq | Hne];
    [|rewrite (handle_itens_other r d q Hnd Hne); apply same_on_refl].
  apply String.eqb_neq in Hst.
  destruct r as [hoje data|pid data|pid data|pid iid|pid iid data|pid data|pid data];
    cbn [alvo] in Heq; try subst pid.
  - destruct (handle_itens (PedidosCreate hoje data) d)
      as [[E _] | [(? & ? & ? & ? & _) | [(? & ? & ? & ? & _) | (? & ? & ? & ? & ? & ? & _)]]];
      try discriminate.
    unfold itens_do_pedido. rewrite E. apply same_on_refl.
  - destruct (handle_itens (PedidosUpdate q data) d)
      as [[E _] | [(? & ? & ? & ? & _) | [(? & ? & ? & ? & _) | (? & ? & ? & ? & ? & ? & _)]]];
      try discriminate.
    unfold itens_do_pedido. rewrite E. apply same_on_refl.
  - cbn [handle]. unfold api_pedido_itens_add. rewrite Hq, Hst. apply same_on_refl.
  - cbn [handle]. unfold api_pedido_item_delete. rewrite Hq, Hst. apply same_on_refl.
  - cbn [handle]. unfold itens_do_pedido.
    destruct (item_update_itens B q iid data d) as [-> | (ped' & Hp & ->)];
      [apply same_on_refl|].
    rewrite Hq in Hp. injection Hp as <-.
    apply filter_map_same_on. unfold allowed_for. rewrite Hst.
    eapply Forall_impl; [apply filtrar_updates|].
    intros kv [_ Hin] Hf. unfold frozen_col in Hf. congruence.
  - destruct (handle_itens (ChangeStatus q data) d)
      as [[E _] | [(? & ? & ? & ? & _) | [(? & ? & ? & ? & _) | (? & ? & ? & ? & ? & ? & _)]]];
      try discriminate.
    unfold itens_do_pedido. rewrite E. apply same_on_refl.
  - destruct (handle_itens (OpCreate q data) d)
      as [[E _] | [(? & ? & ? & ? & _) | [(? & ? & ? & ? & _) | (? & ? & ? & ? & ? & ? & _)]]];
      try discriminate.
    unfold itens_do_pedido. rewrite E. apply same_on_refl.
Qed.

Lemma run_itens_ok (rs : list request) (d : db) :
  itens_ok d -> itens_ok (run B rs d).2.
Proof.
  revert d. induction rs as [|r rest IH]; intros d H; [exact H|].
  rewrite run_cons. apply IH, handle_itens_ok, H.
Qed.

(** X3: requests addressed to other orders, and creations, never touch an
    order: after any run of them the row of the order and its items are
    what they were.  Item ids are taken to be unique, as the primary key
    makes them. *)
Theorem other_orders_untouched (rs : list request) (d : db) (q : Z) :
  itens_ok d ->
  q <= pedidos_seq d ->
  Forall (λ r, dirigido r q = false) rs ->
  pedidos (run B rs d).2 !! q = pedidos d !! q
  /\ itens_do_pedido (run B rs d).2 q = itens_do_pedido d q.
Proof.
  revert d. induction rs as [|r rest IH]; intros d Hok Hle Hrs; [split; reflexivity|].
  rewrite run_cons. inversion Hrs as [|? ? Hr Hrest]; subst.
  assert (Hne : q <> alvo r d).
  { destruct r; cbn [dirigido alvo] in *; try (apply Z.eqb_neq in Hr; congruence). lia. }
  pose proof (handle_pedidos_seq B r d) as Hseq.
  destruct (IH _ (handle_itens_ok r d Hok) ltac:(lia) Hrest) as [H1 H2].
  rewrite H1, H2. split.
  - apply handle_pedidos_other. exact Hne.
  - apply handle_itens_other; [exact (proj1 Hok) | exact Hne].
Qed.

(** X6: once an order has left RASCUNHO its line items are frozen for good:
    whatever requests follow, the order keeps exactly the items it had, in
    the same order, and each keeps every column but [status_impressao] and
    [anel_extrusao]. *)
Theorem items_frozen_after_draft (rs : list request) (d : db) (q : Z) (ped : pedido) :
  itens_ok d ->
  pedidos d !! q = Some ped ->
  q <= pedidos_seq d ->
  upper (default "" (status ped)) <> "RASCUNHO" ->
  Forall2 (same_on frozen_col) (itens_do_pedido d q) (itens_do_pedido (run B rs d).2 q).
Proof.
  revert d ped. induction rs as [|r rest IH]; intros d ped Hok Hq Hle Hst.
  - apply same_on_refl.
  - rewrite run_cons.
    destruct (handle_row B r d q ped Hq Hle) as (p1 & H1 & (_ & Hs & _) & _).
    pose proof (handle_pedidos_seq B r d) as Hseq.
    assert (Hst1 : upper (default "" (status p1)) <> "RASCUNHO").
    { destruct Hs as [-> | Hs]; [exact Hst | exact (status_step_not_draft _ _ Hs)]. }
    eapply Forall2_trans; [apply same_on_trans| |].
    + apply (handle_itens_frozen r d q ped (proj1 Hok) Hq Hst).
    + apply (IH _ p1 (handle_itens_ok r d Hok) H1); [lia | exact Hst1].
Qed.

End Items.

(** ** Accepted transitions *)

Section Status.

Variable B : builtins.

(** X7: every transition of the table is accepted: on an existing order whose
    status is [cur], a request for [req] with [cur -> req] in the table
    answers 200 with the stored row, persists the new status, appends
    exactly one entry STATUS_CHANGED that carries both statuses, and leaves
    items and production orders alone. *)
Theorem change_status_success (d : db) (pid : Z) (ped : pedido)
    (cur req : estado) (raw : string) (data : dict) :
  pedidos d !! pid = Some ped ->
  status ped = Some (nome cur) ->
  dict_get "status" data = VStr raw ->
  upper raw = nome req ->
  transition_allowed cur req = true ->
  let r := api_pedido_change_status B pid data d in
  (exists row, r.1 = (BPedido pid row, 200)
               /\ pedidos r.2 !! pid = Some row
               /\ status row = Some (nome req))
  /\ pedido_logs r.2
     = (pedido_logs d
        ++ [Log pid "STATUS_CHANGED"
              [("de", JVal (VStr (nome cur))); ("para", JVal (VStr (nome req)))]])%list
  /\ pedido_itens r.2 = pedido_itens d
  /\ ordens_producao r.2 = ordens_producao d.
Proof.
  intros Hped Hst Hget Hup Hyes r. subst r.
  unfold api_pedido_change_status.
  rewrite Hget, py_or_str, Hup, nome_permitido, Hped, Hst. simpl default.
  rewrite upper_nome, transicoes_validas_table, Hyes. cbn [negb].
  match goal with
  | |- context [_recalc_pedido_totais B ?dd pid] => set (d2 := dd)
  end.
  assert (Hp2 : pedidos d2 !! pid = Some (set_status (nome req) ped)).
  { subst d2. cbn. apply lookup_insert_eq. }
  pose proof (recalc_lookup B d2 pid _ Hp2) as Hl.
  cbn [fst snd]. rewrite Hl. cbn [default].
  split; [eexists; split; [reflexivity|]; split; reflexivity|].
  rewrite recalc_pedido_logs, recalc_pedido_itens.
  split; [reflexivity|]. split; [reflexivity|].
  unfold _recalc_pedido_totais. rewrite Hp2. reflexivity.
Qed.

End Status.

(** ** Recomputing twice *)

Section Recompute.

Variable B : builtins.

Lemma float_eqb_refl (f : float) : f <> nan -> (f =? f)%float = true.
Proof.
  intros Hn. rewrite FloatAxioms.eqb_spec. unfold SFeqb.
  destruct (Prim2SF f) as [s| s| |s m e] eqn:E.
  - destruct s; reflexivity.
  - destruct s; reflexivity.
  - exfalso. apply Hn. rewrite <- (FloatAxioms.SF2Prim_Prim2SF f), E. reflexivity.
  - cbn. destruct s; rewrite Z.compare_refl, Pos.compare_cont_refl; reflexivity.
Qed.

Lemma py_eq_refl (v : value) : v <> VFloat nan -> py_eq v v = true.
Proof.
  destruct v as [|n|f|s]; intros H; cbn.
  - reflexivity.
  - apply Z.eqb_refl.
  - apply float_eqb_refl. congruence.
  - apply String.eqb_refl.
Qed.

Lemma sqlite_bind_id (v : value) : v <> VFloat nan -> sqlite_bind v = v.
Proof.
  destruct v as [|n|f|s]; try reflexivity. intros H. cbn [sqlite_bind].
  unfold PrimFloat.is_nan. rewrite float_eqb_refl by congruence. reflexivity.
Qed.

Lemma set_col_twice (k : string) (v : value) (p : pedido) :
  set_col k v (set_col k v p) = set_col k v p.
Proof. unfold set_col. cbn. rewrite insert_insert_eq. reflexivity. Qed.

(** X8: recomputing the total of an order twice is recomputing it once: the
    second pass stores the same total and appends no audit entry.  The
    one exception is a total that is NaN, which differs from itself. *)
Theorem recalc_idempotent (d : db) (pid : Z) :
  rule_total B d pid <> Some (VFloat nan) ->
  recalc_total_logged B pid (recalc_total_logged B pid d) = recalc_total_logged B pid d.
Proof.
  intros Hn. unfold rule_total in Hn.
  destruct (pedidos d !! pid) as [ped|] eqn:Hp.
  - cbn in Hn. set (nt := new_total B ped (itens_do_pedido d pid)) in *.
    set (d1 := recalc_total_logged B pid d).
    assert (Hb : sqlite_bind nt = nt) by (apply sqlite_bind_id; congruence).
    assert (Hp1 : pedidos d1 !! pid = Some (set_col "preco_total" nt ped)).
    { rewrite <- Hb at 1. apply (recalc_total_logged_lookup B pid d ped Hp). }
    assert (Hi1 : itens_do_pedido d1 pid = itens_do_pedido d pid)
      by apply itens_do_pedido_ext, recalc_total_logged_itens.
    unfold recalc_total_logged at 1. rewrite Hp1.
    unfold _recalc_pedido_totais. rewrite Hp1, Hi1, new_total_set_total.
    fold nt. rewrite Hb, col_set_col. unfold py_ne.
    rewrite py_eq_refl by congruence. rewrite andb_false_r.
    rewrite set_col_twice.
    rewrite <- (insert_id (pedidos d1) pid _ Hp1) at 1.
    rewrite insert_insert_eq, (insert_id _ _ _ Hp1).
    destruct d1; reflexivity.
  - unfold recalc_total_logged, _recalc_pedido_totais. rewrite Hp. cbn. rewrite Hp.
    reflexivity.
Qed.

End Recompute.

(** ** Deleting an item *)

Section ItemOps.

Variable B : builtins.

Lemma find_filter_none (l : list item) (iid : Z) (P : item -> bool) :
  (forall x, P x = true -> item_id x = iid) ->
  List.find P (List.filter (λ it, negb (item_id it =? iid)) l) = None.
Proof.
  intros HP. induction l as [|a l IH]; [reflexivity|].
  cbn [List.filter]. destruct (item_id a =? iid) eqn:E; cbn [negb]; [exact IH|].
  cbn [List.find]. destruct (P a) eqn:Pa; [|exact IH].
  apply HP in Pa. apply Z.eqb_neq in E. contradiction.
Qed.

(** X9: a delete that succeeds removes exactly the rows of that id, keeps the
    others in their order, and cannot be repeated: the same request on
    the resulting database is answered 404, item not found. *)
Theorem item_delete_once (pid iid : Z) (d : db) :
  succeeded (api_pedido_item_delete B pid iid d).1 = true ->
  let d' := (api_pedido_item_delete B pid iid d).2 in
  pedido_itens d' = List.filter (λ it, negb (item_id it =? iid)) (pedido_itens d)
  /\ find_item d' iid = None
  /\ api_pedido_item_delete B pid iid d' = (not_found "item não encontrado", d').
Proof.
  intros Hs d'. subst d'. unfold api_pedido_item_delete in *.
  destruct (pedidos d !! pid) as [ped|] eqn:Hp; [|discriminate Hs].
  destruct (negb _) eqn:Hst; [discriminate Hs|].
  destruct (find_item_of d iid pid) as [it|]; [|discriminate Hs].
  cbv zeta. cbn [snd].
  match goal with
  | |- context [recalc_total_logged B pid ?dd] => set (d2 := dd)
  end.
  assert (Hi : pedido_itens (recalc_total_logged B pid d2)
               = List.filter (λ it, negb (item_id it =? iid)) (pedido_itens d))
    by (rewrite recalc_total_logged_itens; reflexivity).
  assert (Hp2 : pedidos d2 !! pid = Some ped) by exact Hp.
  split; [exact Hi|]. split.
  - unfold find_item. rewrite Hi. apply find_filter_none.
    intros x Hx. apply Z.eqb_eq. exact Hx.
  - rewrite (recalc_total_logged_lookup B pid d2 ped Hp2).
    cbn [status set_col]. rewrite Hst.
    unfold find_item_of. rewrite Hi, find_filter_none; [reflexivity|].
    intros x Hx. apply andb_true_iff in Hx as [Hx _]. apply Z.eqb_eq. exact Hx.
Qed.

End ItemOps.

(** ** The audit log *)

Section Audit.

Variable B : builtins.

Lemma grows_refl (pid : Z) (l : list log) : grows pid l l.
Proof. exists []. rewrite app_nil_r. split; [reflexivity | constructor]. Qed.

Lemma grows_snoc (pid : Z) (l l' : list log) (a : string) (det : list (string * json)) :
  grows pid l l' -> str_in a acoes_conhecidas = true ->
  grows pid l (l' ++ [Log pid a det]).
Proof.
  intros (extra & -> & Hf) Ha. exists (extra ++ [Log pid a det])%list.
  rewrite app_assoc. split; [reflexivity|].
  apply Forall_app. split; [exact Hf|]. constructor; [split; [reflexivity | exact Ha] | constructor].
Qed.

Lemma grows_trans (pid : Z) (l1 l2 l3 : list log) :
  grows pid l1 l2 -> grows pid l2 l3 -> grows pid l1 l3.
Proof.
  intros (e1 & -> & H1) (e2 & -> & H2). exists (e1 ++ e2)%list.
  rewrite app_assoc. split; [reflexivity|]. apply Forall_app. split; assumption.
Qed.

Lemma recalc_total_logged_grows (pid : Z) (d : db) :
  grows pid (pedido_logs d) (pedido_logs (recalc_total_logged B pid d)).
Proof.
  unfold recalc_total_logged.
  pose proof (recalc_pedido_logs B d pid) as H.
  destruct (_recalc_pedido_totais B d pid) as [nt d1]. cbn [snd] in H.
  destruct (negb (is_none nt) && py_ne nt _).
  - cbn. rewrite H. apply grows_snoc; [apply grows_refl | reflexivity].
  - rewrite H. apply grows_refl.
Qed.

Ltac grows_step :=
  cbn [pedido_logs insert_log set_pedido_logs set_pedidos set_pedido_itens
       set_pedido_itens_seq set_ordens_producao set_pedidos_seq set_numeradores];
  first
    [ apply grows_refl
    | apply grows_snoc; [|reflexivity]
    | eapply grows_trans; [|apply recalc_total_logged_grows]
    | rewrite recalc_pedido_logs ].

(** One request appends entries to the audit log, all of them for the
    order it addresses and with a known tag. *)
Lemma handle_logs_extra (r : request) (d : db) :
  grows (alvo r d) (pedido_logs d) (pedido_logs (handle B r d).2).
Proof.
  destruct r as [hoje data|pid data|pid data|pid iid|pid iid data|pid data|pid data];
    cbn [handle alvo].
  - unfold api_pedidos_create, gerar_codigo_pedido.
    repeat case_goal; cbn [snd]; repeat grows_step.
  - unfold api_pedidos_update.
    repeat case_goal; cbn [snd];
      repeat match goal with
             | H : _recalc_pedido_totais B _ _ = (_, _) |- _ =>
                 apply recalc_logs_eq in H
             end;
      cbn [pedido_logs insert_log set_pedido_logs set_pedidos] in *;
      try match goal with H : pedido_logs _ = _ |- _ => rewrite H end;
      repeat case_goal; repeat grows_step.
  - unfold api_pedido_itens_add. repeat case_goal; cbn [snd]; repeat grows_step.
  - unfold api_pedido_item_delete. repeat case_goal; cbn [snd]; repeat grows_step.
  - unfold api_pedido_item_update. repeat case_goal; cbn [snd]; repeat grows_step.
  - unfold api_pedido_change_status. repeat case_goal; cbn [snd]; repeat grows_step.
  - unfold api_op_create. repeat case_goal; cbn [snd]; repeat grows_step.
Qed.

(** X2: the audit log is append-only: whatever requests of the seven
    handlers are served, the log before the run is a prefix of the log
    after it, and every entry that was appended carries one of their
    eight tags. *)
Theorem audit_log_append_only (rs : list request) (d : db) :
  exists extra,
    pedido_logs (run B rs d).2 = (pedido_logs d ++ extra)%list
    /\ Forall (λ e, str_in (acao e) acoes_conhecidas = true) extra.
Proof.
  revert d. induction rs as [|r rest IH]; intros d.
  - exists []. cbn. rewrite app_nil_r. split; [reflexivity | constructor].
  - rewrite run_cons. destruct (handle_logs_extra r d) as (e1 & H1 & F1).
    destruct (IH (handle B r d).2) as (e2 & H2 & F2).
    exists (e1 ++ e2)%list. rewrite H2, H1, app_assoc. split; [reflexivity|].
    apply Forall_app. split; [|exact F2].
    eapply Forall_impl; [exact F1|]. intros e [_ He]. exact He.
Qed.

Lemma create_effect (hoje : string) (data : dict) (d : db) :
  (api_pedidos_create B hoje data d).2 = d
  \/ exists row det,
       pedidos (api_pedidos_create B hoje data d).2 = <[pedidos_seq d + 1 := row]> (pedidos d)
       /\ pedidos_seq (api_pedidos_create B hoje data d).2 = pedidos_seq d + 1
       /\ pedido_logs (api_pedidos_create B hoje data d).2
          = (pedido_logs d ++ [Log (pedidos_seq d + 1) "CREATED" det])%list.
Proof.
  unfold api_pedidos_create, gerar_codigo_pedido.
  repeat case_goal; cbn [snd]; try (left; reflexivity);
    right; eexists _, _; (split; [reflexivity|]); split; reflexivity.
Qed.

Lemma succeeded_target_exists (r : request) (d : db) :
  (forall hoje data, r <> PedidosCreate hoje data) ->
  succeeded (handle B r d).1 = true ->
  is_Some (pedidos d !! alvo r d).
Proof.
  intros Hnc Hs.
  destruct r as [hoje data|pid data|pid data|pid iid|pid iid data|pid data|pid data];
    [contradiction (Hnc hoje data); reflexivity|..];
    cbn [alvo handle] in *;
    (destruct (pedidos d !! pid) as [ped|] eqn:Hp; [eauto|]; exfalso; revert Hs).
  - unfold api_pedidos_update. rewrite Hp. repeat case_goal; discriminate.
  - unfold api_pedido_itens_add. rewrite Hp. discriminate.
  - unfold api_pedido_item_delete. rewrite Hp. discriminate.
  - unfold api_pedido_item_update. rewrite Hp. discriminate.
  - unfold api_pedido_change_status. rewrite Hp. repeat case_goal; discriminate.
  - unfold api_op_create. rewrite Hp. discriminate.
Qed.

Lemma find_app_some {A} (f : A -> bool) (l k : list A) (x : A) :
  List.find f l = Some x -> List.find f (l ++ k) = Some x.
Proof.
  induction l as [|a l IH]; [discriminate|]. cbn.
  destruct (f a); [trivial | exact IH].
Qed.

Lemma find_app_none {A} (f : A -> bool) (l k : list A) :
  List.find f l = None -> List.find f (l ++ k) = List.find f k.
Proof.
  induction l as [|a l IH]; [reflexivity|]. cbn.
  destruct (f a); [discriminate | exact IH].
Qed.

Lemma primeira_acao_app (d d' : db) (q : Z) (extra : list log) (a : string) :
  pedido_logs d' = (pedido_logs d ++ extra)%list ->
  primeira_acao d q = Some a -> primeira_acao d' q = Some a.
Proof.
  unfold primeira_acao. intros -> H.
  destruct (List.find _ (pedido_logs d)) as [e|] eqn:E; [|discriminate H].
  rewrite (find_app_some _ _ extra e E). exact H.
Qed.

Lemma noncreate_keys (r : request) (d : db) (q : Z) :
  (forall hoje data, r <> PedidosCreate hoje data) ->
  is_Some (pedidos (handle B r d).2 !! q) -> is_Some (pedidos d !! q).
Proof.
  intros Hnc Hq.
  destruct (handle_pedidos B r d)
    as [E | [(p & p' & Hp & _ & E) | (hoje & dt & row & Hr & _)]].
  - rewrite E in Hq. exact Hq.
  - rewrite E in Hq. destruct (Z.eq_dec q (alvo r d)) as [-> | Hne]; [eauto|].
    rewrite lookup_insert_ne in Hq by congruence. exact Hq.
  - contradiction (Hnc hoje dt).
Qed.

(** The invariant is kept by every request. *)
Lemma handle_logs_ok (r : request) (d : db) :
  logs_ok d -> logs_ok (handle B r d).2.
Proof.
  intros [Hord Hlog].
  assert (Hkeep : forall q, is_Some (pedidos d !! q) -> is_Some (pedidos (handle B r d).2 !! q)).
  { intros q [ped Hq]. destruct (Hord q ped Hq) as [Hle _].
    destruct (handle_row B r d q ped Hq Hle) as (p' & Hp' & _). eauto. }
  destruct (handle_logs_extra r d) as (extra & Hextra & Fextra).
  pose proof (handle_pedidos_seq B r d) as Hseq.
  assert (Hcases :
    (forall q, is_Some (pedidos (handle B r d).2 !! q) -> is_Some (pedidos d !! q))
    \/ exists row det,
         pedidos (handle B r d).2 = <[pedidos_seq d + 1 := row]> (pedidos d)
         /\ pedidos_seq (handle B r d).2 = pedidos_seq d + 1
         /\ extra = [Log (pedidos_seq d + 1) "CREATED" det]).
  { destruct r as [hoje data|pid data|pid data|pid iid|pid iid data|pid data|pid data].
    1:{ cbn [handle] in *.
        destruct (create_effect hoje data d) as [E | (row & det & E1 & E2 & E3)].
        - left. rewrite E. trivial.
        - right. exists row, det. split; [exact E1|]. split; [exact E2|].
          rewrite E3 in Hextra. apply app_inv_head in Hextra. congruence. }
    all: left; intros q Hq; eapply noncreate_keys; [|exact Hq]; discriminate. }
  split.
  - intros q ped' Hq'.
    destruct (pedidos d !! q) as [ped|] eqn:Hq.
    + destruct (Hord q ped Hq) as [Hle Hfirst]. split; [lia|].
      exact (primeira_acao_app d _ q extra _ Hextra Hfirst).
    + destruct Hcases as [Hsame | (row & det & E1 & E2 & E3)].
      * destruct (Hsame q (ex_intro _ _ Hq')) as [x Hx]. congruence.
      * rewrite E1 in Hq'.
        destruct (Z.eq_dec q (pedidos_seq d + 1)) as [-> | Hne];
          [|rewrite lookup_insert_ne in Hq' by congruence; congruence].
        split; [lia|]. unfold primeira_acao. rewrite Hextra, E3.
        rewrite find_app_none.
        { cbn. rewrite Z.eqb_refl. reflexivity. }
        destruct (List.find _ (pedido_logs d)) as [e|] eqn:Ef; [exfalso|reflexivity].
        apply find_some in Ef as [Hin He]. apply Z.eqb_eq in He.
        rewrite Forall_forall in Hlog. apply list_elem_of_In, Hlog in Hin.
        destruct Hin as [pe Hpe]. destruct (Hord _ _ Hpe) as [Hle _]. lia.
  - rewrite Hextra. apply Forall_app. split.
    + eapply Forall_impl; [exact Hlog|]. intros e He. apply Hkeep, He.
    + destruct extra as [|e0 extra']; [constructor|].
      assert (Hchanged : (handle B r d).2 <> d).
      { intros E. rewrite E in Hextra. rewrite <- (app_nil_r (pedido_logs d)) in Hextra at 1.
        apply app_inv_head in Hextra. discriminate Hextra. }
      assert (Hs : succeeded (handle B r d).1 = true).
      { destruct (succeeded (handle B r d).1) eqn:Hs; [reflexivity|].
        contradiction Hchanged. apply handle_refused. exact Hs. }
      assert (Ht : is_Some (pedidos (handle B r d).2 !! alvo r d)).
      { destruct Hcases as [_ | (row & det & E1 & _ & E3)].
        - destruct r as [hoje data|pid data|pid data|pid iid|pid iid data|pid data|pid data].
          1:{ cbn [handle] in *.
              destruct (create_effect hoje data d) as [E | (row & det & E1 & _)];
                [contradiction|].
              rewrite E1. cbn [alvo]. rewrite lookup_insert_eq. eauto. }
          all: apply Hkeep; apply succeeded_target_exists; [discriminate | exact Hs].
        - rewrite E1. injection E3 as -> _.
          destruct r; cbn [alvo]; try (rewrite lookup_insert_eq; eauto).
          all: pose proof Fextra as F; apply Forall_inv in F as [F _]; cbn in F;
            cbn [alvo] in F; subst; rewrite lookup_insert_eq; eauto. }
      eapply Forall_impl; [exact Fextra|]. intros e [-> _]. exact Ht.
Qed.

Lemma run_logs_ok (rs : list request) (d : db) :
  logs_ok d -> logs_ok (run B rs d).2.
Proof.
  revert d. induction rs as [|r rest IH]; intros d H; [exact H|].
  rewrite run_cons. apply IH, handle_logs_ok, H.
Qed.

Lemma fresh_logs_ok (d : db) : pedidos d = ∅ -> pedido_logs d = [] -> logs_ok d.
Proof.
  intros Hp Hl. split.
  - intros q ped Hq. rewrite Hp, lookup_empty in Hq. discriminate Hq.
  - rewrite Hl. constructor.
Qed.

Lemma find_head_filter {A} (f : A -> bool) (l : list A) :
  List.find f l = head (List.filter f l).
Proof.
  induction l as [|a l IH]; [reflexivity|]. cbn [List.find List.filter].
  destruct (f a); [reflexivity | exact IH].
Qed.

(** X11: starting from a database without orders and without audit
    entries, after any requests [api_pedido_logs] answers for every stored order
    with a list that begins with the CREATED entry of that order. *)
Theorem created_is_first_entry (rs : list request) (d : db) (q : Z) (ped : pedido) :
  pedidos d = ∅ -> pedido_logs d = [] ->
  pedidos (run B rs d).2 !! q = Some ped ->
  exists e rest,
    api_pedido_logs q (run B rs d).2 = Some (e :: rest)
    /\ acao e = "CREATED" /\ log_pedido_id e = q.
Proof.
  intros Hp Hl Hq.
  destruct (run_logs_ok rs d (fresh_logs_ok d Hp Hl)) as [H _].
  destruct (H q ped Hq) as [_ Hfirst].
  unfold api_pedido_logs. rewrite Hq. unfold primeira_acao in Hfirst.
  rewrite find_head_filter in Hfirst.
  destruct (List.filter _ (pedido_logs (run B rs d).2)) as [|e rest] eqn:E;
    [discriminate Hfirst|].
  exists e, rest. split; [reflexivity|]. split; [cbn in Hfirst; congruence|].
  assert (Hin : In e (List.filter (λ e, log_pedido_id e =? q) (pedido_logs (run B rs d).2)))
    by (rewrite E; left; reflexivity).
  apply filter_In in Hin as [_ Hin]. apply Z.eqb_eq. exact Hin.
Qed.

(** X12: starting from a database without orders and without audit
    entries, after any requests every audit entry refers to an order that is
    stored. *)
Theorem audit_entries_have_orders (rs : list request) (d : db) :
  pedidos d = ∅ -> pedido_logs d = [] ->
  Forall (λ e, is_Some (pedidos (run B rs d).2 !! log_pedido_id e))
         (pedido_logs (run B rs d).2).
Proof.
  intros Hp Hl. exact (proj2 (run_logs_ok rs d (fresh_logs_ok d Hp Hl))).
Qed.

End Audit.

(** ** What the responses show *)

Section Responses.

Variable B : builtins.

(** X13: what a successful request answers is what it stored: the order, the
    item or the production order of the response is the row that the
    database holds after the request.  The header patch is the exception
    (see [header_patch_response]). *)
Theorem response_shows_stored (r : request) (d : db) :
  (forall pid data, r <> PedidosUpdate pid data) ->
  succeeded (handle B r d).1 = true ->
  shows_stored (handle B r d).1 (handle B r d).2.
Proof.
  intros Hnp Hs.
  destruct r as [hoje data|pid data|pid data|pid iid|pid iid data|pid data|pid data];
    [|contradiction (Hnp pid data); reflexivity|..]; cbn [handle] in *.
  - unfold api_pedidos_create, gerar_codigo_pedido in *.
    destruct (negb (truthy _)); [discriminate Hs|].
    destruct (py_strip _); [|discriminate Hs].
    cbv zeta. unfold shows_stored. cbn. apply lookup_insert_eq.
  - unfold api_pedido_itens_add in *.
    destruct (pedidos d !! pid) as [ped|] eqn:Hp; [|discriminate Hs].
    destruct (negb _); [discriminate Hs|].
    destruct (find_embalagem _ _ _ _) as [emb|]; [|discriminate Hs].
    destruct (snapshot_tratamento _) as [t|]; [|discriminate Hs].
    cbv zeta. unfold shows_stored. cbn [fst snd].
    rewrite recalc_total_logged_itens. cbn. apply in_or_app. right. left. reflexivity.
  - unfold api_pedido_item_delete in *.
    repeat case_goal; try discriminate Hs; exact I.
  - unfold api_pedido_item_update in *.
    destruct (pedidos d !! pid) as [ped|] eqn:Hp; [|discriminate Hs].
    cbv zeta in *. destruct (str_in _ ["CONCLUIDO"; "CANCELADO"]); [discriminate Hs|].
    destruct (find_item_of d iid pid) as [it|]; [|discriminate Hs].
    destruct (filtrar _ data) as [updates blocked].
    destruct updates as [|u us]; [discriminate Hs|].
    match goal with
    | |- context [recalc_total_logged B pid ?dd] => set (d2 := dd) in *
    end.
    destruct (find_item (recalc_total_logged B pid d2) iid) as [row|] eqn:Hf;
      [|discriminate Hs].
    unfold shows_stored. cbn [fst snd]. unfold find_item in Hf.
    apply find_some in Hf as [Hin _]. exact Hin.
  - unfold api_pedido_change_status in *.
    destruct (py_upper _) as [novo|]; [|discriminate Hs].
    destruct (negb (str_in novo status_permitidos)); [discriminate Hs|].
    destruct (pedidos d !! pid) as [ped|] eqn:Hp; [|discriminate Hs].
    cbv zeta in *. destruct (negb (str_in novo _)); [discriminate Hs|].
    unfold shows_stored. cbn [fst snd].
    match goal with
    | |- context [_recalc_pedido_totais B ?dd pid] => set (d2 := dd) in *
    end.
    assert (Hp2 : pedidos d2 !! pid = Some (set_status novo ped)).
    { subst d2. cbn. apply lookup_insert_eq. }
    rewrite (recalc_lookup B d2 pid _ Hp2). reflexivity.
  - unfold api_op_create in *.
    destruct (pedidos d !! pid) as [ped|] eqn:Hp; [|discriminate Hs].
    cbv zeta in *.
    destruct (negb (str_in _ ["APROVADO"; "EM_EXECUCAO"])); [discriminate Hs|].
    destruct (py_strip _); [|discriminate Hs].
    unfold shows_stored. cbn [fst snd].
    match goal with
    | |- context [if ?c then _ else _] => destruct c
    end; cbn; apply in_or_app; right; left; reflexivity.
Qed.

(** X14: the header patch answers with the row as it was after its UPDATE: the
    stored row is the one shown, or differs from it in [preco_total] only,
    which happens when the recomputation that follows writes a total and
    finds nothing to log. *)
Theorem header_patch_response (pid : Z) (data : dict) (d : db) :
  succeeded (api_pedidos_update B pid data d).1 = true ->
  exists shown stored,
    (api_pedidos_update B pid data d).1 = (BPedido pid shown, 200)
    /\ pedidos (api_pedidos_update B pid data d).2 !! pid = Some stored
    /\ (stored = shown \/ exists v, stored = set_col "preco_total" v shown).
Proof.
  intros Hs. unfold api_pedidos_update in *.
  destruct (clean_fields data) as [|c cs] eqn:Ec; [discriminate Hs|].
  destruct (pedidos d !! pid) as [ped|] eqn:Hp; [|discriminate Hs].
  destruct (negb (bool_decide _)); [discriminate Hs|]. cbv zeta in *.
  set (clean := derive_total (length (itens_do_pedido d pid)) (c :: cs)) in *.
  set (row_new := patch_row B ped clean) in *.
  match goal with
  | |- context [if ?c then _ else _] => destruct c
  end.
  - match goal with
    | |- context [_recalc_pedido_totais B ?dd pid] => set (d2 := dd) in *
    end.
    assert (Hp2 : pedidos d2 !! pid = Some row_new).
    { subst d2. destruct (changed_fields B clean ped row_new); cbn; apply lookup_insert_eq. }
    pose proof (recalc_lookup B d2 pid _ Hp2) as Hl.
    destruct (_recalc_pedido_totais B d2 pid) as [nt d3]. cbn [snd] in Hl.
    destruct (negb (is_none nt) && py_ne nt _); cbn [fst snd].
    + cbn [pedidos insert_log set_pedido_logs]. rewrite Hl. cbn [default].
      eexists _, _. split; [reflexivity|]. split; [reflexivity|]. left. reflexivity.
    + exists row_new. eexists. split; [reflexivity|]. split; [exact Hl|].
      right. eexists. reflexivity.
  - exists row_new, row_new. cbn [fst snd]. split; [reflexivity|].
    split; [|left; reflexivity].
    destruct (changed_fields B clean ped row_new); cbn; apply lookup_insert_eq.
Qed.

End Responses.

(** The header patch of [header_patch_without_quantity] answers with a
    total of 25 while it stores none. *)
Example header_patch_response_stale :
  let r := api_pedidos_update B0 1 [("preco_base", VFloat 25)] d_rascunho in
  (exists shown, r.1 = (BPedido 1 shown, 200)
                 /\ col "preco_total" (ped_cols shown) = VFloat 25)
  /\ stored_total r.2 1 = Some VNone.
Proof.
  cbv zeta. split.
  - eexists. split; [vm_compute; reflexivity|]. vm_compute. reflexivity.
  - vm_compute. reflexivity.
Qed.

(** ** Metrics *)

Section MetricsFacts.

Variable B : builtins.

Lemma float_mul_comm (x y : float) : (x * y = y * x)%float.
Proof.
  apply FloatAxioms.Prim2SF_inj. rewrite !FloatAxioms.mul_spec.
  unfold FloatAxioms.SF64mul, SFmul.
  destruct (Prim2SF x) as [sx|sx| |sx mx ex], (Prim2SF y) as [sy|sy| |sy my ey];
    try reflexivity; rewrite (xorb_comm sx sy); try reflexivity.
  rewrite (Pos.mul_comm mx my), (Z.add_comm ex ey). reflexivity.
Qed.

(** When the loop of the metrics gets through, its sum is the sum of the
    totals engine: no item was skipped, and the products are the same. *)
Lemma metrics_loop_valor (itens : list item) (a a' : metrics_acc) :
  metrics_loop B a itens = Some a' ->
  acc_valor a'
  = foldl (λ total it,
             match py_float B (py_or (col "preco_unit" (item_cols it)) (VInt 0)) with
             | Some pu =>
                 match py_float B (py_or (col "qtd" (item_cols it)) (VInt 0)) with
                 | Some qtd => (total + pu * qtd)%float
                 | None => total
                 end
             | None => total
             end) (acc_valor a) itens.
Proof.
  revert a. induction itens as [|it rest IH]; intros a H; cbn [metrics_loop foldl] in *.
  - injection H as <-. reflexivity.
  - destruct (metrics_item B a it) as [a1|] eqn:E; [|discriminate H].
    rewrite (IH a1 H). f_equal.
    unfold metrics_item in E.
    destruct (py_float B (py_or (col "qtd" _) _)) as [qtd|]; [|discriminate E].
    destruct (py_float B (py_or (col "preco_unit" _) _)) as [pu|]; [|discriminate E].
    destruct (py_float B (py_or (col "peso_unit_kg" _) _)) as [w|]; [|discriminate E].
    destruct (py_upper _) as [tipo|]; [|discriminate E].
    destruct (if String.eqb tipo "UN" then _ else _) as [[un kg] est].
    destruct (py_lower _) as [st|]; [|discriminate E].
    injection E as <-. cbn [acc_valor]. rewrite (float_mul_comm pu qtd). reflexivity.
Qed.

(** X15: the metrics revalidate the stored total: after a successful item
    mutation or status change of an order that has items, the sum that
    [api_pedido_metrics] computes, whenever it computes one, is the stored
    [preco_total] that it reports beside it; when the sum is NaN the
    stored total that it reports is NULL. *)
Theorem metrics_revalidates_total (r : request) (d : db) (pid : Z) (m : metrics) :
  recalculates r pid = true ->
  succeeded (handle B r d).1 = true ->
  api_pedido_metrics B pid (handle B r d).2 = MetricsOk m ->
  total_itens m <> 0%nat ->
  valor_total_registrado m = total_guardado (valor_total_calc m).
Proof.
  intros Hr Hs Hm Hn.
  destruct (handle_total_invariant B r d pid Hr Hs) as (ped & Hp & Ht).
  unfold api_pedido_metrics in Hm. rewrite Hp in Hm. cbv zeta in Hm.
  destruct (metrics_loop _ _) as [a|] eqn:El; [|discriminate Hm].
  injection Hm as <-. cbn [valor_total_registrado valor_total_calc total_itens] in *.
  rewrite Ht. unfold new_total.
  destruct (itens_do_pedido _ pid) as [|it rest] eqn:Ei; [contradiction Hn; reflexivity|].
  rewrite (metrics_loop_valor _ _ _ El). reflexivity.
Qed.

(** The sum of an item of infinitely many units at price zero is NaN: the
    metrics report NaN beside a stored total that is NULL. *)
Example metrics_nan :
  let d := (handle B0 (ItensAdd 1 [("embalagem_code", VStr "EMB13"); ("rev", VStr "R00");
                                   ("qtd", VFloat infinity); ("preco_unit", VInt 0)])
              d_rascunho).2 in
  match api_pedido_metrics B0 1 d with
  | MetricsOk m =>
      PrimFloat.is_nan (valor_total_calc m) = true /\ valor_total_registrado m = VNone
  | _ => False
  end.
Proof. vm_compute. split; reflexivity. Qed.

End MetricsFacts.

(** * Codes of clients and partners, NCM *)

(** The five digits of a number below 100000. *)
Lemma fmt_05d_spec (n : Z) :
  0 <= n <= 99999 ->
  String.length (fmt_05d n) = 5%nat
  /\ all_digits (fmt_05d n) = true
  /\ int_of_digits (fmt_05d n) = Some n.
Proof.
  intros Hn. unfold fmt_05d. destruct (Z.ltb_spec n 0) as [Hneg | _]; [lia|].
  assert (Hl : (String.length (digits (Z.abs_N n)) <= 5)%nat).
  { apply digits_length; [|lia]. change (10 ^ N.of_nat 5)%N with 100000%N. lia. }
  split; [|split].
  - unfold zfill. rewrite string_length_append, length_zeros. lia.
  - unfold zfill. rewrite all_digits_append, all_digits_zeros, digits_all_digits. reflexivity.
  - destruct (uint_of_zfill 5 (Z.abs_N n)) as (u & Hu & Hv).
    rewrite (int_of_digits_unsigned _ _ Hu), Hv. f_equal. lia.
Qed.

Lemma digit_not_space (c : ascii) : is_digit c = true -> is_space c = false.
Proof.
  destruct c as [[|] [|] [|] [|] [|] [|] [|] [|]]; cbv; intros H;
    first [reflexivity | discriminate H].
Qed.

Lemma rstrip_digits (s : string) : all_digits s = true -> rstrip s = s.
Proof.
  induction s as [|c s IH]; [reflexivity|]. cbn [all_digits rstrip].
  intros H. apply andb_true_iff in H as [Hc Hs]. rewrite (IH Hs).
  destruct s; [rewrite (digit_not_space c Hc)|]; reflexivity.
Qed.

(** *** The codes *)

Section Codes.

Variable letra : ascii.
Hypothesis letra_CP : letra = "C"%char \/ letra = "P"%char.

(** The code made from a number below 100000 is selected by LIKE, left
    alone by [strip], and read back by the pattern as that number. *)
Lemma code_of_number (n : Z) :
  0 <= n <= 99999 ->
  like_code letra (Some (String letra (fmt_05d n))) = true
  /\ strip (String letra (fmt_05d n)) = String letra (fmt_05d n)
  /\ code_regex letra (String letra (fmt_05d n)) = Some n.
Proof.
  intros Hn. destruct (fmt_05d_spec n Hn) as (Hl & Hd & Hi).
  split; [|split].
  - cbn [like_code]. rewrite Hl. destruct letra_CP as [-> | ->]; reflexivity.
  - unfold strip. replace (lstrip (String letra (fmt_05d n))) with (String letra (fmt_05d n))
      by (destruct letra_CP as [-> | ->]; reflexivity).
    cbn [rstrip]. rewrite (rstrip_digits _ Hd).
    destruct (fmt_05d n); [discriminate Hl|].
    reflexivity.
  - cbn [code_regex]. rewrite Ascii.eqb_refl, Hl, Hd. exact Hi.
Qed.

Lemma max_step_ge (m : Z) (code : option string) : m <= max_step letra m code.
Proof.
  unfold max_step. destruct code as [[|a s]|]; try lia.
  destruct (code_regex letra _) as [n|]; [|lia].
  destruct (Z.ltb_spec m n); lia.
Qed.

Lemma foldl_max_ge (l : list (option string)) (m : Z) :
  m <= foldl (max_step letra) m l.
Proof.
  revert m. induction l as [|c l IH]; intros m; cbn [foldl]; [lia|].
  pose proof (max_step_ge m c). pose proof (IH (max_step letra m c)). lia.
Qed.

Lemma foldl_max_in (l : list (option string)) (m : Z) (s : string) (n : Z) :
  In (Some s) l -> s <> "" -> code_regex letra (strip s) = Some n ->
  n <= foldl (max_step letra) m l.
Proof.
  revert m. induction l as [|c l IH]; intros m Hin Hs Hr; [destruct Hin|].
  cbn [foldl]. destruct Hin as [-> | Hin]; [|exact (IH _ Hin Hs Hr)].
  pose proof (foldl_max_ge l (max_step letra m (Some s))) as Hge.
  assert (n <= max_step letra m (Some s)); [|lia].
  unfold max_step. destruct s; [contradiction Hs; reflexivity|].
  rewrite Hr. destruct (Z.ltb_spec m n); lia.
Qed.

(** Every number that a stored code carries is at most [max_seq]. *)
Lemma max_seq_ge (codes : list (option string)) (n : Z) :
  0 <= n <= 99999 ->
  In (Some (String letra (fmt_05d n))) codes -> n <= max_seq letra codes.
Proof.
  intros Hn Hin. destruct (code_of_number n Hn) as (Hlike & Hstrip & Hre).
  unfold max_seq. apply (foldl_max_in _ _ (String letra (fmt_05d n)));
    [|discriminate|rewrite Hstrip; exact Hre].
  apply filter_In. split; [exact Hin | exact Hlike].
Qed.

Lemma max_seq_lower (codes : list (option string)) : -1 <= max_seq letra codes.
Proof. apply foldl_max_ge. Qed.

Lemma fmt_05d_99999 : fmt_05d 99999 = "99999".
Proof. reflexivity. Qed.

(** The generated code has the shape of a code: the letter and five
    digits, which the pattern reads back as a number of the range. *)
Lemma next_code_shape (codes : list (option string)) :
  exists n, 0 <= n <= 99999
            /\ next_code letra codes = String letra (fmt_05d n)
            /\ code_regex letra (next_code letra codes) = Some n.
Proof.
  unfold next_code. cbv zeta. pose proof (max_seq_lower codes) as Hlo.
  destruct (Z.ltb_spec 99999 (max_seq letra codes + 1)) as [Hfull | Hroom].
  - exists 99999. split; [lia|]. split; [reflexivity|].
    rewrite <- fmt_05d_99999. apply code_of_number. lia.
  - exists (max_seq letra codes + 1). split; [lia|]. split; [reflexivity|].
    apply code_of_number. lia.
Qed.

(** The generated code is in use already exactly when the last code of
    the range, 99999, is in use: below the limit the code is new, at the
    limit the function returns the last code again. *)
Lemma next_code_taken (codes : list (option string)) :
  In (Some (next_code letra codes)) codes <-> In (Some (String letra "99999")) codes.
Proof.
  unfold next_code. cbv zeta. pose proof (max_seq_lower codes) as Hlo.
  destruct (Z.ltb_spec 99999 (max_seq letra codes + 1)) as [Hfull | Hroom];
    [reflexivity|].
  split; intros Hin.
  - apply max_seq_ge in Hin; lia.
  - rewrite <- fmt_05d_99999 in Hin. apply max_seq_ge in Hin; lia.
Qed.

End Codes.

(** X16: the codes that [generate_next_client_code] and
    [generate_next_partner_code] return are well formed: the letter of the
    table and the five digits of a number between 0 and 99999. *)
Theorem generated_code_wellformed (codes : list (option string)) :
  (exists n, 0 <= n <= 99999
             /\ generate_next_client_code codes = String "C" (fmt_05d n)
             /\ String.length (generate_next_client_code codes) = 6%nat
             /\ code_regex "C" (generate_next_client_code codes) = Some n)
  /\ (exists n, 0 <= n <= 99999
                /\ generate_next_partner_code codes = String "P" (fmt_05d n)
                /\ String.length (generate_next_partner_code codes) = 6%nat
                /\ code_regex "P" (generate_next_partner_code codes) = Some n).
Proof.
  split.
  - destruct (next_code_shape "C" (or_introl eq_refl) codes) as (n & Hn & He & Hr).
    exists n. split; [exact Hn|]. split; [exact He|]. split; [|exact Hr].
    unfold generate_next_client_code. rewrite He. cbn [String.length].
    rewrite (proj1 (fmt_05d_spec n Hn)). reflexivity.
  - destruct (next_code_shape "P" (or_intror eq_refl) codes) as (n & Hn & He & Hr).
    exists n. split; [exact Hn|]. split; [exact He|]. split; [|exact Hr].
    unfold generate_next_partner_code. rewrite He. cbn [String.length].
    rewrite (proj1 (fmt_05d_spec n Hn)). reflexivity.
Qed.

(** X17: the code that [generate_next_client_code] returns is new to the table
    unless C99999 is taken; once C99999 is taken the function returns
    C99999 again, a code that is in use.  The same holds of the partners. *)
Theorem generated_code_fresh (codes : list (option string)) :
  (In (Some (generate_next_client_code codes)) codes <-> In (Some "C99999") codes)
  /\ (In (Some (generate_next_partner_code codes)) codes <-> In (Some "P99999") codes).
Proof.
  split.
  - exact (next_code_taken "C" (or_introl eq_refl) codes).
  - exact (next_code_taken "P" (or_intror eq_refl) codes).
Qed.

(** The code after the largest stored one. *)
Example next_client_code_ex :
  generate_next_client_code
    [Some "C00007"; None; Some "c00042"; Some "C0001x"; Some "X00099"; Some "C00012"]
  = "C00013".
Proof. vm_compute. reflexivity. Qed.

(** ** NCM *)

Lemma keep_digits_all (s : string) : all_digits (keep_digits s) = true.
Proof.
  induction s as [|c s IH]; [reflexivity|]. cbn [keep_digits].
  destruct (is_digit c) eqn:E; [|exact IH]. cbn [all_digits]. rewrite E. exact IH.
Qed.

Lemma keep_digits_id (s : string) : all_digits s = true -> keep_digits s = s.
Proof.
  induction s as [|c s IH]; [reflexivity|]. cbn [all_digits keep_digits].
  intros H. apply andb_true_iff in H as [Hc Hs]. rewrite Hc, (IH Hs). reflexivity.
Qed.

Lemma match_digits_all (k : nat) (s : string) :
  all_digits s = true -> String.length s = k -> match_digits k s = Some "".
Proof.
  revert s. induction k as [|k IH]; intros s Hd Hl.
  - destruct s; [reflexivity | discriminate Hl].
  - destruct s as [|c s]; [discriminate Hl|]. cbn [all_digits] in Hd.
    apply andb_true_iff in Hd as [Hc Hs]. cbn [match_digits]. rewrite Hc.
    apply IH; [exact Hs|]. cbn in Hl. congruence.
Qed.

Lemma normalize_ncm_eq (r : string) :
  r <> "" ->
  normalize_ncm (Some r)
  = if negb (Nat.eqb (String.length (keep_digits r)) 8) then None
    else Some (keep_digits r).
Proof. destruct r; [intros H; contradiction H; reflexivity | reflexivity]. Qed.

(** A normalised NCM is eight digits, is its own normal form, and passes
    the pattern of [validate_ncm_or_none]. *)
Lemma normalize_ncm_some (raw : option string) (c : string) :
  normalize_ncm raw = Some c ->
  String.length c = 8%nat /\ all_digits c = true
  /\ normalize_ncm (Some c) = Some c /\ ncm_code_re c = true.
Proof.
  intros H. destruct raw as [r|]; [|discriminate H].
  destruct (String.eqb_spec r "") as [-> | Hr]; [discriminate H|].
  rewrite (normalize_ncm_eq r Hr) in H.
  destruct (Nat.eqb_spec (String.length (keep_digits r)) 8) as [Hl | Hl];
    [|discriminate H].
  cbn [negb] in H. injection H as <-.
  assert (Hd : all_digits (keep_digits r) = true) by apply keep_digits_all.
  split; [exact Hl|]. split; [exact Hd|]. split.
  - rewrite normalize_ncm_eq.
    + rewrite (keep_digits_id _ Hd), Hl. reflexivity.
    + intros E. rewrite E in Hl. discriminate Hl.
  - unfold ncm_code_re. rewrite (match_digits_all 8 _ Hd Hl). reflexivity.
Qed.

(** X18: on the path of the package form, [normalize_ncm] followed by
    [validate_ncm_or_none], the format error of the validation cannot
    occur: an NCM that is not eight digits once its separators are
    removed is not refused but dropped, and the only refusal left is that
    of a well-formed code missing from the table. *)
Theorem ncm_pipeline (tabela : option (list string)) (raw : option string) :
  match normalize_ncm raw with
  | None => validate_ncm_or_none tabela (normalize_ncm raw) = (true, "")
  | Some c =>
      String.length c = 8%nat /\ all_digits c = true
      /\ normalize_ncm (Some c) = Some c
      /\ validate_ncm_or_none tabela (normalize_ncm raw)
         = match tabela with
           | Some codigos =>
               if existsb (String.eqb c) codigos then (true, "")
               else (false, "NCM inexistente")
           | None => (true, "")
           end
  end.
Proof.
  destruct (normalize_ncm raw) as [c|] eqn:E; [|reflexivity].
  destruct (normalize_ncm_some raw c E) as (Hl & Hd & Hn & Hre).
  split; [exact Hl|]. split; [exact Hd|]. split; [exact Hn|].
  unfold validate_ncm_or_none. rewrite Hre. cbn [negb].
  destruct tabela as [codigos|]; [|reflexivity].
  destruct (existsb _ codigos); reflexivity.
Qed.

Example normalize_ncm_dotted : normalize_ncm (Some "3923.21.10") = Some "39232110".
Proof. reflexivity. Qed.

Example malformed_ncm_dropped :
  validate_ncm_or_none (Some ["39232110"]) (normalize_ncm (Some "3923.21")) = (true, "").
Proof. reflexivity. Qed.

(** * The further properties on the example states *)

Example d_dois_itens : map item_id (pedido_itens d_dois) = [1; 2].
Proof. vm_compute. reflexivity. Qed.

Lemma refused_requests_write_nothing_witness :
  (run B0 [ItensAdd 1 item_5x2;
           ChangeStatus 1 [("status", VStr "RASCUNHO")];
           ItemDelete 1 1] d_concluido).2 = d_concluido.
Proof.
  apply (refused_requests_write_nothing B0 _ d_concluido).
  vm_compute. repeat constructor.
Defined.

Example d_dois_itens_ok : itens_ok d_dois.
Proof.
  split.
  - rewrite d_dois_itens. apply (bool_decide_unpack _). vm_compute. exact I.
  - apply (bool_decide_unpack _). vm_compute. exact I.
Qed.

Lemma other_orders_untouched_witness :
  pedidos (run B0 [ItemDelete 2 2;
                   PedidosCreate "2025-09-03" [("cliente_id", VInt 3)];
                   ItensAdd 3 item_5x2;
                   ChangeStatus 2 [("status", VStr "CANCELADO")]] d_dois).2 !! 1
  = pedidos d_dois !! 1
  /\ itens_do_pedido
       (run B0 [ItemDelete 2 2;
                PedidosCreate "2025-09-03" [("cliente_id", VInt 3)];
                ItensAdd 3 item_5x2;
                ChangeStatus 2 [("status", VStr "CANCELADO")]] d_dois).2 1
     = itens_do_pedido d_dois 1.
Proof.
  apply (other_orders_untouched B0 _ d_dois 1 d_dois_itens_ok).
  - vm_compute. discriminate.
  - repeat constructor.
Defined.

Lemma order_history_witness :
  exists ped',
    pedidos (run B0 [ItensAdd 1 item_5x2;
                     ChangeStatus 1 [("status", VStr "aprovado")];
                     PedidosUpdate 1 [("ncm", VStr "39232110")]] d_rascunho).2 !! 1
    = Some ped'
    /\ numero_pedido ped' = numero_pedido ped_rascunho
    /\ rtc status_step (status ped_rascunho) (status ped')
    /\ forall k, str_in k allowed_fields = false ->
                 ped_cols ped' !! k = ped_cols ped_rascunho !! k.
Proof.
  apply (order_history B0 _ d_rascunho 1 ped_rascunho d_rascunho_lookup).
  vm_compute. discriminate.
Defined.

Lemma terminal_status_final_witness :
  stored_status
    (run B0 [ChangeStatus 1 [("status", VStr "RASCUNHO")];
             OpCreate 1 [];
             ChangeStatus 1 [("status", VStr "CANCELADO")]] d_concluido).2 1
  = status ped_concluido.
Proof.
  apply (terminal_status_final B0 _ d_concluido 1 ped_concluido d_concluido_lookup).
  - vm_compute. discriminate.
  - reflexivity.
Defined.

Example d_aprovado_itens_ok : itens_ok d_aprovado.
Proof.
  split.
  - apply (bool_decide_unpack _). vm_compute. exact I.
  - apply (bool_decide_unpack _). vm_compute. exact I.
Qed.

Lemma items_frozen_after_draft_witness :
  Forall2 (same_on frozen_col)
    (itens_do_pedido d_aprovado 1)
    (itens_do_pedido
       (run B0 [ItemUpdate 1 1 [("qtd", VInt 9); ("status_impressao", VStr "concluida")];
                ItemDelete 1 1;
                ItensAdd 1 item_3x4] d_aprovado).2 1).
Proof.
  apply (items_frozen_after_draft B0 _ d_aprovado 1 ped_aprovado
           d_aprovado_itens_ok d_aprovado_lookup).
  - vm_compute. discriminate.
  - cbn. discriminate.
Defined.

Lemma change_status_success_witness :
  let r := api_pedido_change_status B0 1 [("status", VStr "aprovado")] d_rascunho in
  (exists row, r.1 = (BPedido 1 row, 200)
               /\ pedidos r.2 !! 1 = Some row
               /\ status row = Some "APROVADO")
  /\ pedido_logs r.2
     = (pedido_logs d_rascunho
        ++ [Log 1 "STATUS_CHANGED"
              [("de", JVal (VStr "RASCUNHO")); ("para", JVal (VStr "APROVADO"))]])%list
  /\ pedido_itens r.2 = pedido_itens d_rascunho
  /\ ordens_producao r.2 = ordens_producao d_rascunho.
Proof.
  apply (change_status_success B0 d_rascunho 1 ped_rascunho RASCUNHO APROVADO
           "aprovado" [("status", VStr "aprovado")] d_rascunho_lookup).
  - reflexivity.
  - reflexivity.
  - reflexivity.
  - reflexivity.
Defined.

Lemma recalc_idempotent_witness :
  recalc_total_logged B0 1 (recalc_total_logged B0 1 d_um_item)
  = recalc_total_logged B0 1 d_um_item.
Proof.
  apply (recalc_idempotent B0 d_um_item 1).
  intros H. apply (f_equal (λ o, match o with
                                 | Some (VFloat f) => PrimFloat.is_nan f
                                 | _ => false
                                 end)) in H.
  vm_compute in H. discriminate H.
Defined.

Lemma item_delete_once_witness :
  let d' := (api_pedido_item_delete B0 1 1 d_um_item).2 in
  pedido_itens d' = List.filter (λ it, negb (item_id it =? 1)) (pedido_itens d_um_item)
  /\ find_item d' 1 = None
  /\ api_pedido_item_delete B0 1 1 d' = (not_found "item não encontrado", d').
Proof.
  apply (item_delete_once B0 1 1 d_um_item). vm_compute. reflexivity.
Defined.

Lemma created_is_first_entry_witness :
  exists e rest,
    api_pedido_logs 1 d_aprovado = Some (e :: rest)
    /\ acao e = "CREATED" /\ log_pedido_id e = 1.
Proof.
  apply (created_is_first_entry B0
           [PedidosCreate "2025-09-01" [("cliente_id", VInt 1)];
            ItensAdd 1 item_5x2;
            ChangeStatus 1 [("status", VStr "APROVADO")]] db0 1 ped_aprovado).
  - reflexivity.
  - reflexivity.
  - exact d_aprovado_lookup.
Defined.

Lemma audit_entries_have_orders_witness :
  Forall (λ e, is_Some (pedidos d_aprovado !! log_pedido_id e)) (pedido_logs d_aprovado).
Proof.
  apply (audit_entries_have_orders B0
           [PedidosCreate "2025-09-01" [("cliente_id", VInt 1)];
            ItensAdd 1 item_5x2;
            ChangeStatus 1 [("status", VStr "APROVADO")]] db0).
  - reflexivity.
  - reflexivity.
Defined.

Lemma response_shows_stored_witness :
  shows_stored (handle B0 (ItensAdd 1 item_5x2) d_rascunho).1
               (handle B0 (ItensAdd 1 item_5x2) d_rascunho).2.
Proof.
  apply (response_shows_stored B0 (ItensAdd 1 item_5x2) d_rascunho).
  - intros pid data. discriminate.
  - vm_compute. reflexivity.
Defined.

Lemma header_patch_response_witness :
  exists shown stored,
    (api_pedidos_update B0 1 [("preco_base", VFloat 25)] d_rascunho).1
    = (BPedido 1 shown, 200)
    /\ pedidos (api_pedidos_update B0 1 [("preco_base", VFloat 25)] d_rascunho).2 !! 1
       = Some stored
    /\ (stored = shown \/ exists v, stored = set_col "preco_total" v shown).
Proof.
  apply (header_patch_response B0 1 [("preco_base", VFloat 25)] d_rascunho).
  vm_compute. reflexivity.
Defined.

Lemma metrics_revalidates_total_witness :
  api_pedido_metrics B0 1 (handle B0 (ItensAdd 1 item_5x2) d_rascunho).2
  = MetricsOk m_um_item
  /\ valor_total_registrado m_um_item = total_guardado (valor_total_calc m_um_item).
Proof.
  assert (Hm : api_pedido_metrics B0 1 (handle B0 (ItensAdd 1 item_5x2) d_rascunho).2
               = MetricsOk m_um_item) by (vm_compute; reflexivity).
  split; [exact Hm|].
  apply (metrics_revalidates_total B0 (ItensAdd 1 item_5x2) d_rascunho 1 m_um_item).
  - reflexivity.
  - vm_compute. reflexivity.
  - exact Hm.
  - discriminate.
Defined.
